(** * LAVA dispatcher pipeline: overlay deployment actions, the PyOCD boot
      strategy and the scheduler's database job source.

    A shallow embedding of
      - lava_dispatcher/pipeline/actions/deploy/apply_overlay.py
      - lava_dispatcher/pipeline/actions/deploy/overlay.py
      - lava_dispatcher/pipeline/actions/boot/pyocd.py
      - lava_scheduler_daemon/dbjobsource.py
    The Python code works on nested dictionaries (job parameters, device
    descriptor, the shared job data), on the filesystem and on external
    commands; all three are explicit here.  Logging ([self.logger], and the
    [os.system] call whose status is only logged) touches none of them and
    is left out. *)

From Stdlib Require Import Ascii String List ZArith Lia.
From stdpp Require Import gmap strings list fin_maps.

Open Scope string_scope.

(** ** Python values

    Parameters, device descriptors and the job data are trees of
    dictionaries, sequences and strings. *)

#[local] Set Warnings "-register-all".

Inductive pyval : Type :=
| PNone
| PBool (b : bool)
| PStr (s : string)
| PList (l : list pyval)
| PDict (d : gmap string pyval).

(** Exceptions the modelled code can raise, with the text of those the
    source builds itself.  Only [RuntimeError] is of the RuntimeError
    class: none of the others derives from it. *)
Inductive exn : Type :=
| KeyError (key : string)
| TypeError
| AttributeError
| ValueError (msg : string)
| IOError (path : string)
| OSError (path : string)
| TarError (msg : string)
| RuntimeError (msg : string)
| InfrastructureError (msg : string)
| JobError (msg : string).

Inductive result (A : Type) : Type :=
| Ok (a : A)
| Raise (e : exn).
Arguments Ok {A} a.
Arguments Raise {A} e.

Definition rbind {A B} (r : result A) (k : A -> result B) : result B :=
  match r with Ok a => k a | Raise e => Raise e end.

(** [not v] is [negb (truthy v)]. *)
Definition truthy (v : pyval) : bool :=
  match v with
  | PNone => false
  | PBool b => b
  | PStr s => negb (String.eqb s "")
  | PList l => match l with [] => false | _ => true end
  | PDict d => negb (bool_decide (d = ∅))
  end.

Definition is_None (v : pyval) : bool :=
  match v with PNone => true | _ => false end.

(** [v == 'lit'] for a string literal. *)
Definition eq_str (v : pyval) (lit : string) : bool :=
  match v with PStr s => String.eqb s lit | _ => false end.

Definition occurs (k s : string) : bool :=
  match index 0 k s with Some _ => true | None => false end.

(** [v[k]] with a string key. *)
Definition getitem (v : pyval) (k : string) : result pyval :=
  match v with
  | PDict d => match d !! k with Some x => Ok x | None => Raise (KeyError k) end
  | _ => Raise TypeError
  end.

(** [v.get(k)], which is also [v.get(k, None)]. *)
Definition dict_get (v : pyval) (k : string) : result pyval :=
  match v with
  | PDict d => Ok (default PNone (d !! k))
  | _ => Raise AttributeError
  end.

(** [k in v] for a string [k]. *)
Definition contains (v : pyval) (k : string) : result bool :=
  match v with
  | PDict d => Ok (bool_decide (is_Some (d !! k)))
  | PList l => Ok (existsb (fun x => eq_str x k) l)
  | PStr s => Ok (occurs k s)
  | _ => Raise TypeError
  end.

(** [v[k] = x]. *)
Definition setitem (v : pyval) (k : string) (x : pyval) : result pyval :=
  match v with
  | PDict d => Ok (PDict (<[k := x]> d))
  | _ => Raise TypeError
  end.

(** [v.setdefault(k, x)]: the dictionary afterwards. *)
Definition setdefault (v : pyval) (k : string) (x : pyval) : result pyval :=
  match v with
  | PDict d => Ok (PDict (match d !! k with Some _ => d | None => <[k := x]> d end))
  | _ => Raise AttributeError
  end.

(** ** Strategy selection: pyocd.py *)

Module BootMonitorPyOCD.

(** [BootMonitorPyOCD.accepts]: a class method over the two descriptors
    only, so its embedding takes no state and returns none. *)
Definition accepts (device parameters : pyval) : result bool :=
  rbind (getitem device "actions") (fun actions =>
  rbind (getitem actions "boot") (fun boot =>
  rbind (getitem boot "methods") (fun methods =>
  rbind (contains methods "pyocd") (fun has_pyocd =>
  if negb has_pyocd then Ok false else
  rbind (contains parameters "method") (fun has_method =>
  if negb has_method then Ok false else
  rbind (getitem parameters "method") (fun method =>
  if negb (eq_str method "monitor") then Ok false else
  rbind (contains device "board_id") (fun has_board =>
  if negb has_board then Ok false else
  Ok true))))))).

End BootMonitorPyOCD.


(** ** Paths and the filesystem

    What [os], [os.path] and [tarfile] do, as far as the actions use
    them.  Paths are strings; a relative path is read from the current
    directory. *)

Fixpoint split_last (s : string) : option (string * string) :=
  match s with
  | EmptyString => None
  | String c r =>
      match split_last r with
      | Some (h, t) => Some (String c h, t)
      | None => if Ascii.eqb c "/"%char then Some (EmptyString, r) else None
      end
  end.

(** [os.path.basename], [os.path.dirname], [os.path.join]. *)
Definition basename (p : string) : string :=
  match split_last p with Some (_, t) => t | None => p end.

Definition dirname (p : string) : string :=
  match split_last p with
  | Some (h, _) => if String.eqb h "" then "/" else h
  | None => ""
  end.

Definition is_abs (p : string) : bool :=
  match p with String c _ => Ascii.eqb c "/"%char | EmptyString => false end.

Fixpoint ends_with_slash (p : string) : bool :=
  match p with
  | EmptyString => false
  | String c EmptyString => Ascii.eqb c "/"%char
  | String _ r => ends_with_slash r
  end.

Definition path_join (a b : string) : string :=
  if is_abs b then b
  else if String.eqb a "" then b
  else if ends_with_slash a then a ++ b
  else a ++ "/" ++ b.

(** ['...'.split(' ')]. *)
Fixpoint split_space_aux (cur : string) (s : string) : list string :=
  match s with
  | EmptyString => [cur]
  | String c r =>
      if Ascii.eqb c " "%char then cur :: split_space_aux "" r
      else split_space_aux (cur ++ String c EmptyString) r
  end.

Definition split_space (s : string) : list string := split_space_aux "" s.

(** ['...'.split('/')] and the path its components name. *)
Fixpoint split_slash_aux (cur : string) (s : string) : list string :=
  match s with
  | EmptyString => [cur]
  | String c r =>
      if Ascii.eqb c "/"%char then cur :: split_slash_aux "" r
      else split_slash_aux (cur ++ String c EmptyString) r
  end.

Definition push_component (stack : list string) (c : string) : list string :=
  if String.eqb c "" || String.eqb c "." then stack
  else if String.eqb c ".." then removelast stack
  else (stack ++ [c])%list.

Definition normpath (p : string) : string :=
  let comps := fold_left push_component (split_slash_aux "" p) [] in
  (if is_abs p then "/" else "") ++ String.concat "/" comps.

(** A member of an archive: a directory, or a file with its content. *)
Definition member : Type := string * option string.

Inductive entry : Type :=
| Directory
| Regular (content : string)
| Tarball (members : list member).

Record filesystem : Type := mkFs {
  nodes : gmap string entry;
  mounts : gset string;
  cwd : string;
}.

(** The file a path names: relative paths start at the current directory,
    and [.], [..] and repeated slashes are resolved. *)
Definition resolve (f : filesystem) (p : string) : string :=
  normpath (path_join (cwd f) p).

Definition fs_exists (f : filesystem) (p : string) : bool :=
  bool_decide (is_Some (nodes f !! resolve f p)).

Definition fs_ismount (f : filesystem) (p : string) : bool :=
  bool_decide (resolve f p ∈ mounts f) && fs_exists f p.

Definition fs_put_at (abs : string) (e : entry) (f : filesystem) : filesystem :=
  mkFs (<[abs := e]> (nodes f)) (mounts f) (cwd f).

Definition fs_put (p : string) (e : entry) (f : filesystem) : filesystem :=
  fs_put_at (resolve f p) e f.

Definition fs_remove (p : string) (f : filesystem) : filesystem :=
  mkFs (delete (resolve f p) (nodes f)) (mounts f) (cwd f).

Definition fs_chdir (p : string) (f : filesystem) : filesystem :=
  mkFs (nodes f) (mounts f) (resolve f p).

Definition entry_of_member (m : member) : entry :=
  match m.2 with Some c => Regular c | None => Directory end.

(** [tar.extractall(dir)]: every member lands under [dir]. *)
Definition fs_extract (dir : string) (ms : list member) (f : filesystem) : filesystem :=
  foldl (fun acc m => fs_put (path_join dir m.1) (entry_of_member m) acc) f ms.

(** ** The state the actions run in *)

Record state : Type := mkState {
  data : gmap string pyval;      (* self.data, the job's shared data *)
  fs : filesystem;
  errors : list string;          (* self.errors *)
  sub_command : list pyval;      (* self.sub_command, pyocd only *)
}.

Definition with_data (d : gmap string pyval) (st : state) : state :=
  mkState d (fs st) (errors st) (sub_command st).
Definition with_fs (f : filesystem) (st : state) : state :=
  mkState (data st) f (errors st) (sub_command st).
Definition with_errors (e : list string) (st : state) : state :=
  mkState (data st) (fs st) e (sub_command st).
Definition with_sub_command (c : list pyval) (st : state) : state :=
  mkState (data st) (fs st) (errors st) c.

(** A Python method body: it ends with a value or an exception, and what
    it changed before an exception stays changed. *)
Definition Py (A : Type) : Type := state -> result A * state.

#[export] Instance Py_ret : MRet Py := fun A a st => (Ok a, st).
#[export] Instance Py_bind : MBind Py := fun A B k m st =>
  match m st with
  | (Ok a, st') => k a st'
  | (Raise e, st') => (Raise e, st')
  end.

Definition raise {A} (e : exn) : Py A := fun st => (Raise e, st).
Definition lift {A} (r : result A) : Py A := fun st => (r, st).
Definition gets {A} (f : state -> A) : Py A := fun st => (Ok (f st), st).
Definition modify (f : state -> state) : Py unit := fun st => (Ok tt, f st).

(** [try: m except tarfile.TarError as exc: h exc] *)
Definition except_TarError {A} (m : Py A) (h : string -> Py A) : Py A := fun st =>
  match m st with
  | (Raise (TarError msg), st') => h msg st'
  | r => r
  end.

(** [try: m except OSError as exc: h exc] *)
Definition except_OSError {A} (m : Py A) (h : string -> Py A) : Py A := fun st =>
  match m st with
  | (Raise (OSError p), st') => h p st'
  | r => r
  end.

(** [try: m except InfrastructureError: h] *)
Definition except_InfrastructureError {A} (m : Py A) (h : Py A) : Py A := fun st =>
  match m st with
  | (Raise (InfrastructureError _), st') => h st'
  | r => r
  end.

(** [try: m except: h], the bare handler. *)
Definition except_any {A} (m : Py A) (h : Py A) : Py A := fun st =>
  match m st with
  | (Raise _, st') => h st'
  | r => r
  end.

(** [str(v)] as [%s] formats it; the actions only format strings. *)
Definition str_of (v : pyval) : string :=
  match v with
  | PStr s => s
  | PNone => "None"
  | PBool true => "True"
  | PBool false => "False"
  | PList _ => "[...]"
  | PDict _ => "{...}"
  end.

(** [os.path.exists(v)], [os.path.ismount(v)]: a [stat] of something that
    is not a string is a TypeError. *)
Definition os_path_exists (v : pyval) : Py bool :=
  match v with
  | PStr p => gets (fun st => fs_exists (fs st) p)
  | _ => raise TypeError
  end.

Definition os_path_ismount (v : pyval) : Py bool :=
  match v with
  | PStr p => gets (fun st => fs_ismount (fs st) p)
  | _ => raise TypeError
  end.

(** [tarfile.open(name)] for reading: "nothing to open" without a name, an
    IOError when the file cannot be opened, a [ReadError] (a [TarError])
    when it is no archive. *)
Definition tarfile_open (name : pyval) : Py (list member) :=
  if negb (truthy name) then raise (ValueError "nothing to open")
  else match name with
       | PStr p => fun st =>
           match nodes (fs st) !! resolve (fs st) p with
           | Some (Tarball ms) => (Ok ms, st)
           | Some (Regular _) => (Raise (TarError "file could not be opened successfully"), st)
           | Some Directory => (Raise (IOError p), st)
           | None => (Raise (IOError p), st)
           end
       | _ => raise TypeError
       end.

(** [tar.extractall(dir)]: joining a member's name to a [dir] that is not
    a string fails at the first member ([os.path.join] asks [dir] for
    [endswith]). *)
Definition tar_extractall (ms : list member) (dir : pyval) : Py unit :=
  match dir with
  | PStr d => modify (fun st => with_fs (fs_extract d ms (fs st)) st)
  | _ => match ms with
         | [] => mret tt
         | _ => raise AttributeError
         end
  end.

(** [os.unlink], [os.rename], [os.mkdir], [os.getcwd], [os.chdir]. *)
Definition os_unlink (p : string) : Py unit := fun st =>
  match nodes (fs st) !! resolve (fs st) p with
  | Some (Regular _) | Some (Tarball _) => (Ok tt, with_fs (fs_remove p (fs st)) st)
  | _ => (Raise (OSError p), st)
  end.

Definition os_rename (src dst : string) : Py unit := fun st =>
  match nodes (fs st) !! resolve (fs st) src with
  | Some e => (Ok tt, with_fs (fs_put dst e (fs_remove src (fs st))) st)
  | None => (Raise (OSError src), st)
  end.

Definition os_mkdir (p : string) : Py unit := fun st =>
  match nodes (fs st) !! resolve (fs st) p with
  | Some _ => (Raise (OSError p), st)
  | None => (Ok tt, with_fs (fs_put p Directory (fs st)) st)
  end.

Definition os_getcwd : Py string := gets (fun st => cwd (fs st)).

Definition os_chdir (p : string) : Py unit := fun st =>
  match nodes (fs st) !! resolve (fs st) p with
  | Some Directory => (Ok tt, with_fs (fs_chdir p (fs st)) st)
  | _ => (Raise (OSError p), st)
  end.

(** The members [tar.add(name)] stores: [name] itself and what lies below
    it. *)
Definition is_below (root p : string) : bool :=
  String.eqb root p || String.prefix (root ++ "/") p.

Definition members_below (f : filesystem) (name : string) : list member :=
  let root := resolve f name in
  omap (fun '(p, e) =>
          if is_below root p then
            Some (name ++ substring (String.length root) (String.length p) p,
                  match e with Regular c => Some c | Tarball _ => Some "" | Directory => None end)
          else None)
       (map_to_list (nodes f)).

(** [self.data[a]], [self.data[a][k]] and writes to the latter. *)
Definition data_entry (a : string) : Py pyval :=
  fun st => (getitem (PDict (data st)) a, st).

Definition data_set (a k : string) (v : pyval) : Py unit := fun st =>
  match getitem (PDict (data st)) a with
  | Ok e => match setitem e k v with
            | Ok e' => (Ok tt, with_data (<[a := e']> (data st)) st)
            | Raise x => (Raise x, st)
            end
  | Raise x => (Raise x, st)
  end.

Definition data_setdefault (a k : string) (v : pyval) : Py unit := fun st =>
  match getitem (PDict (data st)) a with
  | Ok e => match setdefault e k v with
            | Ok e' => (Ok tt, with_data (<[a := e']> (data st)) st)
            | Raise x => (Raise x, st)
            end
  | Raise x => (Raise x, st)
  end.

(** ** What lies outside the modelled files *)

(** Helpers and constants of this repository that the actions import from
    modules not modelled here ([utils.constants], [utils.filesystem],
    [utils.shell], [utils.strings], the command runners of [Action]), and
    the external processes they start.  They are parameters: each may read
    and change the whole state, and may raise. *)
Record externals : Type := mkExternals {
  RAMDISK_COMPRESSED_FNAME : string;
  RAMDISK_FNAME : string;
  mkdtemp : option string -> Py string;
  which : string -> Py string;
  infrastructure_error : pyval -> Py (option string);
  run_command : list string -> Py pyval;
  check_output_shell : string -> Py string;
  get_namespace_data : string -> pyval -> string -> Py pyval;
  substitute : list pyval -> gmap string pyval -> list pyval;
}.

(** The fields of an action (and of its job) that its methods only read. *)
Record action : Type := mkAction {
  parameters : gmap string pyval;       (* self.parameters *)
  level : string;                       (* self.level *)
  job_parameters : gmap string pyval;   (* self.job.parameters *)
  job_device : gmap string pyval;       (* self.job.device *)
}.

(** [self.parameters.get(k, None)] *)
Definition param_get (self : action) (k : string) : pyval :=
  default PNone (parameters self !! k).

(** Modelled from the spec: the [errors] setter of the base class Action,
    which is not among the sources.  "Failures append to [errors] and set
    the Action invalid"; assigning nothing (None, an empty text) records
    nothing. *)
Definition set_errors (e : option string) : Py unit :=
  match e with
  | Some msg =>
      if String.eqb msg "" then mret tt
      else modify (fun st => with_errors (errors st ++ [msg]) st)
  | None => mret tt
  end.

(** Modelled from the spec: [Action.valid] of the base class; an action is
    valid while its [errors] list is empty. *)
Definition valid (st : state) : bool :=
  match errors st with [] => true | _ => false end.

(** Modelled from the spec: [Action.validate] of the base class, for an
    action whose name, summary and description are set and which has no
    internal pipeline: nothing to record. *)
Definition Action_validate : Py unit := mret tt.

(** Modelled from the spec: [Action.run] of the base class, for an action
    without an internal pipeline: "non-boot Actions must return the same
    Connection they received". *)
Definition Action_run {Conn : Type} (connection : Conn) : Py Conn := mret connection.

(** Modelled from the spec: [Pipeline.run_actions]; "invokes each child's
    run() in order, passing the connection thread-through; if a child
    raises a fatal error, the Pipeline aborts remaining siblings". *)
Fixpoint run_actions {Conn : Type} (actions : list (Conn -> Py Conn)) (connection : Conn)
  : Py Conn :=
  match actions with
  | [] => mret connection
  | a :: rest => c ← a connection; run_actions rest c
  end.

Definition as_path (v : pyval) : Py string :=
  match v with PStr s => mret s | _ => raise TypeError end.

Definition as_str (v : pyval) : Py string :=
  match v with PStr s => mret s | _ => raise AttributeError end.

(** ** apply_overlay.py *)

Module ApplyOverlay.
Section Actions.
Context {Conn : Type} (X : externals) (self : action).

(** [ApplyOverlayImage.run] *)
Definition ApplyOverlayImage_run (connection : Conn) : Py Conn :=
  co ← data_entry "compress-overlay";
  out ← lift (dict_get co "output");
  if negb (truthy out) then raise (RuntimeError "Unable to find the overlay") else
  lm ← data_entry "loop_mount";
  mntdir ← lift (getitem lm "mntdir");
  ism ← os_path_ismount mntdir;
  if negb ism then
    lm ← data_entry "loop_mount";
    mntdir ← lift (getitem lm "mntdir");
    raise (RuntimeError ("Image overlay requested to be applied but "
                           ++ str_of mntdir ++ " is not a mountpoint"))
  else
  except_TarError
    (co ← data_entry "compress-overlay";
     out ← lift (dict_get co "output");
     tar ← tarfile_open out;
     lm ← data_entry "loop_mount";
     mntdir ← lift (getitem lm "mntdir");
     tar_extractall tar mntdir)
    (fun exc => raise (RuntimeError ("Unable to unpack overlay: " ++ exc)));;
  mret connection.

(** [ApplyOverlayTftp.run] *)
Definition ApplyOverlayTftp_run (connection : Conn) : Py Conn :=
  sel ← (if negb (is_None (param_get self "ramdisk")) then
           co ← data_entry "compress-overlay";
           overlay_file ← lift (dict_get co "output");
           er ← data_entry "extract-overlay-ramdisk";
           directory ← lift (getitem er "extracted_ramdisk");
           mret ("ramdisk", overlay_file, directory)
         else if negb (is_None (param_get self "nfsrootfs")) then
           co ← data_entry "compress-overlay";
           overlay_file ← lift (dict_get co "output");
           en ← data_entry "extract-nfsrootfs";
           directory ← lift (dict_get en "nfsroot");
           mret ("nfsrootfs", overlay_file, directory)
         else mret ("", PNone, PNone));
  let '(overlay_type, overlay_file, directory) := sel in
  except_TarError
    (tar ← tarfile_open overlay_file;
     tar_extractall tar directory)
    (fun exc => raise (RuntimeError ("Unable to unpack " ++ overlay_type
                                       ++ " overlay: " ++ exc)));;
  mret connection.

(** [ExtractNfsRootfs.validate] *)
Definition ExtractNfsRootfs_validate : Py unit :=
  Action_validate;;
  if negb (truthy (param_get self "nfsrootfs")) then mret tt else
  has ← gets (fun st => bool_decide (is_Some (data st !! "download_action")));
  (if negb has then
     set_errors (Some "missing download_action in parameters")
   else
     da ← data_entry "download_action";
     n ← lift (getitem da "nfsrootfs");
     has_file ← lift (contains n "file");
     if negb has_file then set_errors (Some "no file specified extract as nfsrootfs")
     else mret tt);;
  e ← os_path_exists (PStr "/usr/sbin/exportfs");
  if negb e then
    raise (InfrastructureError "NFS job requested but nfs-kernel-server not installed.")
  else mret tt.

(** [ExtractNfsRootfs.run] *)
Definition ExtractNfsRootfs_run (connection : Conn) : Py Conn :=
  if negb (truthy (param_get self "nfsrootfs")) then mret connection else
  da ← data_entry "download_action";
  n ← lift (getitem da "nfsrootfs");
  nfsroot ← lift (getitem n "file");
  nfsroot_dir ← mkdtemp X (Some "/var/lib/lava/dispatcher/tmp");
  except_TarError
    (tar ← tarfile_open nfsroot;
     tar_extractall tar (PStr nfsroot_dir))
    (fun exc => raise (JobError ("Unable to unpack nfsroot: '"
                                   ++ basename (str_of nfsroot) ++ "' - " ++ exc)));;
  data_setdefault "extract-nfsrootfs" "nfsroot" (PStr nfsroot_dir);;
  mret connection.

(** [ExtractModules.validate] *)
Definition ExtractModules_validate : Py unit :=
  Action_validate;;
  if negb (truthy (param_get self "modules")) then mret tt else mret tt.

(** [ExtractModules.run] *)
Definition ExtractModules_run (connection : Conn) : Py Conn :=
  if negb (truthy (param_get self "modules")) then mret connection else
  root ← (if negb (truthy (param_get self "ramdisk")) then
            if negb (truthy (param_get self "nfsrootfs")) then
              raise (RuntimeError "Unable to identify unpack location")
            else
              en ← data_entry "extract-nfsrootfs";
              lift (getitem en "nfsroot")
          else
            er ← data_entry "extract-overlay-ramdisk";
            lift (getitem er "extracted_ramdisk"));
  da ← data_entry "download_action";
  m ← lift (getitem da "modules");
  modules ← lift (getitem m "file");
  except_TarError
    (tar ← tarfile_open modules;
     tar_extractall tar root)
    (fun _ => raise (RuntimeError ("Unable to extract tarball: " ++ str_of modules
                                     ++ " to " ++ str_of root)));;
  except_OSError
    (p ← as_path modules; os_unlink p)
    (fun exc => raise (RuntimeError ("Unable to remove tarball: '" ++ str_of modules
                                       ++ "' - " ++ exc)));;
  mret connection.

(** [ExtractRamdisk.validate] *)
Definition ExtractRamdisk_validate : Py unit :=
  Action_validate;;
  if negb (truthy (param_get self "ramdisk")) then mret tt else mret tt.

(** [x is not ''] *)
Definition is_not_empty_str (v : pyval) : bool :=
  match v with PStr s => negb (String.eqb s "") | _ => true end.

(** [ExtractRamdisk.run] *)
Definition ExtractRamdisk_run (connection : Conn) : Py Conn :=
  if negb (truthy (param_get self "ramdisk")) then mret connection else
  da ← data_entry "download_action";
  r ← lift (getitem da "ramdisk");
  ramdisk ← lift (getitem r "file");
  ramdisk_dir ← mkdtemp X None;
  let extracted_ramdisk := path_join ramdisk_dir "ramdisk" in
  os_mkdir extracted_ramdisk;;
  let ramdisk_compressed_data := path_join ramdisk_dir (RAMDISK_COMPRESSED_FNAME X) in
  (if eq_str (param_get self "ramdisk-type") "u-boot" then
     let cmd := split_space ("dd if=" ++ str_of ramdisk ++ " of="
                               ++ ramdisk_compressed_data ++ " ibs=64 skip=1") in
     except_any (run_command X cmd;; mret tt)
       (raise (RuntimeError ("Unable to remove uboot header: " ++ str_of ramdisk)))
   else
     src ← as_path ramdisk;
     os_rename src ramdisk_compressed_data);;
  out ← run_command X (split_space ("gzip -d -f " ++ ramdisk_compressed_data));
  if is_not_empty_str out then
    raise (RuntimeError ("Unable to uncompress: " ++ ramdisk_compressed_data))
  else
  let ramdisk_data := path_join ramdisk_dir (RAMDISK_FNAME X) in
  pwd ← os_getcwd;
  os_chdir extracted_ramdisk;;
  out ← run_command X (split_space ("cpio -i -F " ++ ramdisk_data));
  if negb (truthy out) then
    raise (RuntimeError ("Unable to uncompress: " ++ ramdisk_data))
  else
  os_chdir pwd;;
  data_set "extract-overlay-ramdisk" "extracted_ramdisk" (PStr extracted_ramdisk);;
  data_set "extract-overlay-ramdisk" "ramdisk_file" (PStr ramdisk_data);;
  mret connection.

(** [CompressRamdisk.validate] *)
Definition CompressRamdisk_validate : Py unit :=
  Action_validate;;
  if negb (truthy (param_get self "ramdisk")) then mret tt else
  except_InfrastructureError
    (which X "mkimage";; mret tt)
    (raise (InfrastructureError "Unable to find mkimage - is u-boot-tools installed?")).

(** [CompressRamdisk.run] *)
Definition CompressRamdisk_run (connection : Conn) : Py Conn :=
  if negb (truthy (param_get self "ramdisk")) then mret connection else
  er ← data_entry "extract-overlay-ramdisk";
  has_dir ← lift (contains er "extracted_ramdisk");
  if negb has_dir then raise (RuntimeError "Unable to find unpacked ramdisk") else
  er ← data_entry "extract-overlay-ramdisk";
  has_file ← lift (contains er "ramdisk_file");
  if negb has_file then raise (RuntimeError "Unable to find ramdisk directory") else
  er ← data_entry "extract-overlay-ramdisk";
  ramdisk_dir ← lift (getitem er "extracted_ramdisk");
  ramdisk_data ← lift (getitem er "ramdisk_file");
  pwd ← os_getcwd;
  d ← as_path ramdisk_dir;
  os_chdir d;;
  let cmd := "find . | cpio --create --format='newc' > " ++ str_of ramdisk_data in
  except_OSError
    (check_output_shell X cmd;; mret tt)
    (fun exc => raise (RuntimeError ("Unable to create cpio filesystem: " ++ exc)));;
  ramdisk_data_s ← as_str ramdisk_data;
  os_chdir (dirname ramdisk_data_s);;
  out ← run_command X (split_space ("gzip " ++ ramdisk_data_s));
  if is_not_empty_str out then raise (RuntimeError "Unable to compress cpio filesystem") else
  os_chdir pwd;;
  let final_file := path_join (dirname ramdisk_data_s) "ramdisk.cpio.gz" in
  da ← data_entry "download_action";
  r ← lift (getitem da "ramdisk");
  f ← lift (getitem r "file");
  f_s ← as_str f;
  let tftp_dir := dirname f_s in
  final_file ← (if eq_str (param_get self "ramdisk-type") "u-boot" then
                  let ramdisk_uboot := final_file ++ ".uboot" in
                  let cmd := split_space ("mkimage -A arm -T ramdisk -C none -d "
                                            ++ final_file ++ " " ++ ramdisk_uboot) in
                  out ← run_command X cmd;
                  if negb (truthy out) then
                    raise (RuntimeError "Unable to add uboot header to ramdisk")
                  else mret ramdisk_uboot
                else mret final_file);
  os_rename final_file (path_join tftp_dir (basename final_file));;
  data_set "compress-ramdisk" "ramdisk" (PStr final_file);;
  mret connection.

(** [PrepareOverlayTftp.run], over the runs of the actions [populate] put
    into its internal pipeline. *)
Definition PrepareOverlayTftp_run (internal_pipeline : list (Conn -> Py Conn))
    (connection : Conn) : Py Conn :=
  connection ← run_actions internal_pipeline connection;
  cr ← data_entry "compress-ramdisk";
  ramdisk ← lift (dict_get cr "ramdisk");
  if truthy ramdisk then mret connection
  else mret connection.

(** [PrepareOverlayTftp.populate]: the order of the internal pipeline;
    [OverlayAction_run] is the run of the action of overlay.py, which
    itself runs actions not modelled here. *)
Definition PrepareOverlayTftp_populate (OverlayAction_run : Conn -> Py Conn)
  : list (Conn -> Py Conn) :=
  [ ExtractNfsRootfs_run; OverlayAction_run; ExtractRamdisk_run;
    ExtractModules_run; ApplyOverlayTftp_run; CompressRamdisk_run ].

End Actions.
End ApplyOverlay.

(** ** overlay.py *)

Module Overlay.
Section Actions.
Context {Conn : Type} (X : externals) (self : action).

(** [with tarfile.open(output, "w:gz") as tar]: the archive file is
    created empty; a directory of that name cannot be opened for writing.
    The value is the file the archive object writes to, wherever the
    process changes directory to afterwards. *)
Definition tarfile_create (output : string) : Py string := fun st =>
  let p := resolve (fs st) output in
  match nodes (fs st) !! p with
  | Some Directory => (Raise (IOError output), st)
  | _ => (Ok p, with_fs (fs_put_at p (Tarball []) (fs st)) st)
  end.

(** [tar.add(name)] into the archive opened at [archive]: [name] must
    exist ([lstat]), and is stored with what lies below it. *)
Definition tar_add (archive name : string) : Py unit := fun st =>
  if fs_exists (fs st) name then
    (Ok tt, with_fs (fs_put_at archive (Tarball (members_below (fs st) name)) (fs st)) st)
  else (Raise (OSError name), st).

(** [CompressOverlay.run] *)
Definition CompressOverlay_run (connection : Conn) : Py Conn :=
  lo ← data_entry "lava-overlay";
  has_location ← lift (contains lo "location");
  if negb has_location then raise (RuntimeError "Missing lava overlay location") else
  lo ← data_entry "lava-overlay";
  loc ← lift (getitem lo "location");
  e ← os_path_exists loc;
  if negb e then raise (RuntimeError "Unable to find overlay location") else
  v ← gets valid;
  if negb v then mret connection else
  connection ← Action_run connection;
  lo ← data_entry "lava-overlay";
  location ← lift (getitem lo "location");
  output_dir ← lift (getitem (PDict (job_parameters self)) "output_dir");
  output_dir ← as_str output_dir;
  let output := path_join output_dir ("overlay-" ++ level self ++ ".tar.gz") in
  cur_dir ← os_getcwd;
  except_TarError
    (tar ← tarfile_create output;
     location ← as_path location;
     os_chdir location;;
     results_dir ← data_entry "lava_test_results_dir";
     tar_add tar ("." ++ str_of results_dir))
    (fun exc =>
       set_errors (Some ("Unable to create lava overlay tarball: " ++ exc));;
       raise (RuntimeError ("Unable to create lava overlay tarball: " ++ exc)));;
  os_chdir cur_dir;;
  data_set "compress-overlay" "output" (PStr output);;
  mret connection.

End Actions.
End Overlay.

(** ** pyocd.py: the validation of the monitor action *)

Module PyOCD.
Section Actions.
Context (X : externals) (self : action).

(** [f()]: the job data holds dictionaries, sequences and strings, and
    none of them can be called. *)
Definition call (f : pyval) : result pyval := Raise TypeError.

(** [for x in v] *)
Definition iterate (v : pyval) : result (list pyval) :=
  match v with
  | PList l => Ok l
  | PDict d => Ok (PStr <$> (map_to_list d).*1)
  | PStr s => Ok ((fun c => PStr (String c EmptyString)) <$> list_ascii_of_string s)
  | _ => Raise TypeError
  end.

(** ['-b ' + v] *)
Definition str_add (s : string) (v : pyval) : result pyval :=
  match v with PStr t => Ok (PStr (s ++ t)) | _ => Raise TypeError end.

(** The body of the loop over the download actions; [continue] is the
    recursive call that leaves the two accumulators alone. *)
Fixpoint download_loop (actions : list pyval) (substitutions : gmap string pyval)
    (commands : list pyval) : Py (gmap string pyval * list pyval) :=
  match actions with
  | [] => mret (substitutions, commands)
  | a :: rest =>
      image_arg ← get_namespace_data X "download_action" a "image_arg";
      action_arg ← get_namespace_data X "download_action" a "file";
      if negb (truthy image_arg) || negb (truthy action_arg) then
        set_errors (Some ("Missing image_arg for " ++ str_of a ++ ". "));;
        download_loop rest substitutions commands
      else
        download_loop rest
          (<["{" ++ str_of a ++ "}" := action_arg]> substitutions)
          (commands ++ [image_arg])
  end.

(** [MonitorPyOCDAction.validate] *)
Definition MonitorPyOCDAction_validate : Py unit :=
  Action_validate;;
  actions ← lift (getitem (PDict (job_device self)) "actions");
  b ← lift (getitem actions "boot");
  methods ← lift (getitem b "methods");
  boot ← lift (getitem methods "pyocd");
  bp ← lift (getitem boot "parameters");
  pyocd_binary ← lift (getitem bp "command");
  e ← infrastructure_error X pyocd_binary;
  set_errors e;;
  modify (with_sub_command [PStr "flock -o /var/lock/lava-pyocd.lck"; pyocd_binary]);;
  bp ← lift (getitem boot "parameters");
  options ← lift (match bp with
                  | PDict d => Ok (default (PList []) (d !! "options"))
                  | _ => Raise AttributeError
                  end);
  options ← lift (iterate options);
  modify (fun st => with_sub_command (sub_command st ++ options) st);;
  board_id ← lift (getitem (PDict (job_device self)) "board_id");
  (if eq_str board_id "0000000000" then set_errors (Some "board_id unset") else mret tt);;
  board_id ← lift (getitem (PDict (job_device self)) "board_id");
  first ← lift (str_add "-b " board_id);
  let commands := [first] in
  let namespace := default (PStr "common") (parameters self !! "namespace") in
  namespace ← lift (match namespace with
                    | PStr s => Ok s
                    | PList _ | PDict _ => Raise TypeError
                    | _ => Raise (KeyError (str_of namespace))
                    end);
  ns ← data_entry namespace;
  download_keys ← lift (getitem ns "download_action");
  keys ← lift (call download_keys);
  keys ← lift (iterate keys);
  r ← download_loop keys ∅ commands;
  let '(substitutions, commands) := r in
  modify (fun st => with_sub_command (sub_command st ++ substitute X commands substitutions) st);;
  sc ← gets sub_command;
  match sc with
  | [] => set_errors (Some "No PyOCD command to execute")
  | _ => mret tt
  end.

End Actions.
End PyOCD.

(** ** dbjobsource.py *)

Module DbJobSource.

(** The rows of [lava_scheduler_app.models], as far as the job source
    reads and writes them.  [Device.current_job] is unique among the
    devices (the comment in [getJobForBoard_impl]). *)
Inductive device_status : Type := OFFLINE | IDLE | DEVICE_RUNNING | OFFLINING.
Inductive job_status : Type := SUBMITTED | RUNNING | COMPLETE | INCOMPLETE | CANCELED.

#[export] Instance device_status_eq_dec : EqDecision device_status.
Proof. solve_decision. Defined.
#[export] Instance job_status_eq_dec : EqDecision job_status.
Proof. solve_decision. Defined.

Record Device : Type := mkDevice {
  hostname : string;                 (* primary key *)
  status : device_status;
  current_job : option nat;          (* the job's id *)
}.

Record TestJob : Type := mkTestJob {
  id : nat;                          (* primary key *)
  target : string;                   (* the device's hostname *)
  jstatus : job_status;
  submit_time : nat;
  start_time : option nat;
  definition : string;
}.

Record database : Type := mkDb {
  devices : list Device;
  jobs : list TestJob;
}.

(** [row.save()]: the row with that primary key is replaced. *)
Definition save_device (d : Device) (db : database) : database :=
  mkDb (map (fun r => if String.eqb (hostname r) (hostname d) then d else r) (devices db))
       (jobs db).

Definition save_job (j : TestJob) (db : database) : database :=
  mkDb (devices db)
       (map (fun r => if Nat.eqb (id r) (id j) then j else r) (jobs db)).

(** What a transaction has written and not yet committed. *)
Inductive write : Type :=
| WDevice (d : Device)
| WJob (j : TestJob).

Definition apply_write (db : database) (w : write) : database :=
  match w with
  | WDevice d => save_device d db
  | WJob j => save_job j db
  end.

(** What a transaction reads: the committed rows under its own writes. *)
Definition view (db : database) (pending : list write) : database :=
  foldl apply_write db pending.

(** Where an invocation of [getJobForBoard_impl] stands: before each of
    its statements that goes to the database, or at its end. *)
Inductive position : Type :=
| AtGet                                         (* Device.objects.get(hostname=board_name) *)
| AtFilter (device : Device)                    (* the query for the device's jobs *)
| AtSaveDevice (device : Device) (job : TestJob)  (* device.save() *)
| AtRollback                                    (* transaction.rollback(); continue *)
| AtSaveJob (job : TestJob)                     (* job.save() *)
| AtCommit (job : TestJob)                      (* transaction.commit() *)
| Returned (r : option string)                  (* return ... *)
| Raised.                                       (* Device.DoesNotExist and the like *)

Record invocation : Type := mkInvocation {
  board_name : string;
  at_ : position;
  pending : list write;
}.

(** The uniqueness of [current_job]: another device already has this job. *)
Definition conflict (db : database) (d : Device) : bool :=
  existsb (fun r => negb (String.eqb (hostname r) (hostname d))
                    && bool_decide (is_Some (current_job d))
                    && bool_decide (current_job r = current_job d))
          (devices db).

(** [Device.objects.get(hostname=board_name)] succeeds when exactly one
    row has the name. *)
Definition for_board (board : string) (db : database) : list Device :=
  List.filter (fun r => String.eqb (hostname r) board) (devices db).

(** [TestJob.objects.all().filter(target=device, status=TestJob.SUBMITTED)];
    the value of [order_by('submit_time')] is dropped by the source, so
    the rows come in the table's order. *)
Definition queued_for (device : Device) (db : database) : list TestJob :=
  List.filter (fun j => String.eqb (target j) (hostname device)
                        && bool_decide (jstatus j = SUBMITTED)) (jobs db).

(** The rows as the invocation changes them before saving. *)
Definition claimed_device (device : Device) (job : TestJob) : Device :=
  mkDevice (hostname device) DEVICE_RUNNING (Some (id job)).

Definition started_job (now : nat) (job : TestJob) : TestJob :=
  mkTestJob (id job) (target job) RUNNING (submit_time job) (Some now) (definition job).

(** One statement of [getJobForBoard_impl], with the local computation
    that follows it.  [now] is [datetime.datetime.utcnow()]; the value
    returned is the job's definition, which [json.loads] parses. *)
Definition step (now : nat) (db : database) (t : invocation) : database * invocation :=
  let v := view db (pending t) in
  match at_ t with
  | AtGet =>
      match for_board (board_name t) v with
      | [device] =>
          if bool_decide (status device <> IDLE)
          then (db, mkInvocation (board_name t) (Returned None) (pending t))
          else (db, mkInvocation (board_name t) (AtFilter device) (pending t))
      | _ => (db, mkInvocation (board_name t) Raised (pending t))
      end
  | AtFilter device =>
      let jobs_for_device := queued_for device v in
      match jobs_for_device with
      | job :: _ =>
          (db, mkInvocation (board_name t)
                 (AtSaveDevice (claimed_device device job) (started_job now job))
                 (pending t))
      | [] => (db, mkInvocation (board_name t) (Returned None) (pending t))
      end
  | AtSaveDevice device job =>
      if conflict v device
      then (db, mkInvocation (board_name t) AtRollback (pending t))
      else (db, mkInvocation (board_name t) (AtSaveJob job) (pending t ++ [WDevice device]))
  | AtRollback => (db, mkInvocation (board_name t) AtGet [])
  | AtSaveJob job =>
      (db, mkInvocation (board_name t) (AtCommit job) (pending t ++ [WJob job]))
  | AtCommit job =>
      (v, mkInvocation (board_name t) (Returned (Some (definition job))) [])
  | Returned _ | Raised => (db, t)
  end.

Definition start (board : string) : invocation := mkInvocation board AtGet [].

Definition finished (t : invocation) : bool :=
  match at_ t with Returned _ | Raised => true | _ => false end.

(** [getJobForBoard_impl] run alone, from its first statement to its
    return; the fuel bounds the statements executed, as [while True] has
    no bound of its own. *)
Fixpoint run (fuel : nat) (now : nat) (db : database) (t : invocation)
  : option (database * position) :=
  if finished t then Some (db, at_ t)
  else match fuel with
       | 0 => None
       | S n => let '(db', t') := step now db t in run n now db' t'
       end.

Definition getJobForBoard_impl (fuel now : nat) (db : database) (board : string)
  : option (database * position) :=
  run fuel now db (start board).

(** Two invocations in separate threads, each in its own transaction: a
    schedule says which of the two executes its next statement. *)
Record threads : Type := mkThreads {
  shared : database;
  first : invocation;
  second : invocation;
}.

Definition step_thread (now : nat) (c : threads) (who : bool) : threads :=
  if who then
    let '(db', t') := step now (shared c) (first c) in mkThreads db' t' (second c)
  else
    let '(db', t') := step now (shared c) (second c) in mkThreads db' (first c) t'.

Definition schedule (now : nat) (c : threads) (s : list bool) : threads :=
  foldl (step_thread now) c s.

End DbJobSource.

(** ** The deploy actions as the pipeline sees them *)

Module Deploy.

(** The actions of apply_overlay.py and overlay.py modelled above, and the
    method [action.run(connection)] resolves to for each. *)
Inductive kind : Type :=
| ApplyOverlayImage
| ApplyOverlayTftp
| ExtractNfsRootfs
| ExtractModules
| ExtractRamdisk
| CompressRamdisk
| CompressOverlay.

Definition run {Conn : Type} (k : kind) (X : externals) (self : action)
  : Conn -> Py Conn :=
  match k with
  | ApplyOverlayImage => ApplyOverlay.ApplyOverlayImage_run
  | ApplyOverlayTftp => ApplyOverlay.ApplyOverlayTftp_run self
  | ExtractNfsRootfs => ApplyOverlay.ExtractNfsRootfs_run X self
  | ExtractModules => ApplyOverlay.ExtractModules_run self
  | ExtractRamdisk => ApplyOverlay.ExtractRamdisk_run X self
  | CompressRamdisk => ApplyOverlay.CompressRamdisk_run X self
  | CompressOverlay => Overlay.CompressOverlay_run self
  end.

End Deploy.

(** ** Specification vocabulary *)

(** ['k' in m], as a proposition: key of a mapping, element of a sequence,
    part of a string. *)
Definition listed (k : string) (m : pyval) : Prop :=
  match m with
  | PDict d => is_Some (d !! k)
  | PList l => PStr k ∈ l
  | PStr s => exists n, index 0 k s = Some n
  | _ => False
  end.

(** The capability table [device['actions']['boot']['methods']]. *)
Definition boot_methods (device : pyval) : option pyval :=
  match device with
  | PDict d =>
      match d !! "actions" with
      | Some (PDict a) =>
          match a !! "boot" with
          | Some (PDict b) => b !! "methods"
          | _ => None
          end
      | _ => None
      end
  | _ => None
  end.

(** The three conditions under which the PyOCD monitor strategy applies. *)
Definition accepts_conditions (device parameters : pyval) : Prop :=
  (exists m, boot_methods device = Some m /\ listed "pyocd" m) /\
  (exists p, parameters = PDict p /\ p !! "method" = Some (PStr "monitor")) /\
  (exists d, device = PDict d /\ is_Some (d !! "board_id")).

(** The table [device['actions']['boot']['methods']['pyocd']['parameters']]. *)
Definition pyocd_parameters (device : gmap string pyval) : option (gmap string pyval) :=
  match boot_methods (PDict device) with
  | Some (PDict m) =>
      match m !! "pyocd" with
      | Some (PDict b) =>
          match b !! "parameters" with
          | Some (PDict bp) => Some bp
          | _ => None
          end
      | _ => None
      end
  | _ => None
  end.

(** What the two validations raise for a missing tool. *)
Definition exportfs_missing : exn :=
  InfrastructureError "NFS job requested but nfs-kernel-server not installed.".

Definition mkimage_missing : exn :=
  InfrastructureError "Unable to find mkimage - is u-boot-tools installed?".

(** A mapping or a sequence. *)
Definition is_container (m : pyval) : Prop :=
  match m with PDict _ | PList _ => True | _ => False end.

(** A run that, when it returns, returns the connection [c]. *)
Definition returns_only {Conn : Type} (c : Conn) (m : Py Conn) : Prop :=
  forall st c' st', m st = (Ok c', st') -> c' = c.

(** A method body that never drops a recorded error. *)
Definition keeps_errors {A : Type} (m : Py A) : Prop :=
  forall st, exists new : list string, errors (m st).2 = (errors st ++ new)%list.

(** ** Sample inputs *)

Module Sample.

Definition pyocd_device : gmap string pyval :=
  {[ "actions" := PDict {[ "boot" := PDict {[ "methods" :=
       PDict {[ "pyocd" := PDict {[ "parameters" :=
         PDict {[ "command" := PStr "pyocd-flashtool" ]} ]} ]} ]} ]};
     "board_id" := PStr "0240000028884e45" ]}.

Definition monitor_parameters : gmap string pyval :=
  {[ "method" := PStr "monitor" ]}.

(** A job whose overlay has been assembled under /tmp/lava-overlay. *)
Definition overlay_fs : filesystem :=
  mkFs {[ "/" := Directory;
          "/tmp/lava-overlay" := Directory;
          "/tmp/lava-overlay/lava-1" := Directory;
          "/tmp/lava-overlay/lava-1/bin" := Directory;
          "/tmp/lava-overlay/lava-1/bin/lava-test-runner" := Regular "#!/bin/sh";
          "/var/lib/job" := Directory;
          "/mnt/image" := Directory ]}
       {[ "/mnt/image" ]} "/".

Definition overlay_state : state :=
  mkState {[ "lava-overlay" := PDict {[ "location" := PStr "/tmp/lava-overlay" ]};
             "compress-overlay" := PDict ∅;
             "lava_test_results_dir" := PStr "/lava-1";
             "loop_mount" := PDict {[ "mntdir" := PStr "/mnt/image" ]} ]}
          overlay_fs [] [].

(** The same job before the overlay action has recorded its location. *)
Definition no_location_state : state :=
  mkState {[ "lava-overlay" := PDict ∅; "compress-overlay" := PDict ∅ ]}
          overlay_fs [] [].

(** The same job with an error recorded on the compressing action. *)
Definition invalid_state : state :=
  with_errors ["Unable to locate lava_test_shell support scripts."] overlay_state.

Definition overlay_action : action :=
  mkAction ∅ "1.2.3" {[ "output_dir" := PStr "/var/lib/job" ]} ∅.

(** The state the compressing action leaves behind. *)
Definition compressed_state : state :=
  (Overlay.CompressOverlay_run overlay_action tt overlay_state).2.

(** A TFTP deployment with an NFS root file system: the archive has been
    downloaded, unpacked to /srv/nfs/root, and the overlay compressed. *)
Definition nfs_action : action :=
  mkAction {[ "nfsrootfs" := PStr "http://images/rootfs.tar.gz" ]} "1.4"
           {[ "output_dir" := PStr "/var/lib/job" ]} ∅.

Definition nfs_state : state :=
  mkState {[ "download_action" :=
               PDict {[ "nfsrootfs" := PDict {[ "file" := PStr "/var/lib/job/rootfs.tar.gz" ]} ]};
             "compress-overlay" :=
               PDict {[ "output" := PStr "/var/lib/job/overlay-1.2.3.tar.gz" ]};
             "extract-nfsrootfs" := PDict {[ "nfsroot" := PStr "/srv/nfs/root" ]} ]}
          (fs compressed_state) [] [].

(** The same deployment when nothing upstream has written its results. *)
Definition nfs_unwritten_state : state :=
  mkState {[ "compress-overlay" := PDict ∅; "extract-nfsrootfs" := PDict ∅;
             "extract-overlay-ramdisk" := PDict ∅; "compress-ramdisk" := PDict ∅ ]}
          overlay_fs [] [].

(** A deployment that asks for kernel modules on an NFS root. *)
Definition modules_action : action :=
  mkAction {[ "nfsrootfs" := PStr "http://images/rootfs.tar.gz";
              "modules" := PStr "http://images/modules.tar.gz" ]} "1.5"
           {[ "output_dir" := PStr "/var/lib/job" ]} ∅.

(** A deployment that asks for kernel modules in a ramdisk. *)
Definition modules_ramdisk_action : action :=
  mkAction {[ "ramdisk" := PStr "http://images/ramdisk.cpio.gz";
              "modules" := PStr "http://images/modules.tar.gz" ]} "1.5"
           {[ "output_dir" := PStr "/var/lib/job" ]} ∅.

(** A deployment with a ramdisk. *)
Definition ramdisk_action : action :=
  mkAction {[ "ramdisk" := PStr "http://images/ramdisk.cpio.gz" ]} "1.6"
           {[ "output_dir" := PStr "/var/lib/job" ]} ∅.

(** A board whose serial number was never filled in. *)
Definition unset_board_device : gmap string pyval :=
  <[ "board_id" := PStr "0000000000" ]> pyocd_device.

Definition pyocd_action : action :=
  mkAction monitor_parameters "2.1.1" {[ "output_dir" := PStr "/var/lib/job" ]}
           unset_board_device.

Definition pyocd_state : state :=
  mkState {[ "common" := PDict {[ "download_action" := PDict ∅ ]} ]} overlay_fs [] [].

(** Two boards, one job queued for the first; and two invocations of the
    job source for that board, each about to start. *)
Definition board_db : DbJobSource.database :=
  DbJobSource.mkDb
    [ DbJobSource.mkDevice "panda01" DbJobSource.IDLE None;
      DbJobSource.mkDevice "panda02" DbJobSource.IDLE None ]
    [ DbJobSource.mkTestJob 1 "panda01" DbJobSource.SUBMITTED 10 None "{'job_name': 'boot-test'}" ].

(** The other board already holds the job as its current job. *)
Definition taken_db : DbJobSource.database :=
  DbJobSource.mkDb
    [ DbJobSource.mkDevice "panda01" DbJobSource.IDLE None;
      DbJobSource.mkDevice "panda02" DbJobSource.DEVICE_RUNNING (Some 1) ]
    [ DbJobSource.mkTestJob 1 "panda01" DbJobSource.SUBMITTED 10 None "{'job_name': 'boot-test'}" ].

(** The queued job, and the first board and the tables once it has been
    claimed at time 0. *)
Definition queued_job : DbJobSource.TestJob :=
  DbJobSource.mkTestJob 1 "panda01" DbJobSource.SUBMITTED 10 None "{'job_name': 'boot-test'}".

Definition claimed_board : DbJobSource.Device :=
  DbJobSource.mkDevice "panda01" DbJobSource.DEVICE_RUNNING (Some 1).

Definition claimed_db : DbJobSource.database :=
  DbJobSource.save_job (DbJobSource.started_job 0 queued_job)
    (DbJobSource.save_device claimed_board board_db).

Definition racing : DbJobSource.threads :=
  DbJobSource.mkThreads board_db (DbJobSource.start "panda01") (DbJobSource.start "panda01").

(** The two take turns, statement by statement. *)
Definition taking_turns : list bool :=
  [true; false; true; false; true; false; true; false; true; false].

(** One way the helpers outside the modelled files can behave: commands
    live in /usr/bin and succeed silently. *)
Definition sample_externals : externals :=
  mkExternals "ramdisk.cpio.gz" "ramdisk.cpio"
    (fun basedir => os_mkdir (path_join (default "/tmp" basedir) "tmpdir");;
                    mret (path_join (default "/tmp" basedir) "tmpdir"))
    (fun cmd => e ← os_path_exists (PStr ("/usr/bin/" ++ cmd));
                if e : bool then mret ("/usr/bin/" ++ cmd)
                else raise (InfrastructureError ("Cannot find command '" ++ cmd ++ "' in $PATH")))
    (fun v => e ← os_path_exists (PStr (path_join "/usr/bin" (str_of v)));
              if e : bool then mret None
              else mret (Some ("Cannot find command '" ++ str_of v ++ "' in $PATH")))
    (fun _ => mret (PStr ""))
    (fun _ => mret "")
    (fun _ _ _ => mret PNone)
    (fun commands _ => commands).

End Sample.

(** ** dbjobsource.py: the board list and the completion of a job *)

Module JobCompletion.
Import DbJobSource.

(** [getBoardList_impl] *)
Definition getBoardList_impl (db : database) : list string :=
  map hostname (devices db).

(** What [objects.get] raises when the row is not there, or not alone. *)
Inductive orm_error : Type := DoesNotExist | MultipleObjectsReturned.

Definition get_one {A : Type} (rows : list A) : orm_error + A :=
  match rows with
  | [x] => inr x
  | [] => inl DoesNotExist
  | _ => inl MultipleObjectsReturned
  end.

(** The tables, with the [end_time] column of the jobs kept beside the
    rows, by job id. *)
Record store : Type := mkStore {
  rows : database;
  end_time : gmap nat nat;
}.

(** [TestJob.objects.get(target=device, status=TestJob.RUNNING)] looks
    among these. *)
Definition running_for (device : Device) (db : database) : list TestJob :=
  List.filter (fun j => String.eqb (target j) (hostname device)
                        && bool_decide (jstatus j = RUNNING)) (jobs db).

Definition idle_device (device : Device) : Device :=
  mkDevice (hostname device) IDLE None.

Definition completed_job (job : TestJob) : TestJob :=
  mkTestJob (id job) (target job) COMPLETE (submit_time job) (start_time job)
            (definition job).

(** [jobCompleted_impl], under [commit_on_success]: the two saves are
    its last statements, so an exception leaves the tables as they were.
    [now] is [datetime.datetime.utcnow()]. *)
Definition jobCompleted_impl (now : nat) (s : store) (board_name : string)
  : orm_error + store :=
  match get_one (for_board board_name (rows s)) with
  | inl e => inl e
  | inr device =>
      let device := idle_device device in
      match get_one (running_for device (rows s)) with
      | inl e => inl e
      | inr job =>
          let job := completed_job job in
          inr (mkStore (save_job job (save_device device (rows s)))
                       (<[id job := now]> (end_time s)))
      end
  end.

(** How an invocation of [getJobForBoard_impl] that ran alone can have
    ended: without a change to the tables, or with the claim of the first
    row the query for the board's jobs gave. *)
Inductive outcome_of (now : nat) (db : database) (board : string)
  : database * position -> Prop :=
| no_such_board :
    (forall device, for_board board db <> [device]) ->
    outcome_of now db board (db, Raised)
| board_busy device :
    for_board board db = [device] -> status device <> IDLE ->
    outcome_of now db board (db, Returned None)
| nothing_queued device :
    for_board board db = [device] -> status device = IDLE ->
    queued_for device db = [] ->
    outcome_of now db board (db, Returned None)
| job_claimed device job rest :
    for_board board db = [device] -> status device = IDLE ->
    queued_for device db = job :: rest ->
    conflict db (claimed_device device job) = false ->
    outcome_of now db board
      (save_job (started_job now job) (save_device (claimed_device device job) db),
       Returned (Some (definition job))).

(** No two boards have the same current job: the constraint the database
    keeps on [Device.current_job]. *)
Definition unique_current_job (db : database) : bool :=
  forallb (fun d => negb (conflict db d)) (devices db).

End JobCompletion.

(** ** service.py: the set of boards the daemon drives *)

Module Service.

(** The values of the model that can be keys of a dictionary: None, a
    boolean, a string.  A list or a dictionary is unhashable. *)
Definition hashable : Type := option (bool + string).

Definition hash_key (v : pyval) : result hashable :=
  match v with
  | PNone => Ok None
  | PBool b => Ok (Some (inl b))
  | PStr s => Ok (Some (inr s))
  | PList _ | PDict _ => Raise TypeError
  end.

(** The class [Board] is defined in board.py, which is not among the
    modelled files.  A board is the name it was created with and its place
    in the order of creation, which tells one object from another of the
    same name; the calls of [start] and [stop] are recorded in the order
    they are made, and are taken to return. *)
Record Board : Type := mkBoard { serial : nat; board_name : hashable }.

Inductive call : Type :=
| Start (board : Board)
| Stop (board : Board).

Record BoardSet : Type := mkBoardSet {
  boards : gmap hashable Board;      (* self.boards *)
  calls : list call;
  created : nat;                     (* how many boards were created so far *)
}.

(** The first loop of [BoardSet._cbUpdateBoards]: [self.boards] is changed
    in place by [pop], so what was popped stays popped when a later
    configuration raises; [new_boards] is local. *)
Fixpoint update_loop (board_cfgs : list pyval) (new_boards : gmap hashable Board)
    (self : BoardSet) : result (gmap hashable Board) * BoardSet :=
  match board_cfgs with
  | [] => (Ok new_boards, self)
  | board_cfg :: rest =>
      match rbind (getitem board_cfg "hostname") hash_key with
      | Raise e => (Raise e, self)
      | Ok board_name =>
          match boards self !! board_name with
          | Some board =>
              update_loop rest (<[board_name := board]> new_boards)
                (mkBoardSet (delete board_name (boards self)) (calls self) (created self))
          | None =>
              let board := mkBoard (created self) board_name in
              update_loop rest (<[board_name := board]> new_boards)
                (mkBoardSet (boards self) (calls self ++ [Start board]) (S (created self)))
          end
      end
  end.

(** [BoardSet._cbUpdateBoards] *)
Definition _cbUpdateBoards (board_cfgs : list pyval) (self : BoardSet)
  : result unit * BoardSet :=
  match update_loop board_cfgs ∅ self with
  | (Raise e, self) => (Raise e, self)
  | (Ok new_boards, self) =>
      (Ok tt, mkBoardSet new_boards
                (calls self ++ (Stop <$> (map_to_list (boards self)).*2))
                (created self))
  end.

End Service.

(** ** Further sample inputs *)

Module MoreSamples.
Import DbJobSource.

Definition panda01 : Device := mkDevice "panda01" IDLE None.

(** Two jobs queued for one board: the one submitted later comes first in
    the table. *)
Definition late_job : TestJob :=
  mkTestJob 7 "panda01" SUBMITTED 50 None "{'job_name': 'late'}".

Definition early_job : TestJob :=
  mkTestJob 3 "panda01" SUBMITTED 10 None "{'job_name': 'early'}".

Definition order_db : database := mkDb [panda01] [late_job; early_job].

(** The overlay job of [Sample] when the recorded output is not an
    archive, and when the results directory was never created. *)
Definition not_an_archive_state : state :=
  with_data (<["compress-overlay" :=
                 PDict {[ "output" := PStr "/tmp/lava-overlay/lava-1/bin/lava-test-runner" ]}]>
               (data Sample.overlay_state)) Sample.overlay_state.

Definition archive_gone_state : state :=
  with_data (<["compress-overlay" :=
                 PDict {[ "output" := PStr "/var/lib/job/overlay-1.2.3.tar.gz" ]}]>
               (data Sample.overlay_state)) Sample.overlay_state.

Definition no_results_state : state :=
  with_data (<["lava_test_results_dir" := PStr "/lava-2"]> (data Sample.overlay_state))
            Sample.overlay_state.

(** A deployment that names both a ramdisk and an NFS root, with both
    unpacked. *)
Definition both_action : action :=
  mkAction {[ "ramdisk" := PStr "http://images/ramdisk.cpio.gz";
              "nfsrootfs" := PStr "http://images/rootfs.tar.gz" ]} "1.4"
           {[ "output_dir" := PStr "/var/lib/job" ]} ∅.

Definition both_state : state :=
  mkState {[ "compress-overlay" :=
               PDict {[ "output" := PStr "/var/lib/job/overlay-1.2.3.tar.gz" ]};
             "extract-nfsrootfs" := PDict {[ "nfsroot" := PStr "/srv/nfs/root" ]};
             "extract-overlay-ramdisk" :=
               PDict {[ "extracted_ramdisk" := PStr "/tmp/tmpdir/ramdisk" ]} ]}
          (fs Sample.compressed_state) [] [].

(** A deployment whose ramdisk parameter is set to the empty string. *)
Definition empty_ramdisk_action : action :=
  mkAction {[ "ramdisk" := PStr "" ]} "1.6" {[ "output_dir" := PStr "/var/lib/job" ]} ∅.

(** Downloads on disk: kernel modules, a root file system and a ramdisk. *)
Definition downloads_fs : filesystem :=
  mkFs {[ "/" := Directory;
          "/var/lib/job" := Directory;
          "/var/lib/job/modules.tar.gz" :=
            Tarball [("lib/modules/4.4.0/kernel/drivers/net/e1000.ko", Some "ELF")];
          "/var/lib/job/rootfs.tar.gz" :=
            Tarball [("etc", None); ("etc/hostname", Some "lava")];
          "/var/lib/job/ramdisk.cpio.gz" := Regular "cpio";
          "/srv/nfs/root" := Directory ]}
       ∅ "/".

Definition downloads_state : state :=
  mkState {[ "download_action" :=
               PDict {[ "modules" := PDict {[ "file" := PStr "/var/lib/job/modules.tar.gz" ]};
                        "nfsrootfs" := PDict {[ "file" := PStr "/var/lib/job/rootfs.tar.gz" ]};
                        "ramdisk" := PDict {[ "file" := PStr "/var/lib/job/ramdisk.cpio.gz" ]} ]};
             "extract-nfsrootfs" := PDict {[ "nfsroot" := PStr "/srv/nfs/root" ]};
             "extract-overlay-ramdisk" := PDict ∅;
             "compress-ramdisk" := PDict ∅ ]}
          downloads_fs [] [].

(** Modules asked for without a ramdisk or an NFS root. *)
Definition modules_only_action : action :=
  mkAction {[ "modules" := PStr "http://images/modules.tar.gz" ]} "1.5"
           {[ "output_dir" := PStr "/var/lib/job" ]} ∅.

(** Helpers whose commands succeed: [gzip] and [dd] print nothing, [cpio]
    and [mkimage] report what they did. *)
Definition working_externals : externals :=
  mkExternals "ramdisk.cpio.gz" "ramdisk.cpio"
    (fun basedir => os_mkdir (path_join (default "/tmp" basedir) "tmpdir");;
                    mret (path_join (default "/tmp" basedir) "tmpdir"))
    (fun cmd => mret ("/usr/bin/" ++ cmd))
    (fun _ => mret None)
    (fun cmd => match cmd with
                | "cpio" :: _ => mret (PStr "1 block")
                | "mkimage" :: _ => mret (PStr "Image Type: ARM Linux RAMDisk Image")
                | _ => mret (PStr "")
                end)
    (fun _ => mret "")
    (fun _ _ _ => mret PNone)
    (fun commands _ => commands).

(** The state the ramdisk extraction leaves behind, and the same when only
    the directory was recorded. *)
Definition extracted_state : state :=
  (ApplyOverlay.ExtractRamdisk_run working_externals Sample.ramdisk_action tt
     downloads_state).2.

Definition half_extracted_state : state :=
  with_data (<["extract-overlay-ramdisk" :=
                 PDict {[ "extracted_ramdisk" := PStr "/tmp/tmpdir/ramdisk" ]}]>
               (data downloads_state)) downloads_state.

(** After the modules have been unpacked onto the NFS root, and after
    [mkdtemp] has made the directory for a second NFS root. *)
Definition modules_unpacked_state : state :=
  (ApplyOverlay.ExtractModules_run Sample.modules_action tt downloads_state).2.

Definition tmpdir_state : state :=
  (mkdtemp working_externals (Some "/var/lib/lava/dispatcher/tmp") downloads_state).2.

(** After the ramdisk has been put together again. *)
Definition recompressed_state : state :=
  (ApplyOverlay.CompressRamdisk_run working_externals Sample.ramdisk_action tt
     extracted_state).2.

(** Downloads that are not archives: the server answered with a page. *)
Definition corrupt_state : state :=
  mkState {[ "download_action" :=
               PDict {[ "modules" := PDict {[ "file" := PStr "/var/lib/job/modules.tar.gz" ]};
                        "nfsrootfs" := PDict {[ "file" := PStr "/var/lib/job/rootfs.tar.gz" ]} ]};
             "extract-nfsrootfs" := PDict ∅;
             "extract-overlay-ramdisk" :=
               PDict {[ "extracted_ramdisk" := PStr "/tmp/tmpdir/ramdisk" ]} ]}
          (mkFs {[ "/" := Directory;
                   "/var/lib/job" := Directory;
                   "/var/lib/job/modules.tar.gz" := Regular "<html>404</html>";
                   "/var/lib/job/rootfs.tar.gz" := Regular "<html>404</html>" ]}
                ∅ "/")
          [] [].

(** A TFTP deployment on an NFS root before its pipeline runs, with the
    overlay of [Sample] assembled; then after [mkdtemp], after the root
    file system has been unpacked, and after the overlay has been
    compressed. *)
Definition tftp_state : state :=
  mkState {[ "download_action" :=
               PDict {[ "nfsrootfs" := PDict {[ "file" := PStr "/var/lib/job/rootfs.tar.gz" ]} ]};
             "extract-nfsrootfs" := PDict ∅;
             "lava-overlay" := PDict {[ "location" := PStr "/tmp/lava-overlay" ]};
             "lava_test_results_dir" := PStr "/lava-1";
             "compress-overlay" := PDict ∅;
             "compress-ramdisk" := PDict ∅ ]}
          (fs_put_at "/var/lib/job/rootfs.tar.gz"
             (Tarball [("etc", None); ("etc/hostname", Some "lava")]) Sample.overlay_fs)
          [] [].

Definition tftp_tmpdir_state : state :=
  (mkdtemp working_externals (Some "/var/lib/lava/dispatcher/tmp") tftp_state).2.

Definition tftp_unpacked_state : state :=
  with_data (<["extract-nfsrootfs" :=
                 PDict {[ "nfsroot" := PStr "/var/lib/lava/dispatcher/tmp/tmpdir" ]}]>
               (data tftp_tmpdir_state))
    (with_fs (fs_extract "/var/lib/lava/dispatcher/tmp/tmpdir"
                [("etc", None); ("etc/hostname", Some "lava")] (fs tftp_tmpdir_state))
       tftp_tmpdir_state).

Definition tftp_overlaid_state : state :=
  (Overlay.CompressOverlay_run Sample.nfs_action tt tftp_unpacked_state).2.

(** A daemon that drives panda01 and panda02, and the configurations of
    panda02 and panda03. *)
Definition two_boards : Service.BoardSet :=
  Service.mkBoardSet
    {[ Some (inr "panda01") := Service.mkBoard 0 (Some (inr "panda01"));
       Some (inr "panda02") := Service.mkBoard 1 (Some (inr "panda02")) ]}
    [Service.Start (Service.mkBoard 0 (Some (inr "panda01")));
     Service.Start (Service.mkBoard 1 (Some (inr "panda02")))]
    2.

Definition later_cfgs : list pyval :=
  [PDict {[ "hostname" := PStr "panda02" ]}; PDict {[ "hostname" := PStr "panda03" ]}].

(** The same configurations with one that has no hostname in between. *)
Definition broken_cfgs : list pyval :=
  [PDict {[ "hostname" := PStr "panda02" ]}; PDict ∅;
   PDict {[ "hostname" := PStr "panda03" ]}].

End MoreSamples.

(** * Properties *)

(** ** The monad: how a body steps *)

Lemma bind_Ok {A B} (m : Py A) (k : A -> Py B) st a st1 :
  m st = (Ok a, st1) -> (m ≫= k) st = k a st1.
Proof. intros H. unfold mbind, Py_bind. by rewrite H. Qed.

Lemma bind_inv_Ok {A B} (m : Py A) (k : A -> Py B) st b st' :
  (m ≫= k) st = (Ok b, st') ->
  exists a st1, m st = (Ok a, st1) /\ k a st1 = (Ok b, st').
Proof.
  unfold mbind, Py_bind. destruct (m st) as [[a | e] st1]; [eauto | discriminate].
Qed.

Lemma except_TarError_inv_Ok {A} (m : Py A) h st a st' :
  except_TarError m h st = (Ok a, st') ->
  m st = (Ok a, st') \/ exists msg st1, m st = (Raise (TarError msg), st1) /\ h msg st1 = (Ok a, st').
Proof.
  unfold except_TarError. destruct (m st) as [[x | e] st1]; [by left |].
  destruct e; try discriminate. eauto.
Qed.

Lemma data_entry_Some a v st : data st !! a = Some v -> data_entry a st = (Ok v, st).
Proof. intros H. unfold data_entry. simpl. by rewrite H. Qed.

Lemma data_entry_inv a v st st' :
  data_entry a st = (Ok v, st') -> st' = st /\ data st !! a = Some v.
Proof.
  unfold data_entry. simpl. destruct (data st !! a); intros [=]; by subst.
Qed.

Lemma lift_inv {A} (r : result A) a st st' :
  lift r st = (Ok a, st') -> st' = st /\ r = Ok a.
Proof. unfold lift. by intros [= -> ->]. Qed.

Lemma getitem_inv v k x :
  getitem v k = Ok x -> exists d, v = PDict d /\ d !! k = Some x.
Proof.
  destruct v; simpl; try discriminate.
  destruct (d !! k) eqn:E; intros [=]; subst; eauto.
Qed.

Lemma dict_get_inv v k x :
  dict_get v k = Ok x -> exists d, v = PDict d /\ x = default PNone (d !! k).
Proof. destruct v; simpl; try discriminate. intros [=]; eauto. Qed.

(** Stepping through a body: rewrite the state reads with what is known. *)
Ltac py_unfold :=
  unfold mbind, Py_bind, mret, Py_ret, lift, raise, gets, modify, data_entry,
    os_path_exists, os_path_ismount, Action_run, Action_validate in *.

Ltac py_inv H :=
  let a := fresh "a" in
  let st1 := fresh "st" in
  let H1 := fresh "H" in
  apply bind_inv_Ok in H as (a & st1 & H1 & H).

(** ** The strategy predicate *)

Section AcceptsFacts.
Import BootMonitorPyOCD.

Lemma eq_str_true v k : eq_str v k = true <-> v = PStr k.
Proof.
  destruct v; simpl; try (split; [discriminate | intros [=]]).
  rewrite String.eqb_eq. split; [congruence | intros [=]; done].
Qed.

Lemma contains_true m k : contains m k = Ok true <-> listed k m.
Proof.
  destruct m as [| b | s | l | d]; simpl.
  - split; [discriminate | tauto].
  - split; [discriminate | tauto].
  - unfold occurs. destruct (index 0 k s) as [n|].
    + split; [eauto | done].
    + split; [discriminate | intros [n [=]]].
  - rewrite list_elem_of_In. split.
    + intros [= H]. apply existsb_exists in H as (x & Hx & He).
      apply eq_str_true in He. by subst x.
    + intros Hx. f_equal. apply existsb_exists.
      exists (PStr k). split; [done | by apply eq_str_true].
  - split.
    + intros [= H]. by apply bool_decide_eq_true in H.
    + intros H. f_equal. by apply bool_decide_eq_true.
Qed.

Lemma contains_container m k :
  is_container m -> exists b, contains m k = Ok b /\ (b = true <-> listed k m).
Proof.
  intros Hm.
  assert (exists b, contains m k = Ok b) as [b Hb].
  { destruct m; simpl in *; try done; eauto. }
  exists b. split; [done |]. rewrite <- contains_true, Hb.
  split; [by intros -> | by intros [=]].
Qed.

Lemma boot_methods_getitem device m :
  boot_methods device = Some m <->
  exists a b, getitem device "actions" = Ok a /\ getitem a "boot" = Ok b /\
              getitem b "methods" = Ok m.
Proof.
  split.
  - destruct device as [| | | | d]; simpl; try discriminate.
    destruct (d !! "actions") as [[| | | | a] |] eqn:Ea; try discriminate.
    destruct (a !! "boot") as [[| | | | b] |] eqn:Eb; try discriminate.
    intros Hm. exists (PDict a), (PDict b). simpl. by rewrite Eb, Hm.
  - intros (a & b & Ha & Hb & Hm).
    apply getitem_inv in Ha as (d & -> & Ha).
    apply getitem_inv in Hb as (a' & -> & Hb).
    apply getitem_inv in Hm as (b' & -> & Hm).
    simpl. by rewrite Ha, Hb.
Qed.

(** The predicate answers True exactly under the three conditions. *)
Lemma accepts_true_iff device parameters :
  accepts device parameters = Ok true <-> accepts_conditions device parameters.
Proof.
  unfold accepts_conditions. split.
  - unfold accepts, rbind.
    destruct (getitem device "actions") as [a |] eqn:Ea; [| discriminate].
    destruct (getitem a "boot") as [b |] eqn:Eb; [| discriminate].
    destruct (getitem b "methods") as [m |] eqn:Em; [| discriminate].
    destruct (contains m "pyocd") as [[|] |] eqn:Ec; simpl; try discriminate.
    destruct (contains parameters "method") as [[|] |] eqn:Ep; simpl; try discriminate.
    destruct (getitem parameters "method") as [x |] eqn:Ex; [| discriminate].
    destruct (eq_str x "monitor") eqn:Eq; simpl; [| discriminate].
    destruct (contains device "board_id") as [[|] |] eqn:Eb'; simpl; try discriminate.
    intros _. apply eq_str_true in Eq as ->.
    apply getitem_inv in Ex as (p & -> & Hp).
    pose proof Ea as Ea'. apply getitem_inv in Ea' as (d & -> & Hd).
    split; [| split].
    + exists m. split; [| by apply contains_true].
      apply boot_methods_getitem. eauto.
    + eauto.
    + exists d. split; [done |]. by apply contains_true in Eb'.
  - intros ((m & Hm & Hl) & (p & -> & Hp) & (d & -> & Hb)).
    apply boot_methods_getitem in Hm as (a & b & Ha & Hb' & Hm).
    unfold accepts, rbind. rewrite Ha, Hb', Hm.
    apply contains_true in Hl. rewrite Hl. simpl.
    assert (bool_decide (is_Some (p !! "method")) = true) as ->
      by (apply bool_decide_eq_true; eauto).
    assert (bool_decide (is_Some (d !! "board_id")) = true) as ->
      by (by apply bool_decide_eq_true).
    simpl. by rewrite Hp.
Qed.

(** On a device that carries the capability table, with a mapping of
    parameters, the predicate always answers. *)
Lemma accepts_answers d p m :
  boot_methods (PDict d) = Some m -> is_container m ->
  exists b, accepts (PDict d) (PDict p) = Ok b.
Proof.
  intros Hm Hc. apply boot_methods_getitem in Hm as (a & b & Ha & Hb & Hm).
  destruct (contains_container m "pyocd" Hc) as (x & Hx & _).
  unfold accepts, rbind. rewrite Ha, Hb, Hm, Hx.
  destruct x; simpl; [| eauto].
  destruct (bool_decide (is_Some (p !! "method"))) eqn:E; simpl; [| eauto].
  apply bool_decide_eq_true in E as [v Hv]. rewrite Hv.
  destruct (eq_str v "monitor"); simpl; [| eauto].
  destruct (bool_decide (is_Some (d !! "board_id"))); simpl; eauto.
Qed.

End AcceptsFacts.

Section AcceptsTheorem.
Import BootMonitorPyOCD Sample.



End AcceptsTheorem.

(** ** Compressing the overlay *)

Section CompressOverlayFacts.
Import Overlay.
Context {Conn : Type}.

(** The two guards of [CompressOverlay.run]. *)
Lemma CompressOverlay_run_no_location self (c : Conn) st lo :
  data st !! "lava-overlay" = Some (PDict lo) ->
  lo !! "location" = None ->
  CompressOverlay_run self c st = (Raise (RuntimeError "Missing lava overlay location"), st).
Proof.
  intros Hlo Hloc. unfold CompressOverlay_run.
  rewrite (bind_Ok _ _ _ _ _ (data_entry_Some _ _ _ Hlo)).
  py_unfold. simpl. by rewrite Hloc.
Qed.

Lemma CompressOverlay_run_gone_location self (c : Conn) st lo p :
  data st !! "lava-overlay" = Some (PDict lo) ->
  lo !! "location" = Some (PStr p) ->
  fs_exists (fs st) p = false ->
  CompressOverlay_run self c st = (Raise (RuntimeError "Unable to find overlay location"), st).
Proof.
  intros Hlo Hloc Hex. unfold CompressOverlay_run.
  rewrite (bind_Ok _ _ _ _ _ (data_entry_Some _ _ _ Hlo)).
  py_unfold. simpl. rewrite Hloc. simpl. rewrite Hlo. simpl. rewrite Hloc. simpl.
  by rewrite Hex.
Qed.

Lemma gets_inv {A} (f : state -> A) st a st' :
  gets f st = (Ok a, st') -> st' = st /\ a = f st.
Proof. unfold gets. by intros [= <- <-]. Qed.

Lemma mret_inv {A} (x : A) st a st' :
  (mret x : Py A) st = (Ok a, st') -> st' = st /\ a = x.
Proof. unfold mret, Py_ret. by intros [= <- <-]. Qed.

Lemma os_path_exists_inv v st b st' :
  os_path_exists v st = (Ok b, st') ->
  st' = st /\ exists p, v = PStr p /\ b = fs_exists (fs st) p.
Proof.
  destruct v; simpl; try discriminate. intros [-> ->]%gets_inv. eauto.
Qed.

Lemma os_path_ismount_inv v st b st' :
  os_path_ismount v st = (Ok b, st') ->
  st' = st /\ exists p, v = PStr p /\ b = fs_ismount (fs st) p.
Proof.
  destruct v; simpl; try discriminate. intros [-> ->]%gets_inv. eauto.
Qed.

Lemma as_str_inv v st s st' : as_str v st = (Ok s, st') -> st' = st /\ v = PStr s.
Proof. destruct v; simpl; try discriminate. by intros [-> ->]%mret_inv. Qed.

Lemma as_path_inv v st s st' : as_path v st = (Ok s, st') -> st' = st /\ v = PStr s.
Proof. destruct v; simpl; try discriminate. by intros [-> ->]%mret_inv. Qed.

Lemma os_chdir_inv p st u st' :
  os_chdir p st = (Ok u, st') -> st' = with_fs (fs_chdir p (fs st)) st.
Proof.
  unfold os_chdir. destruct (nodes (fs st) !! resolve (fs st) p) as [[] |];
    try discriminate. by intros [= <- <-].
Qed.

Lemma tarfile_create_inv output st p st' :
  tarfile_create output st = (Ok p, st') ->
  p = resolve (fs st) output /\ st' = with_fs (fs_put_at p (Tarball []) (fs st)) st.
Proof.
  unfold tarfile_create.
  destruct (nodes (fs st) !! resolve (fs st) output) as [[] |];
    try discriminate; by intros [= <- <-].
Qed.

Lemma tar_add_inv archive name st u st' :
  tar_add archive name st = (Ok u, st') ->
  st' = with_fs (fs_put_at archive (Tarball (members_below (fs st) name)) (fs st)) st.
Proof.
  unfold tar_add. destruct (fs_exists (fs st) name); [| discriminate].
  by intros [= <- <-].
Qed.

Lemma data_set_inv a k v st u st' :
  data_set a k v st = (Ok u, st') ->
  exists e, data st !! a = Some (PDict e) /\
            st' = with_data (<[a := PDict (<[k := v]> e)]> (data st)) st.
Proof.
  unfold data_set. simpl. destruct (data st !! a) as [[] |]; simpl; try discriminate.
  intros [= <- <-]. eauto.
Qed.

(** A run of [CompressOverlay] that archives and returns has recorded the
    archive, and the archive is where it says. *)
Lemma CompressOverlay_run_records self (c c' : Conn) st st' :
  valid st = true ->
  CompressOverlay_run self c st = (Ok c', st') ->
  exists output_dir own ms,
    job_parameters self !! "output_dir" = Some (PStr output_dir) /\
    let output := path_join output_dir ("overlay-" ++ level self ++ ".tar.gz") in
    data st' !! "compress-overlay" = Some (PDict own) /\
    own !! "output" = Some (PStr output) /\
    nodes (fs st') !! resolve (fs st) output = Some (Tarball ms).
Proof.
  intros Hv H. unfold CompressOverlay_run in H.
  py_inv H. apply data_entry_inv in H0 as [-> Hlo].
  py_inv H. apply lift_inv in H0 as [-> Hc].
  destruct a0; simpl in H; [| discriminate].
  py_inv H. apply data_entry_inv in H0 as [-> _].
  py_inv H. apply lift_inv in H0 as [-> Hloc].
  py_inv H. apply os_path_exists_inv in H0 as (-> & p & -> & ->).
  destruct (fs_exists (fs st) p); simpl in H; [| discriminate].
  py_inv H. apply gets_inv in H0 as [-> ->]. rewrite Hv in H. simpl in H.
  py_inv H. apply mret_inv in H0 as [-> ->].
  py_inv H. apply data_entry_inv in H0 as [-> _].
  py_inv H. apply lift_inv in H0 as [-> Hloc'].
  py_inv H. apply lift_inv in H0 as [-> Hout].
  py_inv H. apply as_str_inv in H0 as [-> ->].
  py_inv H. apply gets_inv in H0 as [-> ->].
  py_inv H.
  apply except_TarError_inv_Ok in H0 as [H0 | (msg & st1 & _ & H0)].
  2: { py_inv H0. discriminate. }
  py_inv H0. apply tarfile_create_inv in H1 as [-> ->].
  py_inv H0. apply as_path_inv in H1 as [-> ->].
  py_inv H0. apply os_chdir_inv in H1 as ->.
  py_inv H0. apply data_entry_inv in H1 as [-> Hres].
  apply tar_add_inv in H0 as ->.
  py_inv H. apply os_chdir_inv in H0 as ->.
  py_inv H. apply data_set_inv in H0 as (own & Hown & ->).
  apply mret_inv in H as [-> ->].
  simpl in Hout.
  destruct (job_parameters self !! "output_dir") as [x |] eqn:Ex; [| discriminate].
  injection Hout as ->.
  eexists _, _, _. split; [reflexivity |]. simpl. split; [apply lookup_insert_eq |].
  split; [apply lookup_insert_eq |]. apply lookup_insert_eq.
Qed.

(** With the overlay tree on disk, an output directory, a current
    directory to come back to and its own entry in the job data, a valid
    [CompressOverlay] archives, records and returns. *)
Lemma CompressOverlay_run_archives self (c : Conn) st lo loc od rd own :
  data st !! "lava-overlay" = Some (PDict lo) ->
  lo !! "location" = Some (PStr loc) ->
  nodes (fs st) !! resolve (fs st) loc = Some Directory ->
  valid st = true ->
  job_parameters self !! "output_dir" = Some (PStr od) ->
  let output := path_join od ("overlay-" ++ level self ++ ".tar.gz") in
  let archive := resolve (fs st) output in
  nodes (fs st) !! archive <> Some Directory ->
  data st !! "lava_test_results_dir" = Some rd ->
  is_Some (nodes (fs st) !! normpath (path_join (resolve (fs st) loc) ("." ++ str_of rd))) ->
  is_abs (cwd (fs st)) = true ->
  nodes (fs st) !! normpath (cwd (fs st)) = Some Directory ->
  data st !! "compress-overlay" = Some (PDict own) ->
  exists st',
    CompressOverlay_run self c st = (Ok c, st') /\
    data st' = <["compress-overlay" := PDict (<["output" := PStr output]> own)]> (data st) /\
    exists ms, nodes (fs st') !! archive = Some (Tarball ms).
Proof.
  intros Hlo Hloc Hdir Hv Hod output archive Harch Hrd Htree Habs Hcwd Hown.
  assert (fs_exists (fs st) loc = true) as Hex.
  { unfold fs_exists. apply bool_decide_eq_true. rewrite Hdir. eauto. }
  unfold CompressOverlay_run.
  rewrite (bind_Ok _ _ _ _ _ (data_entry_Some _ _ _ Hlo)).
  py_unfold. simpl. rewrite Hloc. simpl. rewrite Hlo. simpl. rewrite Hloc. simpl.
  rewrite Hex. simpl. rewrite Hv. simpl. rewrite Hlo. simpl. rewrite Hloc. simpl.
  rewrite Hod. simpl.
  unfold except_TarError, tarfile_create. fold output. fold archive.
  assert (match nodes (fs st) !! archive with
          | Some Directory => (Raise (IOError output), st)
          | _ => (Ok archive, with_fs (fs_put_at archive (Tarball []) (fs st)) st)
          end = (Ok archive, with_fs (fs_put_at archive (Tarball []) (fs st)) st)) as ->.
  { destruct (nodes (fs st) !! archive) as [[] |]; done. }
  assert (archive <> resolve (fs st) loc) as Hne1 by (intros E; by rewrite E in Harch).
  assert (archive <> normpath (cwd (fs st))) as Hne2 by (intros E; by rewrite E in Harch).
  simpl. unfold os_chdir at 1. simpl.
  change (resolve (fs_put_at archive (Tarball []) (fs st)) loc) with (resolve (fs st) loc).
  rewrite lookup_insert_ne, Hdir by done. simpl. rewrite Hrd. simpl.
  unfold tar_add, fs_exists. simpl.
  set (tree := resolve (fs_chdir loc (fs_put_at archive (Tarball []) (fs st)))
                 ("." ++ str_of rd)).
  assert (is_Some (<[archive := Tarball []]> (nodes (fs st)) !! tree)) as Ht.
  { destruct (decide (archive = tree)) as [<- | Hne].
    - rewrite lookup_insert_eq. eauto.
    - by rewrite lookup_insert_ne. }
  rewrite bool_decide_eq_true_2 by done. simpl.
  unfold os_chdir. simpl.
  set (back := resolve _ (cwd (fs st))).
  assert (back = normpath (cwd (fs st))) as ->.
  { unfold back, resolve, path_join. simpl. by rewrite Habs. }
  rewrite lookup_insert_ne by done. rewrite lookup_insert_ne by done. rewrite Hcwd. simpl.
  unfold data_set. simpl. rewrite Hown. simpl.
  eexists. split; [reflexivity |]. simpl. split; [reflexivity |].
  rewrite lookup_insert_eq. eauto.
Qed.


End CompressOverlayFacts.

Section CompressOverlayWitnesses.
Import Overlay Sample.



End CompressOverlayWitnesses.

(** ** Applying the overlay *)

Section ApplyOverlayFacts.
Import ApplyOverlay.

Context {Conn : Type}.

Lemma ApplyOverlayImage_run_no_overlay (c : Conn) st co :
  data st !! "compress-overlay" = Some (PDict co) ->
  truthy (default PNone (co !! "output")) = false ->
  ApplyOverlayImage_run c st = (Raise (RuntimeError "Unable to find the overlay"), st).
Proof.
  intros Hco Hout. unfold ApplyOverlayImage_run.
  rewrite (bind_Ok _ _ _ _ _ (data_entry_Some _ _ _ Hco)).
  py_unfold. simpl. by rewrite Hout.
Qed.

Lemma ApplyOverlayImage_run_not_mounted (c : Conn) st co lm p :
  data st !! "compress-overlay" = Some (PDict co) ->
  truthy (default PNone (co !! "output")) = true ->
  data st !! "loop_mount" = Some (PDict lm) ->
  lm !! "mntdir" = Some (PStr p) ->
  fs_ismount (fs st) p = false ->
  ApplyOverlayImage_run c st =
    (Raise (RuntimeError ("Image overlay requested to be applied but " ++ p
                            ++ " is not a mountpoint")), st).
Proof.
  intros Hco Hout Hlm Hmnt Hism. unfold ApplyOverlayImage_run.
  rewrite (bind_Ok _ _ _ _ _ (data_entry_Some _ _ _ Hco)).
  py_unfold. simpl. rewrite Hout. simpl. rewrite Hlm. simpl. rewrite Hmnt. simpl.
  rewrite Hism. simpl. rewrite Hlm. simpl. by rewrite Hmnt.
Qed.

Lemma ApplyOverlayImage_run_mounted (c c' : Conn) st st' :
  ApplyOverlayImage_run c st = (Ok c', st') ->
  exists lm p, data st !! "loop_mount" = Some (PDict lm) /\
               lm !! "mntdir" = Some (PStr p) /\ fs_ismount (fs st) p = true.
Proof.
  intros H. unfold ApplyOverlayImage_run in H.
  py_inv H. apply data_entry_inv in H0 as [-> Hco].
  py_inv H. apply lift_inv in H0 as [-> Hout].
  destruct (truthy a0); simpl in H; [| discriminate].
  py_inv H. apply data_entry_inv in H0 as [-> Hlm].
  py_inv H. apply lift_inv in H0 as [-> Hmnt].
  apply getitem_inv in Hmnt as (lm & -> & Hmnt).
  py_inv H. apply os_path_ismount_inv in H0 as (-> & p & -> & ->).
  destruct (fs_ismount (fs st) p) eqn:E; simpl in H.
  - eauto.
  - py_inv H. apply data_entry_inv in H0 as [-> _].
    py_inv H. discriminate.
Qed.


(** C8.  [ExtractNfsRootfs.run], [ExtractRamdisk.run], [ExtractModules.run]
    and [CompressRamdisk.run] without their parameter ('nfsrootfs',
    'ramdisk', 'modules', 'ramdisk'): each returns the connection it was
    given and leaves the job data and the filesystem as they were. *)
Theorem sub_actions_idle_without_parameter X self (c : Conn) st :
  (parameters self !! "nfsrootfs" = None -> ExtractNfsRootfs_run X self c st = (Ok c, st)) /\
  (parameters self !! "ramdisk" = None -> ExtractRamdisk_run X self c st = (Ok c, st)) /\
  (parameters self !! "modules" = None -> ExtractModules_run self c st = (Ok c, st)) /\
  (parameters self !! "ramdisk" = None -> CompressRamdisk_run X self c st = (Ok c, st)).
Proof.
  repeat split; intros H.
  - unfold ExtractNfsRootfs_run, param_get. by rewrite H.
  - unfold ExtractRamdisk_run, param_get. by rewrite H.
  - unfold ExtractModules_run, param_get. by rewrite H.
  - unfold CompressRamdisk_run, param_get. by rewrite H.
Qed.

Lemma tarfile_open_inv v st ms st' :
  tarfile_open v st = (Ok ms, st') ->
  st' = st /\ truthy v = true /\
  exists p, v = PStr p /\ nodes (fs st) !! resolve (fs st) p = Some (Tarball ms).
Proof.
  unfold tarfile_open. destruct (truthy v) eqn:Hv; simpl; [| discriminate].
  destruct v; try discriminate.
  destruct (nodes (fs st) !! resolve (fs st) s) as [[] |] eqn:E; try discriminate.
  intros [= <- <-]. eauto.
Qed.

Lemma ApplyOverlayTftp_run_nothing_selected self (c : Conn) st :
  param_get self "ramdisk" = PNone ->
  param_get self "nfsrootfs" = PNone ->
  ApplyOverlayTftp_run self c st = (Raise (ValueError "nothing to open"), st).
Proof.
  intros Hr Hn. unfold ApplyOverlayTftp_run. rewrite Hr, Hn. simpl.
  reflexivity.
Qed.

Lemma ApplyOverlayTftp_run_needs self (c c' : Conn) st st' :
  ApplyOverlayTftp_run self c st = (Ok c', st') ->
  exists co out,
    data st !! "compress-overlay" = Some (PDict co) /\
    co !! "output" = Some out /\ truthy out = true /\
    ((param_get self "ramdisk" <> PNone /\
      exists er d, data st !! "extract-overlay-ramdisk" = Some (PDict er) /\
                   er !! "extracted_ramdisk" = Some d) \/
     (param_get self "ramdisk" = PNone /\ param_get self "nfsrootfs" <> PNone /\
      exists en, data st !! "extract-nfsrootfs" = Some (PDict en))).
Proof.
  intros H. unfold ApplyOverlayTftp_run in H.
  py_inv H. destruct a as [[overlay_type overlay_file] directory].
  py_inv H. clear H. rename H1 into Hrest.
  assert (exists co,
    st0 = st /\ data st !! "compress-overlay" = Some (PDict co) /\
    overlay_file = default PNone (co !! "output") /\
    ((param_get self "ramdisk" <> PNone /\
      exists er d, data st !! "extract-overlay-ramdisk" = Some (PDict er) /\
                   er !! "extracted_ramdisk" = Some d) \/
     (param_get self "ramdisk" = PNone /\ param_get self "nfsrootfs" <> PNone /\
      exists en, data st !! "extract-nfsrootfs" = Some (PDict en)))) as Hsel.
  { destruct (is_None (param_get self "ramdisk")) eqn:Er; simpl in H0.
    - destruct (is_None (param_get self "nfsrootfs")) eqn:En; simpl in H0.
      + apply mret_inv in H0 as [-> [= -> -> ->]].
        apply except_TarError_inv_Ok in Hrest as [Hrest | (msg & sx & _ & Hrest)];
          [| discriminate].
        py_inv Hrest. discriminate.
      + py_inv H0. apply data_entry_inv in H as [-> Hco].
        py_inv H0. apply lift_inv in H as [-> Hout].
        py_inv H0. apply data_entry_inv in H as [-> Hen].
        py_inv H0. apply lift_inv in H as [-> Hdir].
        apply mret_inv in H0 as [-> [= -> -> ->]].
        apply dict_get_inv in Hout as (co & -> & ->).
        apply dict_get_inv in Hdir as (en & -> & _).
        exists co. repeat split; try done. right.
        split; [by destruct (param_get self "ramdisk") |].
        split; [intros E; by rewrite E in En |]. eauto.
    - py_inv H0. apply data_entry_inv in H as [-> Hco].
      py_inv H0. apply lift_inv in H as [-> Hout].
      py_inv H0. apply data_entry_inv in H as [-> Her].
      py_inv H0. apply lift_inv in H as [-> Hdir].
      apply mret_inv in H0 as [-> [= -> -> ->]].
      apply dict_get_inv in Hout as (co & -> & ->).
      apply getitem_inv in Hdir as (er & -> & Hdir).
      exists co. repeat split; try done. left.
      split; [intros E; by rewrite E in Er |]. eauto. }
  destruct Hsel as (co & -> & Hco & -> & Hcase).
  apply except_TarError_inv_Ok in Hrest as [Hrest | (msg & sx & _ & Hrest)];
    [| discriminate].
  py_inv Hrest. apply tarfile_open_inv in H as (-> & Hv & p & Hp & _).
  exists co, (PStr p). split; [done |].
  destruct (co !! "output") eqn:Eo; simpl in *; [| discriminate].
  subst. done.
Qed.

Lemma tar_extractall_inv ms dir st u st' :
  tar_extractall ms dir st = (Ok u, st') -> (exists d, dir = PStr d) \/ ms = [].
Proof.
  destruct dir; simpl; eauto; destruct ms; eauto; discriminate.
Qed.

Lemma ApplyOverlayTftp_run_nfsroot self (c c' : Conn) st st' co en :
  ApplyOverlayTftp_run self c st = (Ok c', st') ->
  param_get self "ramdisk" = PNone ->
  data st !! "compress-overlay" = Some (PDict co) ->
  data st !! "extract-nfsrootfs" = Some (PDict en) ->
  is_Some (en !! "nfsroot") \/
  exists p, co !! "output" = Some (PStr p) /\
            nodes (fs st) !! resolve (fs st) p = Some (Tarball []).
Proof.
  intros H Hr Hco Hen. unfold ApplyOverlayTftp_run in H. rewrite Hr in H. simpl in H.
  destruct (is_None (param_get self "nfsrootfs")) eqn:En; simpl in H.
  - py_inv H. apply mret_inv in H0 as [-> ->].
    py_inv H. apply except_TarError_inv_Ok in H0 as [H0 | (msg & sx & _ & H0)];
      [| discriminate].
    py_inv H0. discriminate.
  - destruct (en !! "nfsroot") as [d |] eqn:Ed; [left; eauto | right].
    py_inv H. py_inv H0. apply data_entry_inv in H1 as [-> Hco'].
    py_inv H0. apply lift_inv in H1 as [-> Hout].
    py_inv H0. apply data_entry_inv in H1 as [-> Hen'].
    py_inv H0. apply lift_inv in H1 as [-> Hdir].
    apply mret_inv in H0 as [-> ->].
    rewrite Hco in Hco'. injection Hco' as <-.
    rewrite Hen in Hen'. injection Hen' as <-.
    simpl in Hout, Hdir. rewrite Ed in Hdir. injection Hout as <-. injection Hdir as <-.
    apply bind_inv_Ok in H as (u & sx & E & _).
    apply except_TarError_inv_Ok in E as [E | (msg & sy & _ & E)]; [| discriminate].
    apply bind_inv_Ok in E as (ms & sz & Hopen & E).
    apply tarfile_open_inv in Hopen as (-> & Hv & p & Hp & Hn).
    apply tar_extractall_inv in E as [[d' [=]] | ->].
    exists p. split; [| done].
    destruct (co !! "output"); simpl in Hp; [by subst | discriminate].
Qed.

(** C9.  [ApplyOverlayTftp.run] has no guard of its own: with neither
    'ramdisk' nor 'nfsrootfs' among its parameters no overlay file is
    selected, the archive is opened without a name and the run raises
    (ValueError, "nothing to open") instead of returning the connection.  A
    run that returns had one of the two parameters, the overlay archive
    recorded under 'compress-overlay', and the entry of the action that
    unpacked the target: with its 'extracted_ramdisk' for a ramdisk, and
    for an NFS root with its 'nfsroot' unless the archive has no member to
    place. *)
Theorem ApplyOverlayTftp_run_unguarded self (c : Conn) st :
  (parameters self !! "ramdisk" = None -> parameters self !! "nfsrootfs" = None ->
   ApplyOverlayTftp_run self c st = (Raise (ValueError "nothing to open"), st)) /\
  (forall c' st',
     ApplyOverlayTftp_run self c st = (Ok c', st') ->
     (is_Some (parameters self !! "ramdisk") \/ is_Some (parameters self !! "nfsrootfs")) /\
     exists co out,
       data st !! "compress-overlay" = Some (PDict co) /\
       co !! "output" = Some out /\ truthy out = true /\
       ((param_get self "ramdisk" <> PNone /\
         exists er d, data st !! "extract-overlay-ramdisk" = Some (PDict er) /\
                      er !! "extracted_ramdisk" = Some d) \/
        (param_get self "ramdisk" = PNone /\ param_get self "nfsrootfs" <> PNone /\
         exists en, data st !! "extract-nfsrootfs" = Some (PDict en) /\
                    (is_Some (en !! "nfsroot") \/
                     exists p, out = PStr p /\
                               nodes (fs st) !! resolve (fs st) p = Some (Tarball []))))).
Proof.
  split.
  - intros Hr Hn. apply ApplyOverlayTftp_run_nothing_selected; unfold param_get.
    + by rewrite Hr.
    + by rewrite Hn.
  - intros c' st' H.
    destruct (ApplyOverlayTftp_run_needs self c c' st st' H)
      as (co & out & Hco & Hout & Hv & Hcase).
    split.
    + unfold param_get in Hcase.
      destruct Hcase as [[Hr _] | (_ & Hn & _)].
      * left. destruct (parameters self !! "ramdisk"); [eauto | done].
      * right. destruct (parameters self !! "nfsrootfs"); [eauto | done].
    + exists co, out. repeat split; try done.
      destruct Hcase as [Hr | (Hr & Hn & en & Hen)]; [by left | right].
      repeat split; try done. exists en. split; [done |].
      destruct (ApplyOverlayTftp_run_nfsroot self c c' st st' co en H Hr Hco Hen)
        as [Hs | (p & Hp & Hnode)]; [by left | right].
      exists p. split; [congruence | done].
Qed.

End ApplyOverlayFacts.

Section ApplyOverlayWitnesses.
Import ApplyOverlay Sample.


Lemma sub_actions_idle_without_parameter_witness :
  ExtractNfsRootfs_run sample_externals overlay_action 7 overlay_state = (Ok 7, overlay_state) /\
  ExtractRamdisk_run sample_externals overlay_action 7 overlay_state = (Ok 7, overlay_state) /\
  ExtractModules_run overlay_action 7 overlay_state = (Ok 7, overlay_state) /\
  CompressRamdisk_run sample_externals overlay_action 7 overlay_state = (Ok 7, overlay_state).
Proof.
  destruct (sub_actions_idle_without_parameter sample_externals overlay_action 7 overlay_state)
    as (H1 & H2 & H3 & H4).
  split; [apply H1 | split; [apply H2 | split; [apply H3 | apply H4]]];
    vm_compute; reflexivity.
Defined.

Lemma ApplyOverlayTftp_run_unguarded_witness :
  ApplyOverlayTftp_run overlay_action 7 overlay_state
    = (Raise (ValueError "nothing to open"), overlay_state) /\
  (exists c' st', ApplyOverlayTftp_run nfs_action 7 nfs_state = (Ok c', st') /\
     is_Some (parameters nfs_action !! "nfsrootfs")).
Proof.
  split.
  - apply (ApplyOverlayTftp_run_unguarded overlay_action 7 overlay_state);
      vm_compute; reflexivity.
  - assert (exists st', ApplyOverlayTftp_run nfs_action 7 nfs_state = (Ok 7, st'))
      as [st' E] by (eexists; vm_compute; reflexivity).
    exists 7, st'. split; [exact E |].
    destruct (ApplyOverlayTftp_run_unguarded nfs_action 7 nfs_state) as [_ H].
    destruct (H 7 st' E) as [[Hr | Hn] _]; [| exact Hn].
    exfalso. vm_compute in Hr. destruct Hr as [x Hx]. discriminate.
Defined.

End ApplyOverlayWitnesses.

(** ** The connection handed through *)

Section ConnectionFacts.
Import ApplyOverlay Overlay.

Context {Conn : Type}.
Implicit Types c : Conn.

Lemma returns_only_ret c : returns_only c (mret c).
Proof. intros st c' st' H. by apply mret_inv in H as [_ ->]. Qed.

Lemma returns_only_raise c e : returns_only c (raise e).
Proof. intros st c' st'. discriminate. Qed.

Lemma returns_only_bind {A} c (m : Py A) (k : A -> Py Conn) :
  (forall a, returns_only c (k a)) -> returns_only c (m ≫= k).
Proof.
  intros Hk st c' st' H. apply bind_inv_Ok in H as (a & st1 & _ & H).
  by apply (Hk a st1 c' st').
Qed.

Lemma returns_only_bind_conn c (m : Py Conn) (k : Conn -> Py Conn) :
  returns_only c m -> (forall a, returns_only a (k a)) -> returns_only c (m ≫= k).
Proof.
  intros Hm Hk st c' st' H. apply bind_inv_Ok in H as (a & st1 & Ha & H).
  apply Hm in Ha as ->. by apply (Hk c st1 c' st').
Qed.

Lemma returns_only_if c (b : bool) (m1 m2 : Py Conn) :
  returns_only c m1 -> returns_only c m2 -> returns_only c (if b then m1 else m2).
Proof. by destruct b. Qed.

Create HintDb returns discriminated.
#[local] Hint Resolve returns_only_ret returns_only_raise returns_only_if : returns.
#[local] Hint Extern 2 (returns_only _ (_ ≫= _)) =>
  apply returns_only_bind; intros : returns.
#[local] Hint Extern 1 (returns_only _ (let '(_, _) := ?x in _)) =>
  destruct x as [[? ?] ?] : returns.

Lemma ApplyOverlayImage_returns c : returns_only c (ApplyOverlayImage_run c).
Proof. unfold ApplyOverlayImage_run. auto 20 with returns. Qed.

Lemma ApplyOverlayTftp_returns self c : returns_only c (ApplyOverlayTftp_run self c).
Proof. unfold ApplyOverlayTftp_run. auto 20 with returns. Qed.

Lemma ExtractNfsRootfs_returns X self c : returns_only c (ExtractNfsRootfs_run X self c).
Proof. unfold ExtractNfsRootfs_run. auto 20 with returns. Qed.

Lemma ExtractModules_returns self c : returns_only c (ExtractModules_run self c).
Proof. unfold ExtractModules_run. auto 20 with returns. Qed.

Lemma ExtractRamdisk_returns X self c : returns_only c (ExtractRamdisk_run X self c).
Proof. unfold ExtractRamdisk_run. auto 30 with returns. Qed.

Lemma CompressRamdisk_returns X self c : returns_only c (CompressRamdisk_run X self c).
Proof. unfold CompressRamdisk_run. auto 40 with returns. Qed.

Lemma Action_run_returns c : returns_only c (Action_run c).
Proof. apply returns_only_ret. Qed.

Lemma CompressOverlay_returns self c : returns_only c (CompressOverlay_run self c).
Proof.
  unfold CompressOverlay_run.
  do 6 (apply returns_only_bind; intros; try apply returns_only_if; auto with returns).
  apply returns_only_bind_conn; [apply Action_run_returns |].
  intros connection. auto 20 with returns.
Qed.

(** A pipeline whose actions each return the connection they are given
    returns the connection it is given. *)
Lemma run_actions_returns (actions : list (Conn -> Py Conn)) :
  Forall (fun a => forall c, returns_only c (a c)) actions ->
  forall c, returns_only c (run_actions actions c).
Proof.
  induction 1 as [| a rest Ha _ IH]; intros c; simpl.
  - apply returns_only_ret.
  - apply returns_only_bind_conn; [apply Ha | apply IH].
Qed.

Lemma PrepareOverlayTftp_returns pipeline c :
  Forall (fun a => forall c, returns_only c (a c)) pipeline ->
  returns_only c (PrepareOverlayTftp_run pipeline c).
Proof.
  intros Hp. unfold PrepareOverlayTftp_run.
  apply returns_only_bind_conn; [by apply run_actions_returns |].
  intros a. auto 10 with returns.
Qed.

End ConnectionFacts.

Section ConnectionWitness.
Import Sample.


End ConnectionWitness.

(** ** Reading what upstream actions left in the job data *)

Section AbsenceFacts.
Import ApplyOverlay Overlay.

Context {Conn : Type}.
Implicit Types c : Conn.

Lemma ExtractModules_run_nfsroot_unwritten self c st en :
  truthy (param_get self "modules") = true ->
  truthy (param_get self "ramdisk") = false ->
  truthy (param_get self "nfsrootfs") = true ->
  data st !! "extract-nfsrootfs" = Some (PDict en) ->
  en !! "nfsroot" = None ->
  ExtractModules_run self c st = (Raise (KeyError "nfsroot"), st).
Proof.
  intros Hm Hr Hn Hen Hroot. unfold ExtractModules_run. rewrite Hm, Hr, Hn. simpl.
  py_unfold. simpl. rewrite Hen. simpl. by rewrite Hroot.
Qed.

Lemma ExtractModules_run_ramdisk_unwritten self c st er :
  truthy (param_get self "modules") = true ->
  truthy (param_get self "ramdisk") = true ->
  data st !! "extract-overlay-ramdisk" = Some (PDict er) ->
  er !! "extracted_ramdisk" = None ->
  ExtractModules_run self c st = (Raise (KeyError "extracted_ramdisk"), st).
Proof.
  intros Hm Hr Her Hdir. unfold ExtractModules_run. rewrite Hm, Hr. simpl.
  py_unfold. simpl. rewrite Her. simpl. by rewrite Hdir.
Qed.

Lemma ApplyOverlayTftp_run_output_unwritten self c st co :
  data st !! "compress-overlay" = Some (PDict co) ->
  co !! "output" = None ->
  exists e st', ApplyOverlayTftp_run self c st = (Raise e, st').
Proof.
  intros Hco Hout.
  destruct (ApplyOverlayTftp_run self c st) as [[c' | e] st'] eqn:E; [| eauto].
  apply ApplyOverlayTftp_run_needs in E as (co' & out & Hco' & Hout' & _).
  rewrite Hco in Hco'. injection Hco' as <-. congruence.
Qed.

Lemma PrepareOverlayTftp_run_no_ramdisk pipeline c c1 st st1 cr :
  run_actions pipeline c st = (Ok c1, st1) ->
  data st1 !! "compress-ramdisk" = Some (PDict cr) ->
  cr !! "ramdisk" = None ->
  PrepareOverlayTftp_run pipeline c st = (Ok c1, st1).
Proof.
  intros Hp Hcr Hr. unfold PrepareOverlayTftp_run.
  rewrite (bind_Ok _ _ _ _ _ Hp). py_unfold. simpl. rewrite Hcr. simpl. by rewrite Hr.
Qed.

(** C2, as the code has it.  A [.get] read of a key never written answers
    None and raises nothing, a subscript read of it raises KeyError.
    [PrepareOverlayTftp.run] takes an absent 'ramdisk' result as nothing to
    do and returns the connection.  [ApplyOverlayTftp.run] and
    [ExtractModules.run] do not: without the overlay 'output' the first
    raises, and without the 'nfsroot' or 'extracted_ramdisk' of the target
    that the parameters select the second raises KeyError. *)
Theorem data_store_reads_and_absence :
  (forall (d : gmap string pyval) k,
     d !! k = None ->
     dict_get (PDict d) k = Ok PNone /\ getitem (PDict d) k = Raise (KeyError k)) /\
  (forall pipeline c c1 st st1 cr,
     run_actions pipeline c st = (Ok c1, st1) ->
     data st1 !! "compress-ramdisk" = Some (PDict cr) ->
     cr !! "ramdisk" = None ->
     PrepareOverlayTftp_run pipeline c st = (Ok c1, st1)) /\
  (forall self c st co,
     data st !! "compress-overlay" = Some (PDict co) ->
     co !! "output" = None ->
     exists e st', ApplyOverlayTftp_run self c st = (Raise e, st')) /\
  (forall self c st en,
     truthy (param_get self "modules") = true ->
     truthy (param_get self "ramdisk") = false ->
     truthy (param_get self "nfsrootfs") = true ->
     data st !! "extract-nfsrootfs" = Some (PDict en) ->
     en !! "nfsroot" = None ->
     ExtractModules_run self c st = (Raise (KeyError "nfsroot"), st)) /\
  (forall self c st er,
     truthy (param_get self "modules") = true ->
     truthy (param_get self "ramdisk") = true ->
     data st !! "extract-overlay-ramdisk" = Some (PDict er) ->
     er !! "extracted_ramdisk" = None ->
     ExtractModules_run self c st = (Raise (KeyError "extracted_ramdisk"), st)).
Proof.
  split; [| split; [| split; [| split]]].
  - intros d k H. simpl. by rewrite H.
  - apply PrepareOverlayTftp_run_no_ramdisk.
  - apply ApplyOverlayTftp_run_output_unwritten.
  - apply ExtractModules_run_nfsroot_unwritten.
  - apply ExtractModules_run_ramdisk_unwritten.
Qed.
End AbsenceFacts.

Section AbsenceWitnesses.
Import ApplyOverlay Sample.


(** C2 as stated fails: the overlay 'output' was never written, the read
    answers None, and [ApplyOverlayTftp.run] raises instead of returning;
    [ExtractModules.run] raises on its subscript read. *)
Lemma absent_overlay_output_crashes :
  dict_get (PDict (∅ : gmap string pyval)) "output" = Ok PNone /\
  ApplyOverlayTftp_run nfs_action 7 nfs_unwritten_state
    = (Raise (ValueError "nothing to open"), nfs_unwritten_state) /\
  ExtractModules_run modules_action 7 nfs_unwritten_state
    = (Raise (KeyError "nfsroot"), nfs_unwritten_state).
Proof. repeat split; vm_compute; reflexivity. Qed.

Lemma data_store_reads_and_absence_witness :
  PrepareOverlayTftp_run [] 7 nfs_unwritten_state = (Ok 7, nfs_unwritten_state) /\
  (exists e st', ApplyOverlayTftp_run nfs_action 7 nfs_unwritten_state = (Raise e, st')) /\
  ExtractModules_run modules_action 7 nfs_unwritten_state
    = (Raise (KeyError "nfsroot"), nfs_unwritten_state) /\
  ExtractModules_run modules_ramdisk_action 7 nfs_unwritten_state
    = (Raise (KeyError "extracted_ramdisk"), nfs_unwritten_state).
Proof.
  destruct (@data_store_reads_and_absence nat) as (_ & H1 & H2 & H3 & H4).
  split; [| split; [| split]].
  - apply (H1 [] 7 7 nfs_unwritten_state nfs_unwritten_state ∅);
      vm_compute; reflexivity.
  - apply (H2 nfs_action 7 nfs_unwritten_state ∅); vm_compute; reflexivity.
  - apply (H3 modules_action 7 nfs_unwritten_state ∅); vm_compute; reflexivity.
  - apply (H4 modules_ramdisk_action 7 nfs_unwritten_state ∅); vm_compute; reflexivity.
Defined.

End AbsenceWitnesses.

(** ** Validation *)

Section ValidateFacts.
Import ApplyOverlay Overlay PyOCD.



Lemma ExtractNfsRootfs_validate_no_download self st :
  truthy (param_get self "nfsrootfs") = true ->
  data st !! "download_action" = None ->
  ExtractNfsRootfs_validate self st =
    (if fs_exists (fs st) "/usr/sbin/exportfs" then Ok tt else Raise exportfs_missing,
     with_errors (errors st ++ ["missing download_action in parameters"]) st).
Proof.
  intros Hn Hd. unfold ExtractNfsRootfs_validate. py_unfold. simpl. rewrite Hn. simpl.
  rewrite Hd. simpl.
  by destruct (fs_exists (fs st) "/usr/sbin/exportfs").
Qed.

Lemma ExtractNfsRootfs_validate_download self st da n :
  truthy (param_get self "nfsrootfs") = true ->
  data st !! "download_action" = Some (PDict da) ->
  da !! "nfsrootfs" = Some (PDict n) ->
  ExtractNfsRootfs_validate self st =
    (if fs_exists (fs st) "/usr/sbin/exportfs" then Ok tt else Raise exportfs_missing,
     if bool_decide (is_Some (n !! "file")) then st
     else with_errors (errors st ++ ["no file specified extract as nfsrootfs"]) st).
Proof.
  intros Hn Hd Hda. unfold ExtractNfsRootfs_validate. py_unfold. simpl. rewrite Hn. simpl.
  rewrite Hd. simpl. rewrite Hd. simpl. rewrite Hda. simpl.
  destruct (bool_decide (is_Some (n !! "file"))); simpl;
    by destruct (fs_exists (fs st) "/usr/sbin/exportfs").
Qed.

Lemma ExtractNfsRootfs_validate_idle self st :
  truthy (param_get self "nfsrootfs") = false ->
  ExtractNfsRootfs_validate self st = (Ok tt, st).
Proof. intros Hn. unfold ExtractNfsRootfs_validate. py_unfold. simpl. by rewrite Hn. Qed.

Lemma ExtractNfsRootfs_validate_keeps_errors self :
  keeps_errors (ExtractNfsRootfs_validate self).
Proof.
  intros st. unfold ExtractNfsRootfs_validate. py_unfold. simpl.
  destruct (truthy (param_get self "nfsrootfs")); simpl; [| exists []; by rewrite app_nil_r].
  destruct (data st !! "download_action") as [da |] eqn:Hd; simpl.
  - rewrite Hd. simpl.
    destruct (getitem da "nfsrootfs") as [n |]; simpl; [| exists []; by rewrite app_nil_r].
    destruct (contains n "file") as [[] |]; simpl.
    + destruct (fs_exists (fs st) "/usr/sbin/exportfs"); exists []; by rewrite app_nil_r.
    + destruct (fs_exists (fs st) "/usr/sbin/exportfs"); simpl; eauto.
    + exists []; by rewrite app_nil_r.
  - destruct (fs_exists (fs st) "/usr/sbin/exportfs"); simpl; eauto.
Qed.


Lemma CompressRamdisk_validate_which X self st :
  truthy (param_get self "ramdisk") = true ->
  CompressRamdisk_validate X self st =
    match which X "mkimage" st with
    | (Ok _, st1) => (Ok tt, st1)
    | (Raise (InfrastructureError _), st1) => (Raise mkimage_missing, st1)
    | (Raise e, st1) => (Raise e, st1)
    end.
Proof.
  intros Hr. unfold CompressRamdisk_validate, except_InfrastructureError. py_unfold. simpl.
  rewrite Hr. simpl.
  destruct (which X "mkimage" st) as [[p | e] st1]; [done |]. by destruct e.
Qed.

Lemma CompressRamdisk_validate_idle X self st :
  truthy (param_get self "ramdisk") = false ->
  CompressRamdisk_validate X self st = (Ok tt, st).
Proof. intros Hr. unfold CompressRamdisk_validate. py_unfold. simpl. by rewrite Hr. Qed.

Lemma set_errors_errors e st :
  errors (set_errors e st).2 =
    (errors st ++ match e with
                  | Some msg => if String.eqb msg "" then [] else [msg]
                  | None => []
                  end)%list.
Proof.
  destruct e as [msg |]; simpl; [| by rewrite app_nil_r].
  destruct (String.eqb msg ""); simpl; [by rewrite app_nil_r | done].
Qed.

Lemma pyocd_parameters_inv device bp :
  pyocd_parameters device = Some bp ->
  exists a b m bt,
    device !! "actions" = Some (PDict a) /\ a !! "boot" = Some (PDict b) /\
    b !! "methods" = Some (PDict m) /\ m !! "pyocd" = Some (PDict bt) /\
    bt !! "parameters" = Some (PDict bp).
Proof.
  unfold pyocd_parameters, boot_methods.
  destruct (device !! "actions") as [[| | | | a] |] eqn:Ea; try discriminate.
  destruct (a !! "boot") as [[| | | | b] |] eqn:Eb; try discriminate.
  destruct (b !! "methods") as [[| | | | m] |] eqn:Em; try discriminate.
  destruct (m !! "pyocd") as [[| | | | bt] |] eqn:Ep; try discriminate.
  destruct (bt !! "parameters") as [[| | | | bp'] |] eqn:Ebp; try discriminate.
  intros [= ->]. by exists a, b, m, bt.
Qed.

Ltac pyocd_start Hbp Hcmd Hinf :=
  let a := fresh "a" in let b := fresh "b" in let m := fresh "m" in
  let bt := fresh "bt" in
  let Ea := fresh "Ea" in let Eb := fresh "Eb" in let Em := fresh "Em" in
  let Ep := fresh "Ep" in let Ebp := fresh "Ebp" in
  apply pyocd_parameters_inv in Hbp as (a & b & m & bt & Ea & Eb & Em & Ep & Ebp);
  unfold MonitorPyOCDAction_validate; py_unfold; simpl;
  rewrite Ea; simpl; rewrite Eb; simpl; rewrite Em; simpl; rewrite Ep; simpl;
  rewrite Ebp; simpl; rewrite Hcmd; simpl; rewrite Hinf.

Lemma MonitorPyOCDAction_validate_keeps X self st bp binary e st1 :
  pyocd_parameters (job_device self) = Some bp ->
  bp !! "command" = Some binary ->
  infrastructure_error X binary st = (Ok e, st1) ->
  exists new,
    errors (MonitorPyOCDAction_validate X self st).2 =
      (errors (set_errors e st1).2 ++ new)%list.
Proof.
  intros Hbp Hcmd Hinf. pyocd_start Hbp Hcmd Hinf.
  destruct (set_errors e st1) as [[[] | x] st2] eqn:Es; simpl;
    [| exists []; by rewrite app_nil_r].
  destruct (iterate _) as [l |]; simpl; [| exists []; by rewrite app_nil_r].
  destruct (job_device self !! "board_id") as [board |]; simpl;
    [| exists []; by rewrite app_nil_r].
  destruct (eq_str board "0000000000"); simpl;
    repeat (match goal with
            | |- context [match ?x with _ => _ end] => destruct x eqn:?; simpl
            end);
    first [ by (exists []; rewrite app_nil_r) | by eexists ].
Qed.

Lemma MonitorPyOCDAction_validate_board_unset X self st bp binary e st1 :
  pyocd_parameters (job_device self) = Some bp ->
  bp !! "command" = Some binary ->
  infrastructure_error X binary st = (Ok e, st1) ->
  job_device self !! "board_id" = Some (PStr "0000000000") ->
  (forall o, bp !! "options" = Some o -> exists l, o = PList l) ->
  "board_id unset" ∈ errors (MonitorPyOCDAction_validate X self st).2.
Proof.
  intros Hbp Hcmd Hinf Hb Ho. pyocd_start Hbp Hcmd Hinf.
  assert (exists l, iterate (default (PList []) (bp !! "options")) = Ok l) as [l ->].
  { destruct (bp !! "options") as [o |] eqn:E; simpl; [| eauto].
    destruct (Ho o eq_refl) as [l ->]. simpl. eauto. }
  rewrite Hb. simpl.
  destruct (set_errors e st1) as [[[] | x] st2] eqn:Es; simpl.
  - assert (forall s : state, "board_id unset" ∈ (errors s ++ ["board_id unset"])%list) as Hin
      by set_solver.
    repeat (match goal with
            | |- context [match ?x with _ => _ end] => destruct x eqn:?; simpl
            end); apply Hin.
  - destruct e as [msg |]; simpl in Es; [destruct (String.eqb msg "") |]; discriminate.
Qed.

(** C1, as the code has it.  [ExtractNfsRootfs.validate] never drops a
    recorded error and records a missing download ("missing
    download_action", "no file specified") by appending to [errors]; but
    when /usr/sbin/exportfs does not exist it raises InfrastructureError
    after that.  [CompressRamdisk.validate] raises InfrastructureError when
    the lookup of mkimage does.  Both only with their parameter set.
    [MonitorPyOCDAction.validate] keeps what was recorded, appends what
    [infrastructure_error] reports for the pyocd command, and appends
    "board_id unset" for the board id of ten zeros. *)
Theorem validate_records_or_raises X self st :
  keeps_errors (ExtractNfsRootfs_validate self) /\
  (truthy (param_get self "nfsrootfs") = true ->
   data st !! "download_action" = None ->
   ExtractNfsRootfs_validate self st =
     (if fs_exists (fs st) "/usr/sbin/exportfs" then Ok tt
      else Raise (InfrastructureError "NFS job requested but nfs-kernel-server not installed."),
      with_errors (errors st ++ ["missing download_action in parameters"]) st)) /\
  (forall da n,
     truthy (param_get self "nfsrootfs") = true ->
     data st !! "download_action" = Some (PDict da) ->
     da !! "nfsrootfs" = Some (PDict n) ->
     ExtractNfsRootfs_validate self st =
       (if fs_exists (fs st) "/usr/sbin/exportfs" then Ok tt
        else Raise (InfrastructureError "NFS job requested but nfs-kernel-server not installed."),
        if bool_decide (is_Some (n !! "file")) then st
        else with_errors (errors st ++ ["no file specified extract as nfsrootfs"]) st)) /\
  (truthy (param_get self "ramdisk") = true ->
   CompressRamdisk_validate X self st =
     match which X "mkimage" st with
     | (Ok _, st1) => (Ok tt, st1)
     | (Raise (InfrastructureError _), st1) =>
         (Raise (InfrastructureError "Unable to find mkimage - is u-boot-tools installed?"), st1)
     | (Raise e, st1) => (Raise e, st1)
     end) /\
  (forall bp binary e st1,
     pyocd_parameters (job_device self) = Some bp ->
     bp !! "command" = Some binary ->
     infrastructure_error X binary st = (Ok e, st1) ->
     (exists new, errors (MonitorPyOCDAction_validate X self st).2 =
                    (errors (set_errors e st1).2 ++ new)%list) /\
     (job_device self !! "board_id" = Some (PStr "0000000000") ->
      (forall o, bp !! "options" = Some o -> exists l, o = PList l) ->
      "board_id unset" ∈ errors (MonitorPyOCDAction_validate X self st).2)).
Proof.
  split; [apply ExtractNfsRootfs_validate_keeps_errors |].
  split; [apply ExtractNfsRootfs_validate_no_download |].
  split; [apply ExtractNfsRootfs_validate_download |].
  split; [apply CompressRamdisk_validate_which |].
  intros bp binary e st1 Hbp Hcmd Hinf. split.
  - by eapply MonitorPyOCDAction_validate_keeps.
  - by eapply MonitorPyOCDAction_validate_board_unset.
Qed.
End ValidateFacts.

Section ValidateWitnesses.
Import ApplyOverlay PyOCD Sample.


(** C1 as stated fails: the NFS server tools are missing, and
    [ExtractNfsRootfs.validate] raises instead of recording; the action's
    [errors] stay empty. *)
Lemma missing_exportfs_is_raised :
  fs_exists (fs nfs_state) "/usr/sbin/exportfs" = false /\
  ExtractNfsRootfs_validate nfs_action nfs_state =
    (Raise (InfrastructureError "NFS job requested but nfs-kernel-server not installed."),
     nfs_state) /\
  valid nfs_state = true.
Proof. repeat split; vm_compute; reflexivity. Qed.

Lemma validate_records_or_raises_witness :
  ExtractNfsRootfs_validate nfs_action nfs_unwritten_state =
    (Raise (InfrastructureError "NFS job requested but nfs-kernel-server not installed."),
     with_errors ["missing download_action in parameters"] nfs_unwritten_state) /\
  ExtractNfsRootfs_validate nfs_action nfs_state =
    (Raise (InfrastructureError "NFS job requested but nfs-kernel-server not installed."),
     nfs_state) /\
  CompressRamdisk_validate sample_externals ramdisk_action nfs_state =
    (Raise (InfrastructureError "Unable to find mkimage - is u-boot-tools installed?"),
     nfs_state) /\
  "board_id unset" ∈ errors (MonitorPyOCDAction_validate sample_externals pyocd_action pyocd_state).2.
Proof.
  split; [| split; [| split]].
  - destruct (validate_records_or_raises sample_externals nfs_action nfs_unwritten_state)
      as (_ & H & _).
    rewrite H; [reflexivity | vm_compute; reflexivity | vm_compute; reflexivity].
  - destruct (validate_records_or_raises sample_externals nfs_action nfs_state)
      as (_ & _ & H & _).
    rewrite (H {[ "nfsrootfs" := PDict {[ "file" := PStr "/var/lib/job/rootfs.tar.gz" ]} ]}
               {[ "file" := PStr "/var/lib/job/rootfs.tar.gz" ]});
      [reflexivity | vm_compute; reflexivity ..].
  - destruct (validate_records_or_raises sample_externals ramdisk_action nfs_state)
      as (_ & _ & _ & H & _).
    rewrite H; [reflexivity | vm_compute; reflexivity].
  - destruct (validate_records_or_raises sample_externals pyocd_action pyocd_state)
      as (_ & _ & _ & _ & H).
    destruct (H {[ "command" := PStr "pyocd-flashtool" ]} (PStr "pyocd-flashtool")
                (Some "Cannot find command 'pyocd-flashtool' in $PATH") pyocd_state)
      as [_ Hb]; [vm_compute; reflexivity .. |].
    apply Hb; [vm_compute; reflexivity |].
    intros o Ho. vm_compute in Ho. discriminate.
Defined.

End ValidateWitnesses.

(** ** The job source *)

Section JobSourceFacts.
Import DbJobSource.


Lemma filter_singleton_holds {A} (f : A -> bool) l x : List.filter f l = [x] -> f x = true.
Proof.
  intros H. assert (In x (List.filter f l)) as Hin by (rewrite H; by left).
  by apply filter_In in Hin as [_ ?].
Qed.

Lemma for_board_save_device board d db :
  hostname d = board ->
  for_board board (save_device d db) = map (fun _ => d) (for_board board db).
Proof.
  intros <-. unfold for_board, save_device. simpl.
  induction (devices db) as [| r rs IH]; simpl; [done |].
  destruct (String.eqb (hostname r) (hostname d)) eqn:E; simpl.
  - rewrite String.eqb_refl. simpl. by rewrite IH.
  - rewrite E. apply IH.
Qed.

Lemma step_get now db board p device :
  for_board board (view db p) = [device] ->
  step now db (mkInvocation board AtGet p) =
    (db, mkInvocation board
           (if bool_decide (status device <> IDLE) then Returned None else AtFilter device) p).
Proof. intros H. unfold step. simpl. rewrite H. by case_bool_decide. Qed.

Lemma step_filter now db board p device :
  step now db (mkInvocation board (AtFilter device) p) =
    (db, mkInvocation board
           match queued_for device (view db p) with
           | job :: _ => AtSaveDevice (claimed_device device job) (started_job now job)
           | [] => Returned None
           end p).
Proof. unfold step. simpl. by destruct (queued_for device (view db p)). Qed.

Lemma step_save_device now db board p device job :
  step now db (mkInvocation board (AtSaveDevice device job) p) =
    if conflict (view db p) device
    then (db, mkInvocation board AtRollback p)
    else (db, mkInvocation board (AtSaveJob job) (p ++ [WDevice device])).
Proof. done. Qed.

Lemma step_rollback now db board p :
  step now db (mkInvocation board AtRollback p) = (db, mkInvocation board AtGet []).
Proof. done. Qed.

Lemma step_save_job now db board p job :
  step now db (mkInvocation board (AtSaveJob job) p) =
    (db, mkInvocation board (AtCommit job) (p ++ [WJob job])).
Proof. done. Qed.

Lemma step_commit now db board p job :
  step now db (mkInvocation board (AtCommit job) p) =
    (view db p, mkInvocation board (Returned (Some (definition job))) []).
Proof. done. Qed.

Lemma run_unfold fuel now db t :
  run (S fuel) now db t =
    if finished t then Some (db, at_ t)
    else run fuel now (step now db t).1 (step now db t).2.
Proof. simpl. by destruct (step now db t). Qed.

Lemma run_finished fuel now db t : finished t = true -> run fuel now db t = Some (db, at_ t).
Proof. intros H. destruct fuel; simpl; by rewrite H. Qed.

(** More fuel than an invocation needs changes nothing. *)
Lemma run_more_fuel fuel extra now db t r :
  run fuel now db t = Some r -> run (fuel + extra) now db t = Some r.
Proof.
  revert db t. induction fuel as [| n IH]; intros db t.
  - simpl. destruct (finished t) eqn:E; [| discriminate].
    intros <-. by apply run_finished.
  - rewrite Nat.add_succ_l, !run_unfold. destruct (finished t); [done |]. apply IH.
Qed.


End JobSourceFacts.

Section JobSourceWitnesses.
Import DbJobSource Sample.



End JobSourceWitnesses.

(** * More of the code *)

(** ** The job source: what a claim does, keeps, and how it composes
       with completion *)

Section JobSourceMore.
Import DbJobSource JobCompletion.


Lemma step_get_other now db board p :
  (forall device, for_board board (view db p) <> [device]) ->
  step now db (mkInvocation board AtGet p) = (db, mkInvocation board Raised p).
Proof.
  intros H. unfold step. simpl.
  destruct (for_board board (view db p)) as [| d [| d' l]]; try done.
  by destruct (H d).
Qed.

Lemma run_start_outcome fuel now db board r :
  run fuel now db (start board) = Some r -> outcome_of now db board r.
Proof.
  revert r. induction fuel as [fuel IH] using lt_wf_ind. intros r.
  destruct fuel as [| f1]; [discriminate |].
  unfold start. rewrite run_unfold. cbn [finished at_].
  destruct (for_board board db) as [| device [| d' l]] eqn:Hdev.
  - rewrite step_get_other by (cbn [view foldl]; rewrite Hdev; done).
    cbn [fst snd]. rewrite run_finished by done. intros [= <-].
    apply no_such_board. intros d. by rewrite Hdev.
  - rewrite (step_get _ _ _ _ device) by done. cbn [fst snd].
    case_bool_decide as Hst.
    + rewrite run_finished by done. intros [= <-]. by apply board_busy with device.
    + assert (status device = IDLE) as Hidle by (by destruct (status device)).
      destruct f1 as [| f2]; [discriminate |].
      rewrite run_unfold, step_filter. cbn [finished at_ fst snd view foldl].
      destruct (queued_for device db) as [| job rest] eqn:Hq.
      * rewrite run_finished by done. intros [= <-]. by apply nothing_queued with device.
      * destruct f2 as [| f3]; [discriminate |].
        rewrite run_unfold, step_save_device. cbn [finished at_ fst snd view foldl].
        destruct (conflict db (claimed_device device job)) eqn:Hc; cbn [fst snd].
        -- destruct f3 as [| f4]; [discriminate |].
           rewrite run_unfold, step_rollback. cbn [finished at_ fst snd].
           apply IH. lia.
        -- destruct f3 as [| f4]; [discriminate |].
           rewrite run_unfold, step_save_job. cbn [finished at_ fst snd].
           destruct f4 as [| f5]; [discriminate |].
           rewrite run_unfold, step_commit. cbn [finished at_ fst snd view foldl].
           rewrite run_finished by done. cbn [app foldl apply_write at_]. intros [= <-].
           by apply job_claimed with rest.
  - rewrite step_get_other by (cbn [view foldl]; rewrite Hdev; done).
    cbn [fst snd]. rewrite run_finished by done. intros [= <-].
    apply no_such_board. intros d. by rewrite Hdev.
Qed.

(** With five statements' worth of fuel every outcome is reached. *)
Lemma outcome_is_reached fuel now db board r :
  5 <= fuel -> outcome_of now db board r ->
  getJobForBoard_impl fuel now db board = Some r.
Proof.
  intros Hfuel Ho. replace fuel with (5 + (fuel - 5)) by lia.
  apply run_more_fuel. unfold getJobForBoard_impl, start.
  destruct Ho as [Hno | device Hdev Hbusy | device Hdev Hidle Hq
                  | device job rest Hdev Hidle Hq Hc].
  - rewrite run_unfold, step_get_other by done. by cbn [finished at_ fst snd].
  - rewrite run_unfold, (step_get _ _ _ _ device) by done.
    rewrite bool_decide_eq_true_2 by done. by cbn [finished at_ fst snd].
  - rewrite run_unfold, (step_get _ _ _ _ device), Hidle by done.
    cbn [finished at_ fst snd]. rewrite bool_decide_eq_false_2 by (intros H; by apply H).
    rewrite run_unfold, step_filter. cbn [finished at_ fst snd view foldl].
    rewrite Hq. by cbn [finished at_ fst snd].
  - rewrite run_unfold, (step_get _ _ _ _ device), Hidle by done.
    cbn [finished at_ fst snd]. rewrite bool_decide_eq_false_2 by (intros H; by apply H).
    rewrite run_unfold, step_filter. cbn [finished at_ fst snd view foldl].
    rewrite Hq. cbn [finished at_ fst snd].
    rewrite run_unfold, step_save_device. cbn [finished at_ fst snd view foldl].
    rewrite Hc. cbn [finished at_ fst snd].
    rewrite run_unfold, step_save_job. cbn [finished at_ fst snd].
    rewrite run_unfold, step_commit. cbn [finished at_ fst snd].
    reflexivity.
Qed.


(** *** What a claim keeps *)

Lemma hostnames_save_device d db :
  map hostname (devices (save_device d db)) = map hostname (devices db).
Proof.
  unfold save_device. simpl. induction (devices db) as [| r rs IH]; simpl; [done |].
  rewrite IH. f_equal.
  destruct (String.eqb (hostname r) (hostname d)) eqn:E; [| done].
  symmetry. by apply String.eqb_eq.
Qed.

Lemma ids_save_job j db :
  map id (jobs (save_job j db)) = map id (jobs db).
Proof.
  unfold save_job. simpl. induction (jobs db) as [| r rs IH]; simpl; [done |].
  rewrite IH. f_equal.
  destruct (Nat.eqb (id r) (id j)) eqn:E; [| done].
  symmetry. by apply Nat.eqb_eq.
Qed.

Lemma conflict_false db d :
  conflict db d = false <->
  forall r, In r (devices db) -> hostname r <> hostname d ->
            is_Some (current_job d) -> current_job r <> current_job d.
Proof.
  unfold conflict. split.
  - intros H r Hr Hne Hs Heq.
    assert (existsb (fun r => negb (String.eqb (hostname r) (hostname d))
                              && bool_decide (is_Some (current_job d))
                              && bool_decide (current_job r = current_job d))
                    (devices db) = true) as Ht; [| congruence].
    apply existsb_exists. exists r. split; [done |].
    apply String.eqb_neq in Hne. rewrite Hne. simpl.
    rewrite !bool_decide_eq_true_2 by done. done.
  - intros H. apply not_true_is_false. intros Ht.
    apply existsb_exists in Ht as (r & Hr & Hc).
    apply andb_prop in Hc as [Hc H3]. apply andb_prop in Hc as [H1 H2].
    apply bool_decide_eq_true in H2, H3. apply negb_true_iff, String.eqb_neq in H1.
    by apply (H r).
Qed.

Lemma In_save_device r d db :
  In r (devices (save_device d db)) ->
  r = d \/ (In r (devices db) /\ hostname r <> hostname d).
Proof.
  unfold save_device. simpl. intros H. apply in_map_iff in H as (x & Hx & Hin).
  destruct (String.eqb (hostname x) (hostname d)) eqn:E.
  - left. done.
  - right. subst x. split; [done |]. by apply String.eqb_neq.
Qed.

Lemma unique_current_job_claim db device job :
  In device (devices db) ->
  unique_current_job db = true ->
  conflict db (claimed_device device job) = false ->
  unique_current_job (save_device (claimed_device device job) db) = true.
Proof.
  intros Hin Hu Hc. unfold unique_current_job in *.
  rewrite forallb_forall in *. intros d Hd. apply negb_true_iff, conflict_false.
  intros r Hr Hne Hs Heq.
  rewrite conflict_false in Hc.
  apply In_save_device in Hd as [-> | [Hd Hdn]]; apply In_save_device in Hr as [-> | [Hr Hrn]].
  - done.
  - by apply (Hc r).
  - by apply (Hc d).
  - specialize (Hu d Hd). apply negb_true_iff in Hu. rewrite conflict_false in Hu.
    by apply (Hu r).
Qed.

Lemma conflict_save_job j db d : conflict (save_job j db) d = conflict db d.
Proof. done. Qed.

(** X2.  Whatever an invocation of [getJobForBoard_impl] run alone ends
    with, the list of boards ([getBoardList_impl]) and the ids of the jobs
    are what they were, and if no two boards shared a current job before,
    none do afterwards. *)
Theorem getJobForBoard_impl_keeps fuel now db board db' pos :
  getJobForBoard_impl fuel now db board = Some (db', pos) ->
  getBoardList_impl db' = getBoardList_impl db /\
  map id (jobs db') = map id (jobs db) /\
  (unique_current_job db = true -> unique_current_job db' = true).
Proof.
  intros H. apply run_start_outcome in H.
  inversion H as [Hno | device Hdev Hbusy | device Hdev Hidle Hq
                  | device job rest Hdev Hidle Hq Hc]; subst; try done.
  unfold getBoardList_impl. split; [| split].
  - change (devices (save_job ?j ?d)) with (devices d). apply hostnames_save_device.
  - rewrite ids_save_job. done.
  - intros Hu. unfold unique_current_job.
    change (devices (save_job ?j ?d)) with (devices d).
    apply (unique_current_job_claim db device job); try done.
    assert (In device (for_board board db)) as Hin by (rewrite Hdev; by left).
    by apply filter_In in Hin as [? _].
Qed.

(** *** Which job is handed out *)

Lemma filter_first {A} (f : A -> bool) l x rest :
  List.filter f l = x :: rest ->
  exists before after,
    l = (before ++ x :: after)%list /\ f x = true /\
    Forall (fun y => f y = false) before /\ List.filter f after = rest.
Proof.
  induction l as [| y l IH]; simpl; [discriminate |].
  destruct (f y) eqn:E.
  - intros [= -> <-]. exists [], l. by repeat split.
  - intros H. destruct (IH H) as (before & after & -> & Hx & Hb & Ha).
    exists (y :: before), after. repeat split; try done. by constructor.
Qed.

(** X3.  The job [getJobForBoard_impl] returns is the first row of the job
    table that is submitted for the board: the value of
    [order_by('submit_time')] is dropped, so the submit times play no
    part.  Afterwards the board's row is running with that job as its
    current job. *)
Theorem getJobForBoard_impl_first_in_table fuel now db board db' def :
  getJobForBoard_impl fuel now db board = Some (db', Returned (Some def)) ->
  exists before job after,
    jobs db = (before ++ job :: after)%list /\
    definition job = def /\ target job = board /\ jstatus job = SUBMITTED /\
    Forall (fun j => ~ (target j = board /\ jstatus j = SUBMITTED)) before /\
    for_board board db' = [mkDevice board DEVICE_RUNNING (Some (id job))].
Proof.
  intros H. apply run_start_outcome in H.
  inversion H as [Hno | device Hdev Hbusy | device Hdev Hidle Hq
                  | device job rest Hdev Hidle Hq Hc]; subst.
  pose proof (filter_singleton_holds _ _ _ Hdev) as Hname.
  apply String.eqb_eq in Hname.
  apply filter_first in Hq as (before & after & Hjobs & Hj & Hb & _).
  apply andb_prop in Hj as [Ht Hs].
  apply String.eqb_eq in Ht. apply bool_decide_eq_true in Hs.
  exists before, job, after. repeat split; try done.
  - congruence.
  - eapply Forall_impl; [exact Hb |]. intros j Hf [Hjt Hjs]. simpl in Hf.
    rewrite Hjs, Hjt, <- Hname, String.eqb_refl in Hf. done.
  - change (for_board board (save_job ?j ?d)) with (for_board board d).
    rewrite for_board_save_device by done. rewrite Hdev. simpl.
    unfold claimed_device. by rewrite Hname.
Qed.

(** *** The claim that cannot end *)

(** X4.  When the job an idle board would claim is already the current job
    of another board, [device.save()] conflicts, the transaction is rolled
    back and the loop starts again on the same rows: run alone, the
    invocation never returns, whatever the fuel. *)
Theorem getJobForBoard_impl_spins now db board device job rest :
  for_board board db = [device] ->
  status device = IDLE ->
  queued_for device db = job :: rest ->
  conflict db (claimed_device device job) = true ->
  forall fuel, getJobForBoard_impl fuel now db board = None.
Proof.
  intros Hdev Hidle Hq Hc fuel. unfold getJobForBoard_impl.
  induction fuel as [fuel IH] using lt_wf_ind.
  destruct fuel as [| f1]; [done |]. unfold start.
  rewrite run_unfold, (step_get _ _ _ _ device), Hidle by done.
  cbn [finished at_ fst snd]. rewrite bool_decide_eq_false_2 by (intros H; by apply H).
  destruct f1 as [| f2]; [done |].
  rewrite run_unfold, step_filter. cbn [finished at_ fst snd view foldl].
  rewrite Hq. cbn [finished at_ fst snd].
  destruct f2 as [| f3]; [done |].
  rewrite run_unfold, step_save_device. cbn [finished at_ fst snd view foldl].
  rewrite Hc. cbn [finished at_ fst snd].
  destruct f3 as [| f4]; [done |].
  rewrite run_unfold, step_rollback. cbn [finished at_ fst snd].
  apply IH. lia.
Qed.

(** *** Under any interleaving *)

Lemma view_keeps_keys db p :
  map hostname (devices (view db p)) = map hostname (devices db) /\
  map id (jobs (view db p)) = map id (jobs db).
Proof.
  unfold view. revert db. induction p as [| w p IH]; intros db; simpl; [done |].
  destruct (IH (apply_write db w)) as [-> ->].
  destruct w as [d | j]; simpl.
  - split; [apply hostnames_save_device | done].
  - split; [done | apply ids_save_job].
Qed.

Lemma step_keeps_keys now db t :
  map hostname (devices (step now db t).1) = map hostname (devices db) /\
  map id (jobs (step now db t).1) = map id (jobs db).
Proof.
  unfold step. destruct (at_ t); simpl; try done.
  - destruct (for_board _ _) as [| d [| d' l]]; try done. by case_bool_decide.
  - by destruct (queued_for _ _).
  - by destruct (conflict _ _).
  - apply view_keeps_keys.
Qed.

(** X5.  Under every interleaving of the statements of two invocations of
    [getJobForBoard_impl], the committed tables keep their list of boards
    and the ids of their jobs. *)
Theorem schedule_keeps_boards_and_jobs now c s :
  getBoardList_impl (shared (schedule now c s)) = getBoardList_impl (shared c) /\
  map id (jobs (shared (schedule now c s))) = map id (jobs (shared c)).
Proof.
  unfold getBoardList_impl, schedule. revert c.
  induction s as [| who s IH]; intros c; simpl; [done |].
  destruct (IH (step_thread now c who)) as [-> ->].
  unfold step_thread. destruct who.
  - pose proof (step_keeps_keys now (shared c) (first c)) as H.
    by destruct (step now (shared c) (first c)).
  - pose proof (step_keeps_keys now (shared c) (second c)) as H.
    by destruct (step now (shared c) (second c)).
Qed.

(** *** Completion *)

Lemma filter_singleton_all {A} (f : A -> bool) l x y :
  List.filter f l = [x] -> In y l -> f y = true -> y = x.
Proof.
  intros H Hy Hf. assert (In y (List.filter f l)) as Hin by (by apply filter_In).
  rewrite H in Hin. by destruct Hin as [-> | []].
Qed.

Lemma save_device_same board device db :
  for_board board db = [device] -> hostname device = board ->
  save_device device db = db.
Proof.
  intros Hdev Hname. unfold save_device. destruct db as [ds js]. simpl. f_equal.
  rewrite <- (map_id ds) at 2. apply map_ext_in. intros r Hr.
  destruct (String.eqb (hostname r) (hostname device)) eqn:E; [| done].
  symmetry. apply (filter_singleton_all _ _ _ _ Hdev Hr). simpl. by rewrite <- Hname.
Qed.

Lemma save_device_twice d1 d2 db :
  hostname d1 = hostname d2 ->
  save_device d2 (save_device d1 db) = save_device d2 db.
Proof.
  intros Hn. unfold save_device. simpl. f_equal. rewrite map_map.
  apply map_ext. intros r. rewrite Hn.
  destruct (String.eqb (hostname r) (hostname d2)) eqn:E; [| by rewrite E].
  by rewrite Hn, String.eqb_refl.
Qed.

Lemma save_job_split j' before j after :
  NoDup (map id (before ++ j :: after)) -> id j' = id j ->
  map (fun r => if Nat.eqb (id r) (id j') then j' else r) (before ++ j :: after)
    = (before ++ j' :: after)%list.
Proof.
  intros Hnd Hid. rewrite map_app in Hnd. simpl in Hnd.
  apply NoDup_app in Hnd as (_ & Hdis & Hnd'). apply NoDup_cons in Hnd' as [Hnot _].
  rewrite map_app. simpl. rewrite Hid, Nat.eqb_refl. f_equal; [| f_equal].
  - rewrite <- (map_id before) at 2. apply map_ext_in. intros r Hr.
    destruct (Nat.eqb (id r) (id j)) eqn:E; [| done].
    apply Nat.eqb_eq in E. exfalso. apply (Hdis (id r)).
    + apply list_elem_of_In, in_map. done.
    + rewrite E. by left.
  - rewrite <- (map_id after) at 2. apply map_ext_in. intros r Hr.
    destruct (Nat.eqb (id r) (id j)) eqn:E; [| done].
    apply Nat.eqb_eq in E. exfalso. apply Hnot. rewrite <- E.
    apply list_elem_of_In, in_map. done.
Qed.

Lemma filter_app_cons_nil {A} (f : A -> bool) before x after :
  List.filter f (before ++ x :: after) = [] ->
  List.filter f before = [] /\ f x = false /\ List.filter f after = [].
Proof.
  rewrite List.filter_app. simpl. intros H. apply app_eq_nil in H as [H1 H2].
  destruct (f x); [discriminate | done].
Qed.

Lemma Forall_filter_nil {A} (f : A -> bool) l :
  Forall (fun y => f y = false) l -> List.filter f l = [].
Proof. induction 1 as [| y l Hy _ IH]; simpl; [done |]. by rewrite Hy. Qed.

(** The tables after the claim of [job], and after its completion. *)
Lemma claimed_then_completed_rows now1 now2 db board device job rest ends :
  for_board board db = [device] ->
  queued_for device db = job :: rest ->
  running_for device db = [] ->
  NoDup (map id (jobs db)) ->
  let claimed := save_job (started_job now1 job) (save_device (claimed_device device job) db) in
  exists before after,
    jobs db = (before ++ job :: after)%list /\
    jobs claimed = (before ++ started_job now1 job :: after)%list /\
    jobCompleted_impl now2 (mkStore claimed ends) board =
      inr (mkStore (mkDb (devices (save_device (idle_device device) db))
                         (before ++ completed_job (started_job now1 job) :: after))
                   (<[id job := now2]> ends)) /\
    List.filter (fun j => String.eqb (target j) (hostname device)
                          && bool_decide (jstatus j = SUBMITTED)) before = [] /\
    List.filter (fun j => String.eqb (target j) (hostname device)
                          && bool_decide (jstatus j = SUBMITTED)) after = rest /\
    List.filter (fun j => String.eqb (target j) (hostname device)
                          && bool_decide (jstatus j = RUNNING)) before = [] /\
    List.filter (fun j => String.eqb (target j) (hostname device)
                          && bool_decide (jstatus j = RUNNING)) after = [].
Proof.
  intros Hdev Hq Hr Hnd claimed.
  pose proof (filter_singleton_holds _ _ _ Hdev) as Hname. apply String.eqb_eq in Hname.
  pose proof Hq as Hq'.
  apply filter_first in Hq' as (before & after & Hjobs & Hj & Hb & Ha).
  apply Forall_filter_nil in Hb.
  unfold running_for in Hr. rewrite Hjobs in Hr.
  apply filter_app_cons_nil in Hr as (Hrb & Hrj & Hra).
  apply andb_prop in Hj as [Hjt Hjs].
  assert (jobs claimed = (before ++ started_job now1 job :: after)%list) as Hjobs1.
  { unfold claimed, save_job, save_device. cbn [jobs]. rewrite Hjobs.
    apply save_job_split; [| done].
    by rewrite <- Hjobs. }
  exists before, after. repeat split; try done.
  unfold jobCompleted_impl. cbn [rows].
  assert (for_board board claimed = [claimed_device device job]) as ->.
  { unfold claimed. change (for_board board (save_job ?j ?d)) with (for_board board d).
    rewrite for_board_save_device by done. by rewrite Hdev. }
  cbn [get_one].
  assert (running_for (idle_device (claimed_device device job)) claimed
          = [started_job now1 job]) as ->.
  { unfold running_for. rewrite Hjobs1, List.filter_app. simpl.
    rewrite Hrb, Hra, Hjt. simpl. done. }
  cbn [get_one]. f_equal. f_equal.
  unfold save_job at 1. cbn [devices jobs]. f_equal.
  - transitivity (devices (save_device (idle_device device)
                             (save_device (claimed_device device job) db))); [done |].
    by rewrite save_device_twice.
  - change (jobs (save_device ?d ?x)) with (jobs x). rewrite Hjobs1.
    apply save_job_split; [| done].
    rewrite <- Hjobs1. unfold claimed. rewrite ids_save_job. done.
Qed.

Lemma claimed_then_completed_facts now1 now2 db board device job rest ends :
  for_board board db = [device] ->
  status device = IDLE ->
  current_job device = None ->
  queued_for device db = job :: rest ->
  running_for device db = [] ->
  NoDup (map id (jobs db)) ->
  let claimed := save_job (started_job now1 job) (save_device (claimed_device device job) db) in
  exists s2,
    jobCompleted_impl now2 (mkStore claimed ends) board = inr s2 /\
    devices (rows s2) = devices db /\
    queued_for device (rows s2) = rest /\
    running_for device (rows s2) = [] /\
    end_time s2 = <[id job := now2]> ends /\
    In (completed_job (started_job now1 job)) (jobs (rows s2)).
Proof.
  intros Hdev Hidle Hcur Hq Hr Hnd claimed.
  pose proof (filter_singleton_holds _ _ _ Hdev) as Hname. apply String.eqb_eq in Hname.
  destruct (claimed_then_completed_rows now1 now2 db board device job rest ends Hdev Hq Hr Hnd)
    as (before & after & Hjobs & Hjobs1 & Hdone & Hqb & Hqa & Hrb & Hra).
  eexists. split; [exact Hdone |]. cbn [rows end_time devices jobs].
  split; [| split; [| split; [| split]]].
  - assert (idle_device device = device) as ->.
    { destruct device as [h s c]. simpl in *. by subst. }
    by rewrite (save_device_same board).
  - unfold queued_for. cbn [jobs]. rewrite List.filter_app. simpl.
    rewrite Hqb, Hqa. by rewrite andb_false_r.
  - unfold running_for. cbn [jobs]. rewrite List.filter_app. simpl.
    rewrite Hrb, Hra. by rewrite andb_false_r.
  - done.
  - apply in_or_app. right. by left.
Qed.


End JobSourceMore.

Section JobSourceMoreWitnesses.
Import DbJobSource JobCompletion Sample MoreSamples.


Lemma getJobForBoard_impl_keeps_witness :
  getBoardList_impl claimed_db = ["panda01"; "panda02"] /\
  map id (jobs claimed_db) = [1] /\
  unique_current_job claimed_db = true.
Proof.
  destruct (getJobForBoard_impl_keeps 5 0 board_db "panda01" claimed_db
              (Returned (Some "{'job_name': 'boot-test'}")))
    as (H1 & H2 & H3); [vm_compute; reflexivity |].
  split; [exact H1 | split; [exact H2 |]]. apply H3. vm_compute. reflexivity.
Defined.

Lemma getJobForBoard_impl_first_in_table_witness :
  exists before job after,
    jobs order_db = (before ++ job :: after)%list /\
    definition job = "{'job_name': 'late'}" /\ target job = "panda01" /\
    jstatus job = SUBMITTED /\
    Forall (fun j => ~ (target j = "panda01" /\ jstatus j = SUBMITTED)) before /\
    for_board "panda01"
      (save_job (started_job 0 late_job) (save_device (claimed_device panda01 late_job) order_db))
      = [mkDevice "panda01" DEVICE_RUNNING (Some (id job))].
Proof.
  apply (getJobForBoard_impl_first_in_table 5 0 order_db "panda01").
  vm_compute. reflexivity.
Defined.

Lemma getJobForBoard_impl_spins_witness :
  getJobForBoard_impl 1000 0 taken_db "panda01" = None.
Proof.
  apply (getJobForBoard_impl_spins 0 taken_db "panda01" panda01 queued_job []);
    vm_compute; reflexivity.
Defined.



End JobSourceMoreWitnesses.

(** ** The filesystem under [extractall] *)

Section FsFacts.

Lemma fs_put_cwd p e f : cwd (fs_put p e f) = cwd f.
Proof. done. Qed.

Lemma fs_extract_cwd d ms f : cwd (fs_extract d ms f) = cwd f.
Proof.
  unfold fs_extract. revert f. induction ms as [| m ms IH]; intros f; [done |].
  simpl. by rewrite IH.
Qed.

Lemma fs_extract_mounts d ms f : mounts (fs_extract d ms f) = mounts f.
Proof.
  unfold fs_extract. revert f. induction ms as [| m ms IH]; intros f; [done |].
  simpl. by rewrite IH.
Qed.

Lemma fs_extract_resolve d ms f p : resolve (fs_extract d ms f) p = resolve f p.
Proof. unfold resolve. by rewrite fs_extract_cwd. Qed.

Lemma fs_extract_keeps d ms f q :
  is_Some (nodes f !! q) -> is_Some (nodes (fs_extract d ms f) !! q).
Proof.
  unfold fs_extract. revert f. induction ms as [| m ms IH]; intros f H; [done |].
  simpl. apply IH. simpl.
  destruct (decide (resolve f (path_join d m.1) = q)) as [<- | Hne].
  - rewrite lookup_insert_eq. eauto.
  - by rewrite lookup_insert_ne.
Qed.

Lemma fs_extract_member d ms f m :
  In m ms -> is_Some (nodes (fs_extract d ms f) !! resolve f (path_join d m.1)).
Proof.
  unfold fs_extract. revert f. induction ms as [| m' ms IH]; intros f H; [done |].
  simpl. destruct H as [-> | H].
  - apply (fs_extract_keeps d ms). simpl. rewrite lookup_insert_eq. eauto.
  - change (resolve f (path_join d m.1))
      with (resolve (fs_put (path_join d m'.1) (entry_of_member m') f) (path_join d m.1)).
    by apply IH.
Qed.

(** What [extractall] writes, it writes at the names of the members. *)
Lemma fs_extract_elsewhere d ms f q :
  (forall m, In m ms -> resolve f (path_join d m.1) <> q) ->
  nodes (fs_extract d ms f) !! q = nodes f !! q.
Proof.
  unfold fs_extract. revert f. induction ms as [| m' ms IH]; intros f H; [done |].
  simpl. rewrite IH.
  - simpl. rewrite lookup_insert_ne; [done |]. apply H. by left.
  - intros m Hm. apply (H m). by right.
Qed.

Lemma fs_exists_extract d ms f q :
  fs_exists f q = true -> fs_exists (fs_extract d ms f) q = true.
Proof.
  unfold fs_exists. rewrite fs_extract_resolve. intros H%bool_decide_eq_true.
  apply bool_decide_eq_true. by apply fs_extract_keeps.
Qed.

Lemma fs_exists_extract_member d ms f m :
  In m ms -> fs_exists (fs_extract d ms f) (path_join d m.1) = true.
Proof.
  intros H. unfold fs_exists. rewrite fs_extract_resolve.
  apply bool_decide_eq_true. by apply fs_extract_member.
Qed.

Lemma fs_ismount_extract d ms f q :
  fs_ismount f q = true -> fs_ismount (fs_extract d ms f) q = true.
Proof.
  unfold fs_ismount. intros [H1 H2]%andb_true_iff.
  rewrite fs_extract_resolve, fs_extract_mounts, H1. simpl.
  by apply fs_exists_extract.
Qed.

Lemma truthy_PStr s : s <> "" -> truthy (PStr s) = true.
Proof. intros H. simpl. apply negb_true_iff. by apply String.eqb_neq. Qed.

Lemma tarfile_open_archive p ms st :
  p <> "" -> nodes (fs st) !! resolve (fs st) p = Some (Tarball ms) ->
  tarfile_open (PStr p) st = (Ok ms, st).
Proof.
  intros Hp H. unfold tarfile_open. rewrite truthy_PStr by done. simpl. by rewrite H.
Qed.

Lemma tarfile_open_no_archive p content st :
  p <> "" -> nodes (fs st) !! resolve (fs st) p = Some (Regular content) ->
  tarfile_open (PStr p) st = (Raise (TarError "file could not be opened successfully"), st).
Proof.
  intros Hp H. unfold tarfile_open. rewrite truthy_PStr by done. simpl. by rewrite H.
Qed.

Lemma tarfile_open_missing p st :
  p <> "" -> nodes (fs st) !! resolve (fs st) p = None ->
  tarfile_open (PStr p) st = (Raise (IOError p), st).
Proof.
  intros Hp H. unfold tarfile_open. rewrite truthy_PStr by done. simpl. by rewrite H.
Qed.

End FsFacts.

Section ApplyMore.
Import ApplyOverlay.
Context {Conn : Type}.

Lemma ApplyOverlayImage_run_extracts (c : Conn) st co lm out p ms :
  data st !! "compress-overlay" = Some (PDict co) ->
  co !! "output" = Some (PStr out) ->
  out <> "" ->
  data st !! "loop_mount" = Some (PDict lm) ->
  lm !! "mntdir" = Some (PStr p) ->
  fs_ismount (fs st) p = true ->
  nodes (fs st) !! resolve (fs st) out = Some (Tarball ms) ->
  ApplyOverlayImage_run c st = (Ok c, with_fs (fs_extract p ms (fs st)) st).
Proof.
  intros Hco Hout Hne Hlm Hmnt Hism Har.
  unfold ApplyOverlayImage_run.
  rewrite (bind_Ok _ _ _ _ _ (data_entry_Some _ _ _ Hco)).
  py_unfold. simpl. rewrite Hout. simpl.
  rewrite (proj2 (String.eqb_neq _ _) Hne). simpl.
  rewrite Hlm. simpl. rewrite Hmnt. simpl. rewrite Hism. simpl.
  unfold except_TarError. rewrite Hco. simpl. rewrite Hout. simpl.
  rewrite (tarfile_open_archive out ms st Hne Har). rewrite Hlm. simpl. rewrite Hmnt.
  reflexivity.
Qed.


(** X9.  When the recorded overlay output is a file that is no archive,
    [tarfile.open] raises a TarError and [ApplyOverlayImage.run] turns it
    into a RuntimeError "Unable to unpack overlay: ..."; when no file is
    there, the IOError of [tarfile.open] is not a TarError and leaves
    [run] as it is.  In both cases nothing was changed. *)
Theorem ApplyOverlayImage_run_bad_archive (c : Conn) st co lm out p :
  data st !! "compress-overlay" = Some (PDict co) ->
  co !! "output" = Some (PStr out) ->
  out <> "" ->
  data st !! "loop_mount" = Some (PDict lm) ->
  lm !! "mntdir" = Some (PStr p) ->
  fs_ismount (fs st) p = true ->
  (forall content,
     nodes (fs st) !! resolve (fs st) out = Some (Regular content) ->
     exists msg, ApplyOverlayImage_run c st
                 = (Raise (RuntimeError ("Unable to unpack overlay: " ++ msg)), st)) /\
  (nodes (fs st) !! resolve (fs st) out = None ->
   ApplyOverlayImage_run c st = (Raise (IOError out), st)).
Proof.
  intros Hco Hout Hne Hlm Hmnt Hism.
  assert (forall r, 
    tarfile_open (PStr out) st = (Raise r, st) ->
    ApplyOverlayImage_run c st =
      match r with
      | TarError msg => (Raise (RuntimeError ("Unable to unpack overlay: " ++ msg)), st)
      | _ => (Raise r, st)
      end) as Hrun.
  { intros r Hr. unfold ApplyOverlayImage_run.
    rewrite (bind_Ok _ _ _ _ _ (data_entry_Some _ _ _ Hco)).
    py_unfold. simpl. rewrite Hout. simpl.
    rewrite (proj2 (String.eqb_neq _ _) Hne). simpl.
    rewrite Hlm. simpl. rewrite Hmnt. simpl. rewrite Hism. simpl.
    unfold except_TarError. rewrite Hco. simpl. rewrite Hout. simpl.
    rewrite Hr. by destruct r. }
  split.
  - intros content H. eexists.
    by rewrite (Hrun _ (tarfile_open_no_archive out content st Hne H)).
  - intros H. by rewrite (Hrun _ (tarfile_open_missing out st Hne H)).
Qed.



(** A ramdisk parameter that is set but empty. *)
(** X11.  The ramdisk parameter is tested in two ways.  A value that is
    set but false in a condition (the empty string) makes
    [ExtractRamdisk.run] and [CompressRamdisk.run] return without doing
    anything ([not ...get('ramdisk')]), while [ApplyOverlayTftp.run]
    takes its ramdisk branch ([... is not None]) and raises KeyError for
    the 'extracted_ramdisk' that was never recorded. *)
Theorem empty_ramdisk_parameter X self (c : Conn) st co er :
  param_get self "ramdisk" <> PNone ->
  truthy (param_get self "ramdisk") = false ->
  data st !! "compress-overlay" = Some (PDict co) ->
  data st !! "extract-overlay-ramdisk" = Some (PDict er) ->
  er !! "extracted_ramdisk" = None ->
  ExtractRamdisk_run X self c st = (Ok c, st) /\
  CompressRamdisk_run X self c st = (Ok c, st) /\
  ApplyOverlayTftp_run self c st = (Raise (KeyError "extracted_ramdisk"), st).
Proof.
  intros Hn Ht Hco Her Hd. split; [| split].
  - unfold ExtractRamdisk_run. by rewrite Ht.
  - unfold CompressRamdisk_run. by rewrite Ht.
  - unfold ApplyOverlayTftp_run.
    destruct (param_get self "ramdisk") eqn:E; [done | ..];
      py_unfold; simpl; rewrite Hco; simpl; rewrite Her; simpl; by rewrite Hd.
Qed.

End ApplyMore.

Section ModulesMore.
Import ApplyOverlay.
Context {Conn : Type}.

Lemma except_OSError_inv_Ok {A} (m : Py A) h st a st' :
  except_OSError m h st = (Ok a, st') ->
  m st = (Ok a, st') \/
  exists p st1, m st = (Raise (OSError p), st1) /\ h p st1 = (Ok a, st').
Proof.
  unfold except_OSError. destruct (m st) as [[x | e] st1] eqn:E.
  - intros [= <- <-]. by left.
  - destruct e; try discriminate. intros H. right. eauto.
Qed.

Lemma os_unlink_inv p st u st' :
  os_unlink p st = (Ok u, st') -> st' = with_fs (fs_remove p (fs st)) st.
Proof.
  unfold os_unlink.
  destruct (nodes (fs st) !! resolve (fs st) p) as [[] |]; try discriminate;
    by intros [= <- <-].
Qed.

Lemma fs_exists_remove p f : fs_exists (fs_remove p f) p = false.
Proof.
  unfold fs_exists, fs_remove, resolve. simpl.
  apply bool_decide_eq_false. rewrite lookup_delete_eq. by intros [? ?].
Qed.

(** Where [ExtractModules.run] unpacks to is read from the job data
    alone. *)
Lemma modules_root_reads self (m : Py pyval) st root st1 :
  m = (if negb (truthy (param_get self "ramdisk")) then
         if negb (truthy (param_get self "nfsrootfs")) then
           raise (RuntimeError "Unable to identify unpack location")
         else
           en ← data_entry "extract-nfsrootfs";
           lift (getitem en "nfsroot")
       else
         er ← data_entry "extract-overlay-ramdisk";
         lift (getitem er "extracted_ramdisk")) ->
  m st = (Ok root, st1) ->
  st1 = st /\ forall st2, data st2 = data st -> m st2 = (Ok root, st2).
Proof.
  intros ->.
  destruct (truthy (param_get self "ramdisk")); simpl;
    [| destruct (truthy (param_get self "nfsrootfs")); simpl; [| discriminate]].
  all: intros H; py_inv H; apply data_entry_inv in H0 as [-> Hd];
    apply lift_inv in H as [-> Hg]; split; [done |];
    intros st2 E; py_unfold; simpl; rewrite E, Hd; simpl; by rewrite Hg.
Qed.

Lemma tar_extractall_data ms dir st u st' :
  tar_extractall ms dir st = (Ok u, st') ->
  data st' = data st /\ cwd (fs st') = cwd (fs st) /\ errors st' = errors st.
Proof.
  unfold tar_extractall. destruct dir; try (destruct ms; [| discriminate]);
    try (by intros [-> _]%mret_inv).
  unfold modify. intros [= <- <-]. split; [reflexivity |].
  split; [apply fs_extract_cwd | reflexivity].
Qed.

(** X12.  With the modules parameter set and neither a ramdisk nor an NFS
    root, [ExtractModules.run] raises "Unable to identify unpack
    location" and changes nothing.  A run that returns has removed the
    downloaded archive and left the job data alone, so that a second run on
    what it leaves raises the IOError of [tarfile.open]: the action cannot
    be run twice. *)
Theorem ExtractModules_run_consumes self (c : Conn) st :
  truthy (param_get self "modules") = true ->
  (truthy (param_get self "ramdisk") = false ->
   truthy (param_get self "nfsrootfs") = false ->
   ExtractModules_run self c st
     = (Raise (RuntimeError "Unable to identify unpack location"), st)) /\
  (forall c' st',
     ExtractModules_run self c st = (Ok c', st') ->
     exists da m p,
       data st !! "download_action" = Some (PDict da) /\
       da !! "modules" = Some (PDict m) /\
       m !! "file" = Some (PStr p) /\
       is_Some (nodes (fs st) !! resolve (fs st) p) /\
       fs_exists (fs st') p = false /\
       data st' = data st /\
       ExtractModules_run self c st' = (Raise (IOError p), st')).
Proof.
  intros Hm. split.
  - intros Hr Hn. unfold ExtractModules_run. rewrite Hm, Hr, Hn. reflexivity.
  - intros c' st' H. unfold ExtractModules_run in H. rewrite Hm in H. simpl in H.
    apply bind_inv_Ok in H as (root & s1 & Hroot & H).
    apply (modules_root_reads self _ _ _ _ eq_refl) in Hroot as [-> Hroot].
    apply bind_inv_Ok in H as (da & s1 & Hda & H). apply data_entry_inv in Hda as [-> Hda].
    apply bind_inv_Ok in H as (m & s1 & Hmod & H). apply lift_inv in Hmod as [-> Hmod].
    apply bind_inv_Ok in H as (modules & s1 & Hfile & H). apply lift_inv in Hfile as [-> Hfile].
    apply getitem_inv in Hmod as (dda & -> & Hmod).
    apply getitem_inv in Hfile as (dm & -> & Hfile).
    apply bind_inv_Ok in H as ([] & s1 & Htar & H).
    apply except_TarError_inv_Ok in Htar as [Htar | (msg & s2 & _ & Htar)];
      [| discriminate].
    apply bind_inv_Ok in Htar as (ms & s2 & Hopen & Hext).
    apply tarfile_open_inv in Hopen as (-> & Htruthy & p & -> & Har).
    apply tar_extractall_data in Hext as (Hdata1 & Hcwd1 & _).
    apply bind_inv_Ok in H as ([] & s3 & Hun & H).
    apply mret_inv in H as [-> ->].
    apply except_OSError_inv_Ok in Hun as [Hun | (q & s2 & _ & Hun)]; [| discriminate].
    apply bind_inv_Ok in Hun as (p' & s2 & Hp & Hun).
    apply as_path_inv in Hp as [-> [= <-]].
    apply os_unlink_inv in Hun as ->.
    assert (p <> "") as Hne.
    { simpl in Htruthy. apply negb_true_iff in Htruthy. by apply String.eqb_neq. }
    exists dda, dm, p. split; [done |]. split; [done |]. split; [done |].
    split; [rewrite Har; eauto |]. split; [apply fs_exists_remove |].
    split; [done |].
    set (st' := with_fs (fs_remove p (fs s1)) s1).
    unfold ExtractModules_run. rewrite Hm. simpl.
    rewrite (bind_Ok _ _ _ _ _ (Hroot st' Hdata1)).
    assert (data st' !! "download_action" = Some (PDict dda)) as Hda'
      by (unfold st'; simpl; by rewrite Hdata1).
    rewrite (bind_Ok _ _ _ _ _ (data_entry_Some _ _ _ Hda')).
    py_unfold. simpl. rewrite Hmod. simpl. rewrite Hfile. simpl.
    unfold except_TarError.
    rewrite (tarfile_open_missing p st' Hne); [done |].
    unfold st', fs_remove, resolve. simpl. apply lookup_delete_eq.
Qed.

End ModulesMore.

Section NfsMore.
Import ApplyOverlay.
Context {Conn : Type}.

(** X13.  [ExtractNfsRootfs.run] unpacks the downloaded archive into the
    directory [mkdtemp] made, and records that directory with
    [setdefault]: it is recorded when no 'nfsroot' was, and when one was
    recorded before, the job data stays as it is and keeps pointing at the
    old directory, although the files are in the new one. *)
Theorem ExtractNfsRootfs_run_first_nfsroot_stays X self (c : Conn) st st1 da n p dir ms en :
  truthy (param_get self "nfsrootfs") = true ->
  data st !! "download_action" = Some (PDict da) ->
  da !! "nfsrootfs" = Some (PDict n) ->
  n !! "file" = Some (PStr p) ->
  p <> "" ->
  mkdtemp X (Some "/var/lib/lava/dispatcher/tmp") st = (Ok dir, st1) ->
  nodes (fs st1) !! resolve (fs st1) p = Some (Tarball ms) ->
  data st1 !! "extract-nfsrootfs" = Some (PDict en) ->
  exists st',
    ExtractNfsRootfs_run X self c st = (Ok c, st') /\
    fs st' = fs_extract dir ms (fs st1) /\
    (forall m, In m ms -> fs_exists (fs st') (path_join dir m.1) = true) /\
    (en !! "nfsroot" = None ->
     data st' = <["extract-nfsrootfs" := PDict (<["nfsroot" := PStr dir]> en)]> (data st1)) /\
    (forall old, en !! "nfsroot" = Some old -> data st' = data st1).
Proof.
  intros Hp Hda Hn Hf Hne Hmk Har Hen.
  eexists. split.
  - unfold ExtractNfsRootfs_run. rewrite Hp. simpl.
    rewrite (bind_Ok _ _ _ _ _ (data_entry_Some _ _ _ Hda)).
    py_unfold. simpl. rewrite Hn. simpl. rewrite Hf. simpl. rewrite Hmk.
    unfold except_TarError. rewrite (tarfile_open_archive p ms st1 Hne Har).
    simpl. unfold data_setdefault. simpl. rewrite Hen. simpl. reflexivity.
  - simpl. split; [reflexivity |]. split; [| split].
    + intros m Hm. by apply fs_exists_extract_member.
    + intros E. by rewrite E.
    + intros old E. rewrite E. by apply insert_id.
Qed.

End NfsMore.

Section RamdiskMore.
Import ApplyOverlay.
Context {Conn : Type}.

(** X14.  A run of [ExtractRamdisk] with the ramdisk parameter set that
    returns has recorded, under 'extract-overlay-ramdisk', the directory
    'ramdisk' and the file RAMDISK_FNAME, both inside the directory
    [mkdtemp] made: the two keys [CompressRamdisk.run] asks for. *)
Theorem ExtractRamdisk_run_records X self (c c' : Conn) st st' :
  truthy (param_get self "ramdisk") = true ->
  ExtractRamdisk_run X self c st = (Ok c', st') ->
  exists dir s1 er,
    mkdtemp X None st = (Ok dir, s1) /\
    data st' !! "extract-overlay-ramdisk" = Some (PDict er) /\
    er !! "extracted_ramdisk" = Some (PStr (path_join dir "ramdisk")) /\
    er !! "ramdisk_file" = Some (PStr (path_join dir (RAMDISK_FNAME X))).
Proof.
  intros Hr H. unfold ExtractRamdisk_run in H. rewrite Hr in H. simpl in H.
  apply bind_inv_Ok in H as (da & s0 & Hda & H). apply data_entry_inv in Hda as [-> Hda].
  apply bind_inv_Ok in H as (r & s0 & Hrd & H). apply lift_inv in Hrd as [-> Hrd].
  apply bind_inv_Ok in H as (ramdisk & s0 & Hfile & H). apply lift_inv in Hfile as [-> Hfile].
  apply bind_inv_Ok in H as (dir & s1 & Hmk & H).
  apply bind_inv_Ok in H as ([] & s2 & _ & H).
  apply bind_inv_Ok in H as ([] & s3 & _ & H).
  apply bind_inv_Ok in H as (out & s4 & _ & H).
  destruct (is_not_empty_str out); [discriminate |].
  apply bind_inv_Ok in H as (pwd & s5 & _ & H).
  apply bind_inv_Ok in H as ([] & s6 & _ & H).
  apply bind_inv_Ok in H as (out2 & s7 & _ & H).
  destruct (negb (truthy out2)); [discriminate |].
  apply bind_inv_Ok in H as ([] & s8 & _ & H).
  apply bind_inv_Ok in H as ([] & s9 & Hset1 & H).
  apply bind_inv_Ok in H as ([] & s10 & Hset2 & H).
  apply mret_inv in H as [-> ->].
  apply data_set_inv in Hset1 as (e1 & He1 & ->).
  apply data_set_inv in Hset2 as (e2 & He2 & ->).
  simpl in He2. rewrite lookup_insert_eq in He2. injection He2 as <-.
  exists dir, s1, (<["ramdisk_file" := PStr (path_join dir (RAMDISK_FNAME X))]>
                     (<["extracted_ramdisk" := PStr (path_join dir "ramdisk")]> e1)).
  split; [done |]. simpl. split; [apply lookup_insert_eq |].
  split; [| apply lookup_insert_eq].
  rewrite lookup_insert_ne by done. apply lookup_insert_eq.
Qed.

(** X15.  With the ramdisk parameter set, [CompressRamdisk.run] raises a
    RuntimeError and changes nothing when 'extracted_ramdisk' was not
    recorded ("Unable to find unpacked ramdisk") and when it was but
    'ramdisk_file' was not ("Unable to find ramdisk directory"). *)
Theorem CompressRamdisk_run_guards X self (c : Conn) st er :
  truthy (param_get self "ramdisk") = true ->
  data st !! "extract-overlay-ramdisk" = Some (PDict er) ->
  (er !! "extracted_ramdisk" = None ->
   CompressRamdisk_run X self c st
     = (Raise (RuntimeError "Unable to find unpacked ramdisk"), st)) /\
  (is_Some (er !! "extracted_ramdisk") -> er !! "ramdisk_file" = None ->
   CompressRamdisk_run X self c st
     = (Raise (RuntimeError "Unable to find ramdisk directory"), st)).
Proof.
  intros Hr Her. split.
  - intros Hd. unfold CompressRamdisk_run. rewrite Hr. simpl.
    rewrite (bind_Ok _ _ _ _ _ (data_entry_Some _ _ _ Her)).
    py_unfold. simpl. by rewrite Hd.
  - intros [x Hd] Hf. unfold CompressRamdisk_run. rewrite Hr. simpl.
    rewrite (bind_Ok _ _ _ _ _ (data_entry_Some _ _ _ Her)).
    py_unfold. simpl. rewrite Hd. simpl. rewrite Her. simpl. by rewrite Hf.
Qed.

Lemma append_empty_r (s : string) : s ++ "" = s.
Proof.
  induction s as [| a s IH]; [done |].
  change (String a (s ++ "") = String a s). by rewrite IH.
Qed.

Lemma os_rename_inv src dst st u st' :
  os_rename src dst st = (Ok u, st') ->
  exists e, nodes (fs st) !! resolve (fs st) src = Some e /\
            st' = with_fs (fs_put dst e (fs_remove src (fs st))) st.
Proof.
  unfold os_rename. destruct (nodes (fs st) !! resolve (fs st) src) as [e |];
    [| discriminate].
  intros [= <- <-]. eauto.
Qed.


End RamdiskMore.

Section CompressMore.
Import Overlay ApplyOverlay.
Context {Conn : Type}.



(** What [tar.add] stores: one member for every node at or below the
    name, and no other. *)
Lemma members_below_spec f name (m : member) :
  In m (members_below f name) <->
  exists q e,
    nodes f !! q = Some e /\ is_below (resolve f name) q = true /\
    m = (name ++ substring (String.length (resolve f name)) (String.length q) q,
         match e with Regular c => Some c | Tarball _ => Some "" | Directory => None end).
Proof.
  unfold members_below. rewrite <- list_elem_of_In, list_elem_of_omap. split.
  - intros ([q e] & Hin & Hm). apply elem_of_map_to_list in Hin.
    destruct (is_below (resolve f name) q) eqn:E; [| discriminate].
    injection Hm as <-. eauto.
  - intros (q & e & Hq & Hb & ->). exists (q, e). split.
    + by apply elem_of_map_to_list.
    + by rewrite Hb.
Qed.

Lemma path_join_nonempty a b : b <> "" -> path_join a b <> "".
Proof.
  intros Hb. unfold path_join.
  destruct (is_abs b); [done |]. destruct (String.eqb a ""); [done |].
  destruct a as [| x a]; [by destruct (ends_with_slash "") |].
  destruct (ends_with_slash (String x a)); discriminate.
Qed.

Lemma CompressOverlay_run_archives_exactly self (c : Conn) st lo loc od rd own :
  data st !! "lava-overlay" = Some (PDict lo) ->
  lo !! "location" = Some (PStr loc) ->
  nodes (fs st) !! resolve (fs st) loc = Some Directory ->
  valid st = true ->
  job_parameters self !! "output_dir" = Some (PStr od) ->
  let output := path_join od ("overlay-" ++ level self ++ ".tar.gz") in
  let archive := resolve (fs st) output in
  nodes (fs st) !! archive <> Some Directory ->
  data st !! "lava_test_results_dir" = Some rd ->
  is_Some (nodes (fs st) !! normpath (path_join (resolve (fs st) loc) ("." ++ str_of rd))) ->
  is_abs (cwd (fs st)) = true ->
  nodes (fs st) !! normpath (cwd (fs st)) = Some Directory ->
  data st !! "compress-overlay" = Some (PDict own) ->
  exists st',
    CompressOverlay_run self c st = (Ok c, st') /\
    data st' = <["compress-overlay" := PDict (<["output" := PStr output]> own)]> (data st) /\
    errors st' = errors st /\
    mounts (fs st') = mounts (fs st) /\
    cwd (fs st') = normpath (cwd (fs st)) /\
    nodes (fs st') =
      <[archive := Tarball (members_below
                              (mkFs (<[archive := Tarball []]> (nodes (fs st)))
                                    (mounts (fs st)) (resolve (fs st) loc))
                              ("." ++ str_of rd))]> (nodes (fs st)).
Proof.
  intros Hlo Hloc Hdir Hv Hod output archive Harch Hrd Htree Habs Hcwd Hown.
  assert (fs_exists (fs st) loc = true) as Hex.
  { unfold fs_exists. apply bool_decide_eq_true. rewrite Hdir. eauto. }
  eexists. split.
  - unfold CompressOverlay_run.
    rewrite (bind_Ok _ _ _ _ _ (data_entry_Some _ _ _ Hlo)).
    py_unfold. simpl. rewrite Hloc. simpl. rewrite Hlo. simpl. rewrite Hloc. simpl.
    rewrite Hex. simpl. rewrite Hv. simpl. rewrite Hlo. simpl. rewrite Hloc. simpl.
    rewrite Hod. simpl.
    unfold except_TarError, tarfile_create. fold output. fold archive.
    assert (match nodes (fs st) !! archive with
            | Some Directory => (Raise (IOError output), st)
            | _ => (Ok archive, with_fs (fs_put_at archive (Tarball []) (fs st)) st)
            end = (Ok archive, with_fs (fs_put_at archive (Tarball []) (fs st)) st)) as ->.
    { destruct (nodes (fs st) !! archive) as [[] |]; done. }
    assert (archive <> resolve (fs st) loc) as Hne1 by (intros E; by rewrite E in Harch).
    assert (archive <> normpath (cwd (fs st))) as Hne2 by (intros E; by rewrite E in Harch).
    simpl. unfold os_chdir at 1. simpl.
    change (resolve (fs_put_at archive (Tarball []) (fs st)) loc) with (resolve (fs st) loc).
    rewrite lookup_insert_ne, Hdir by done. simpl. rewrite Hrd. simpl.
    unfold tar_add, fs_exists. simpl.
    set (tree := resolve (fs_chdir loc (fs_put_at archive (Tarball []) (fs st)))
                   ("." ++ str_of rd)).
    assert (is_Some (<[archive := Tarball []]> (nodes (fs st)) !! tree)) as Ht.
    { destruct (decide (archive = tree)) as [<- | Hne].
      - rewrite lookup_insert_eq. eauto.
      - by rewrite lookup_insert_ne. }
    rewrite bool_decide_eq_true_2 by done. simpl.
    unfold os_chdir. simpl.
    set (back := resolve _ (cwd (fs st))).
    assert (back = normpath (cwd (fs st))) as ->.
    { unfold back, resolve, path_join. simpl. by rewrite Habs. }
    rewrite lookup_insert_ne by done. rewrite lookup_insert_ne by done. rewrite Hcwd. simpl.
    unfold data_set. simpl. rewrite Hown. simpl. reflexivity.
  - simpl. split; [reflexivity |]. split; [reflexivity |]. split; [reflexivity |].
    split.
    + unfold resolve, path_join. simpl. by rewrite Habs.
    + by rewrite insert_insert_eq.
Qed.


Lemma lookup_insert_is_Some' {A} (m : gmap string A) i j x :
  is_Some (m !! j) -> is_Some (<[i := x]> m !! j).
Proof.
  intros H. destruct (decide (i = j)) as [-> | Hne].
  - rewrite lookup_insert_eq. eauto.
  - by rewrite lookup_insert_ne.
Qed.



End CompressMore.
Section OverlayMoreWitnesses.
Import Overlay ApplyOverlay Sample MoreSamples.


Lemma ApplyOverlayImage_run_bad_archive_witness :
  (exists msg, ApplyOverlayImage_run tt not_an_archive_state
               = (Raise (RuntimeError ("Unable to unpack overlay: " ++ msg)),
                  not_an_archive_state)) /\
  ApplyOverlayImage_run tt archive_gone_state
    = (Raise (IOError "/var/lib/job/overlay-1.2.3.tar.gz"), archive_gone_state).
Proof.
  split.
  - destruct (ApplyOverlayImage_run_bad_archive tt not_an_archive_state
                {[ "output" := PStr "/tmp/lava-overlay/lava-1/bin/lava-test-runner" ]}
                {[ "mntdir" := PStr "/mnt/image" ]}
                "/tmp/lava-overlay/lava-1/bin/lava-test-runner" "/mnt/image") as [H _].
    + vm_compute. reflexivity.
    + vm_compute. reflexivity.
    + discriminate.
    + vm_compute. reflexivity.
    + vm_compute. reflexivity.
    + vm_compute. reflexivity.
    + apply (H "#!/bin/sh"). vm_compute. reflexivity.
  - destruct (ApplyOverlayImage_run_bad_archive tt archive_gone_state
                {[ "output" := PStr "/var/lib/job/overlay-1.2.3.tar.gz" ]}
                {[ "mntdir" := PStr "/mnt/image" ]}
                "/var/lib/job/overlay-1.2.3.tar.gz" "/mnt/image") as [_ H].
    + vm_compute. reflexivity.
    + vm_compute. reflexivity.
    + discriminate.
    + vm_compute. reflexivity.
    + vm_compute. reflexivity.
    + vm_compute. reflexivity.
    + apply H. vm_compute. reflexivity.
Defined.


Lemma empty_ramdisk_parameter_witness :
  ExtractRamdisk_run sample_externals empty_ramdisk_action tt nfs_unwritten_state
    = (Ok tt, nfs_unwritten_state) /\
  CompressRamdisk_run sample_externals empty_ramdisk_action tt nfs_unwritten_state
    = (Ok tt, nfs_unwritten_state) /\
  ApplyOverlayTftp_run empty_ramdisk_action tt nfs_unwritten_state
    = (Raise (KeyError "extracted_ramdisk"), nfs_unwritten_state).
Proof.
  apply (empty_ramdisk_parameter sample_externals empty_ramdisk_action tt
           nfs_unwritten_state ∅ ∅).
  - vm_compute. discriminate.
  - vm_compute. reflexivity.
  - vm_compute. reflexivity.
  - vm_compute. reflexivity.
  - vm_compute. reflexivity.
Defined.

Lemma ExtractModules_run_consumes_witness :
  ExtractModules_run modules_only_action tt downloads_state
    = (Raise (RuntimeError "Unable to identify unpack location"), downloads_state) /\
  exists p,
    fs_exists (fs downloads_state) p = true /\
    fs_exists (fs modules_unpacked_state) p = false /\
    ExtractModules_run modules_action tt modules_unpacked_state
      = (Raise (IOError p), modules_unpacked_state).
Proof.
  split.
  - apply (ExtractModules_run_consumes modules_only_action tt downloads_state).
    + vm_compute. reflexivity.
    + vm_compute. reflexivity.
    + vm_compute. reflexivity.
  - destruct (ExtractModules_run_consumes modules_action tt downloads_state) as [_ H].
    + vm_compute. reflexivity.
    + destruct (H tt modules_unpacked_state) as (da & m & p & _ & _ & _ & Hex & Hgone & _ & Hagain).
      * vm_compute. reflexivity.
      * exists p. split; [| split; [exact Hgone | exact Hagain]].
        unfold fs_exists. by apply bool_decide_eq_true.
Defined.

Lemma ExtractNfsRootfs_run_first_nfsroot_stays_witness :
  exists st',
    ExtractNfsRootfs_run working_externals nfs_action tt downloads_state = (Ok tt, st') /\
    fs_exists (fs st') "/var/lib/lava/dispatcher/tmp/tmpdir/etc/hostname" = true /\
    data st' !! "extract-nfsrootfs" = Some (PDict {[ "nfsroot" := PStr "/srv/nfs/root" ]}).
Proof.
  destruct (ExtractNfsRootfs_run_first_nfsroot_stays working_externals nfs_action tt
              downloads_state tmpdir_state
              {[ "modules" := PDict {[ "file" := PStr "/var/lib/job/modules.tar.gz" ]};
                 "nfsrootfs" := PDict {[ "file" := PStr "/var/lib/job/rootfs.tar.gz" ]};
                 "ramdisk" := PDict {[ "file" := PStr "/var/lib/job/ramdisk.cpio.gz" ]} ]}
              {[ "file" := PStr "/var/lib/job/rootfs.tar.gz" ]}
              "/var/lib/job/rootfs.tar.gz" "/var/lib/lava/dispatcher/tmp/tmpdir"
              [("etc", None); ("etc/hostname", Some "lava")]
              {[ "nfsroot" := PStr "/srv/nfs/root" ]})
    as (st' & Hrun & _ & Hms & _ & Hold).
  - vm_compute. reflexivity.
  - vm_compute. reflexivity.
  - vm_compute. reflexivity.
  - vm_compute. reflexivity.
  - discriminate.
  - vm_compute. reflexivity.
  - vm_compute. reflexivity.
  - vm_compute. reflexivity.
  - exists st'. split; [exact Hrun |]. split.
    + apply (Hms ("etc/hostname", Some "lava")). simpl. right. by left.
    + rewrite (Hold (PStr "/srv/nfs/root")); vm_compute; reflexivity.
Defined.

Lemma ExtractRamdisk_run_records_witness :
  exists dir s1 er,
    mkdtemp working_externals None downloads_state = (Ok dir, s1) /\
    data extracted_state !! "extract-overlay-ramdisk" = Some (PDict er) /\
    er !! "extracted_ramdisk" = Some (PStr (path_join dir "ramdisk")) /\
    er !! "ramdisk_file" = Some (PStr (path_join dir "ramdisk.cpio")).
Proof.
  apply (ExtractRamdisk_run_records working_externals ramdisk_action tt tt
           downloads_state extracted_state).
  - vm_compute. reflexivity.
  - vm_compute. reflexivity.
Defined.

Lemma CompressRamdisk_run_guards_witness :
  CompressRamdisk_run working_externals ramdisk_action tt downloads_state
    = (Raise (RuntimeError "Unable to find unpacked ramdisk"), downloads_state) /\
  CompressRamdisk_run working_externals ramdisk_action tt half_extracted_state
    = (Raise (RuntimeError "Unable to find ramdisk directory"), half_extracted_state).
Proof.
  split.
  - apply (CompressRamdisk_run_guards working_externals ramdisk_action tt
             downloads_state ∅).
    + vm_compute. reflexivity.
    + vm_compute. reflexivity.
    + vm_compute. reflexivity.
  - apply (CompressRamdisk_run_guards working_externals ramdisk_action tt
             half_extracted_state {[ "extracted_ramdisk" := PStr "/tmp/tmpdir/ramdisk" ]}).
    + vm_compute. reflexivity.
    + vm_compute. reflexivity.
    + vm_compute. eauto.
    + vm_compute. reflexivity.
Defined.





End OverlayMoreWitnesses.

(** ** pyocd.py: where the validation of the monitor action ends *)

Section PyOCDMore.
Import PyOCD.

Lemma set_errors_inv e st u st' :
  set_errors e st = (Ok u, st') ->
  data st' = data st /\ fs st' = fs st /\ sub_command st' = sub_command st.
Proof.
  destruct e as [msg |]; simpl; [destruct (String.eqb msg "") |];
    unfold mret, Py_ret, modify; by intros [= <- <-].
Qed.

(** X20.  [MonitorPyOCDAction.validate] never returns: it calls
    [download_keys], which is the 'download_action' entry of the job data
    and no function.  With the device's pyocd parameters, a board id and
    the entry in place, it raises TypeError there, after it has set
    [sub_command] to the flock prefix, the pyocd binary and the options;
    the loop over the downloads and the check for an empty command are not
    reached. *)
Theorem MonitorPyOCDAction_validate_stops_at_the_call X self st :
  (forall u st', MonitorPyOCDAction_validate X self st <> (Ok u, st')) /\
  (forall bp binary e st1 options board ns dk,
     pyocd_parameters (job_device self) = Some bp ->
     bp !! "command" = Some binary ->
     infrastructure_error X binary st = (Ok e, st1) ->
     default (PList []) (bp !! "options") = PList options ->
     job_device self !! "board_id" = Some (PStr board) ->
     parameters self !! "namespace" = None ->
     data st1 !! "common" = Some (PDict ns) ->
     ns !! "download_action" = Some dk ->
     exists st',
       MonitorPyOCDAction_validate X self st = (Raise TypeError, st') /\
       sub_command st'
         = ([PStr "flock -o /var/lock/lava-pyocd.lck"; binary] ++ options)%list /\
       data st' = data st1 /\ fs st' = fs st1).
Proof.
  split.
  - intros u st' H. unfold MonitorPyOCDAction_validate in H.
    repeat (apply bind_inv_Ok in H as (? & ? & ? & H));
      repeat match goal with
             | H : lift (call _) _ = _ |- _ => apply lift_inv in H as [_ H]; discriminate
             end.
  - intros bp binary e st1 options board ns dk Hbp Hcmd Hinf Hopt Hb Hns Hcommon Hdk.
    apply pyocd_parameters_inv in Hbp as (a & b & m & bt & Ea & Eb & Em & Ep & Ebp).
    unfold MonitorPyOCDAction_validate. py_unfold. simpl.
    rewrite Ea; simpl; rewrite Eb; simpl; rewrite Em; simpl; rewrite Ep; simpl.
    rewrite Ebp; simpl; rewrite Hcmd; simpl; rewrite Hinf.
    destruct (set_errors e st1) as [[[] | x] st2] eqn:Es.
    2: { destruct e as [msg |]; simpl in Es; [destruct (String.eqb msg "") |];
         discriminate. }
    apply set_errors_inv in Es as (Hd2 & Hf2 & _).
    simpl. rewrite Hopt. simpl. rewrite Hb. simpl. rewrite Hns. simpl.
    destruct (String.eqb board "0000000000"); simpl.
    + rewrite Hd2, Hcommon. simpl. rewrite Hdk. simpl. eauto.
    + rewrite Hd2, Hcommon. simpl. rewrite Hdk. simpl. eauto.
Qed.

End PyOCDMore.

Section PyOCDMoreWitness.
Import PyOCD Sample.

Lemma MonitorPyOCDAction_validate_stops_at_the_call_witness :
  exists st',
    MonitorPyOCDAction_validate sample_externals pyocd_action pyocd_state
      = (Raise TypeError, st') /\
    sub_command st'
      = [PStr "flock -o /var/lock/lava-pyocd.lck"; PStr "pyocd-flashtool"] /\
    data st' = data pyocd_state.
Proof.
  destruct (MonitorPyOCDAction_validate_stops_at_the_call sample_externals pyocd_action
              pyocd_state) as [_ H].
  destruct (H {[ "command" := PStr "pyocd-flashtool" ]} (PStr "pyocd-flashtool")
              (Some "Cannot find command 'pyocd-flashtool' in $PATH") pyocd_state
              [] "0000000000" {[ "download_action" := PDict ∅ ]} (PDict ∅))
    as (st' & Hrun & Hsub & Hdata & _).
  - vm_compute. reflexivity.
  - vm_compute. reflexivity.
  - vm_compute. reflexivity.
  - vm_compute. reflexivity.
  - vm_compute. reflexivity.
  - vm_compute. reflexivity.
  - vm_compute. reflexivity.
  - vm_compute. reflexivity.
  - exists st'. split; [exact Hrun |]. split; [exact Hsub | exact Hdata].
Defined.

End PyOCDMoreWitness.

(** ** service.py: refreshing the set of boards *)

Section ServiceFacts.
Import Service.

Ltac mem_solver :=
  rewrite ?elem_of_cons, ?not_elem_of_cons in *; intuition congruence.

(** The name a configuration gives, as a key of [self.boards]. *)
Lemma update_loop_spec cfgs keys :
  Forall2 (fun cfg k => rbind (getitem cfg "hostname") hash_key = Ok k) cfgs keys ->
  NoDup keys ->
  forall nb s,
  exists nb' s' started,
    update_loop cfgs nb s = (Ok nb', s') /\
    (forall k, boards s' !! k = if decide (k ∈ keys) then None else boards s !! k) /\
    (forall k, k ∉ keys -> nb' !! k = nb !! k) /\
    (forall k b, k ∈ keys -> boards s !! k = Some b -> nb' !! k = Some b) /\
    (forall k, k ∈ keys -> boards s !! k = None ->
               exists b, nb' !! k = Some b /\ b ∈ started /\ board_name b = k) /\
    (forall b, b ∈ started ->
               created s <= serial b < created s' /\ board_name b ∈ keys /\
               boards s !! board_name b = None /\ nb' !! board_name b = Some b) /\
    NoDup (serial <$> started) /\
    calls s' = (calls s ++ (Start <$> started))%list /\
    created s <= created s'.
Proof.
  induction 1 as [| cfg k cfgs keys Hk Hall IH]; intros Hnd nb s.
  - exists nb, s, []. simpl. split; [done |]. split; [done |]. split; [done |].
    split; [intros k b Hin; by apply not_elem_of_nil in Hin |].
    split; [intros k Hin; by apply not_elem_of_nil in Hin |].
    split; [intros b Hin; by apply not_elem_of_nil in Hin |].
    split; [constructor |]. split; [by rewrite app_nil_r | lia].
  - apply NoDup_cons in Hnd as [Hnotin Hnd]. simpl. rewrite Hk.
    destruct (boards s !! k) as [b |] eqn:Eb.
    + destruct (IH Hnd (<[k := b]> nb)
                  (mkBoardSet (delete k (boards s)) (calls s) (created s)))
        as (nb' & s' & started & Hrun & P1 & P2 & P3 & P4 & P5 & P6 & P7 & P8).
      simpl in *. exists nb', s', started. split; [exact Hrun |].
      split; [| split; [| split; [| split; [| split; [| done]]]]].
      * intros k'. rewrite P1. destruct (decide (k' = k)) as [-> | Hne].
        -- rewrite decide_False by done. rewrite decide_True by mem_solver.
           apply lookup_delete_eq.
        -- rewrite lookup_delete_ne by done.
           destruct (decide (k' ∈ keys)); [by rewrite decide_True by mem_solver |].
           by rewrite decide_False by mem_solver.
      * intros k' Hk'. rewrite P2 by mem_solver. apply lookup_insert_ne. mem_solver.
      * intros k' b' Hk' Hb'. destruct (decide (k' = k)) as [-> | Hne].
        -- rewrite P2 by done. rewrite lookup_insert_eq. congruence.
        -- apply P3; [mem_solver |]. by rewrite lookup_delete_ne.
      * intros k' Hk' Hb'. destruct (decide (k' = k)) as [-> | Hne]; [congruence |].
        apply P4; [mem_solver |]. by rewrite lookup_delete_ne.
      * intros b' Hb'. destruct (P5 b' Hb') as (H1 & H2 & H3 & H4).
        split; [done |]. split; [mem_solver |]. split; [| done].
        destruct (decide (board_name b' = k)) as [E | Hne]; [congruence |].
        by rewrite lookup_delete_ne in H3.
    + set (b := mkBoard (created s) k).
      destruct (IH Hnd (<[k := b]> nb)
                  (mkBoardSet (boards s) (calls s ++ [Start b]) (S (created s))))
        as (nb' & s' & started & Hrun & P1 & P2 & P3 & P4 & P5 & P6 & P7 & P8).
      simpl in *. exists nb', s', (b :: started). split; [exact Hrun |].
      assert (nb' !! k = Some b) as Hnb by (rewrite P2 by done; apply lookup_insert_eq).
      split; [| split; [| split; [| split; [| split; [| split; [| split]]]]]].
      * intros k'. rewrite P1. destruct (decide (k' = k)) as [-> | Hne].
        -- rewrite decide_False by done. by rewrite decide_True by mem_solver.
        -- destruct (decide (k' ∈ keys)); [by rewrite decide_True by mem_solver |].
           by rewrite decide_False by mem_solver.
      * intros k' Hk'. rewrite P2 by mem_solver. apply lookup_insert_ne. mem_solver.
      * intros k' b' Hk' Hb'. destruct (decide (k' = k)) as [-> | Hne]; [congruence |].
        apply P3; [mem_solver | done].
      * intros k' Hk' Hb'. destruct (decide (k' = k)) as [-> | Hne].
        -- exists b. split; [done |]. split; [mem_solver | done].
        -- destruct (P4 k') as (b' & H1 & H2 & H3); [mem_solver | done |].
           exists b'. split; [done |]. split; [mem_solver | done].
      * intros b' [-> | Hb']%elem_of_cons.
        -- simpl. split; [lia |]. split; [mem_solver |]. done.
        -- destruct (P5 b' Hb') as (H1 & H2 & H3 & H4).
           split; [lia |]. split; [mem_solver | done].
      * rewrite fmap_cons. apply NoDup_cons. split; [| done].
        intros (b' & Hs & Hb')%list_elem_of_fmap. apply P5 in Hb' as [H1 _].
        simpl in Hs. lia.
      * rewrite P7. rewrite fmap_cons. by rewrite <- app_assoc.
      * lia.
Qed.


Lemma update_loop_app cfgs rest nb s :
  update_loop (cfgs ++ rest) nb s =
    match update_loop cfgs nb s with
    | (Ok nb', s') => update_loop rest nb' s'
    | r => r
    end.
Proof.
  revert nb s. induction cfgs as [| cfg cfgs IH]; intros nb s; [done |].
  simpl. destruct (rbind (getitem cfg "hostname") hash_key) as [k | e]; [| done].
  destruct (boards s !! k); apply IH.
Qed.

(** X21.  [BoardSet._cbUpdateBoards] on configurations that each name a
    board, no name twice: afterwards [self.boards] holds exactly the named
    boards; a board known before is the same object as before; for each
    unknown name one board is created and started, once; every board that
    is no longer named is stopped and dropped; and nothing else is
    called. *)
Theorem cbUpdateBoards_refreshes cfgs keys s :
  Forall2 (fun cfg k => rbind (getitem cfg "hostname") hash_key = Ok k) cfgs keys ->
  NoDup keys ->
  exists s' started (left : gmap hashable Board),
    _cbUpdateBoards cfgs s = (Ok tt, s') /\
    (forall k, is_Some (boards s' !! k) <-> k ∈ keys) /\
    (forall k b, k ∈ keys -> boards s !! k = Some b -> boards s' !! k = Some b) /\
    calls s' = (calls s ++ (Start <$> started) ++ (Stop <$> (map_to_list left).*2))%list /\
    NoDup (serial <$> started) /\
    (forall b, b ∈ started <->
               exists k, k ∈ keys /\ boards s !! k = None /\ boards s' !! k = Some b) /\
    (forall b, b ∈ started -> board_name b ∈ keys /\ created s <= serial b < created s') /\
    (forall k, left !! k = if decide (k ∈ keys) then None else boards s !! k).
Proof.
  intros Hall Hnd.
  destruct (update_loop_spec cfgs keys Hall Hnd ∅ s)
    as (nb' & s1 & started & Hrun & P1 & P2 & P3 & P4 & P5 & P6 & P7 & P8).
  unfold _cbUpdateBoards. rewrite Hrun.
  eexists _, started, (boards s1). split; [reflexivity |]. simpl.
  split; [| split; [| split; [| split; [| split; [| split]]]]].
  - intros k. split.
    + intros [b Hb]. destruct (decide (k ∈ keys)) as [| Hn]; [done |].
      rewrite P2 in Hb by done. by rewrite lookup_empty in Hb.
    + intros Hk. destruct (boards s !! k) as [b |] eqn:E.
      * rewrite (P3 k b Hk E). eauto.
      * destruct (P4 k Hk E) as (b & -> & _). eauto.
  - exact P3.
  - rewrite P7. by rewrite <- app_assoc.
  - exact P6.
  - intros b. split.
    + intros Hb. destruct (P5 b Hb) as (_ & H2 & H3 & H4). eauto.
    + intros (k & Hk & Hn & Hb). destruct (P4 k Hk Hn) as (b' & H1 & H2 & _).
      congruence.
  - intros b Hb. destruct (P5 b Hb) as (H1 & H2 & _). done.
  - exact P1.
Qed.

(** X22.  When a configuration has no usable 'hostname',
    [BoardSet._cbUpdateBoards] raises at it.  The boards named before it
    have already been popped from [self.boards], which is changed in
    place, and [new_boards] is lost: they are forgotten without [stop]
    being called, and the boards created on the way were started and are
    referenced nowhere. *)
Theorem cbUpdateBoards_raise_forgets cfgs keys bad rest e s :
  Forall2 (fun cfg k => rbind (getitem cfg "hostname") hash_key = Ok k) cfgs keys ->
  NoDup keys ->
  rbind (getitem bad "hostname") hash_key = Raise e ->
  exists s' started,
    _cbUpdateBoards (cfgs ++ bad :: rest) s = (Raise e, s') /\
    (forall k, boards s' !! k = if decide (k ∈ keys) then None else boards s !! k) /\
    calls s' = (calls s ++ (Start <$> started))%list /\
    (forall k, k ∈ keys -> boards s !! k = None ->
               exists b, b ∈ started /\ board_name b = k).
Proof.
  intros Hall Hnd Hbad.
  destruct (update_loop_spec cfgs keys Hall Hnd ∅ s)
    as (nb' & s1 & started & Hrun & P1 & P2 & P3 & P4 & P5 & P6 & P7 & P8).
  unfold _cbUpdateBoards. rewrite update_loop_app, Hrun. simpl. rewrite Hbad.
  exists s1, started. split; [done |]. split; [exact P1 |]. split; [exact P7 |].
  intros k Hk Hn. destruct (P4 k Hk Hn) as (b & _ & H2 & H3). eauto.
Qed.

(** X23.  [DatabaseJobSource.getBoardList_impl] returns host names, not
    dictionaries, so [BoardSet._cbUpdateBoards] applied to its result
    raises TypeError at the first board ([board_cfg['hostname']] on a
    string) and changes nothing; on an empty device table it stops every
    board and leaves none. *)
Theorem cbUpdateBoards_of_getBoardList db s :
  _cbUpdateBoards (PStr <$> JobCompletion.getBoardList_impl db) s =
    match DbJobSource.devices db with
    | [] => (Ok tt, mkBoardSet ∅ (calls s ++ (Stop <$> (map_to_list (boards s)).*2))
                      (created s))
    | _ => (Raise TypeError, s)
    end.
Proof.
  unfold JobCompletion.getBoardList_impl. by destruct (DbJobSource.devices db).
Qed.

End ServiceFacts.

Section ServiceWitnesses.
Import Service Sample MoreSamples.

Lemma cbUpdateBoards_refreshes_witness :
  exists s' started,
    _cbUpdateBoards later_cfgs two_boards = (Ok tt, s') /\
    boards s' !! Some (inr "panda01") = None /\
    boards s' !! Some (inr "panda02") = Some (mkBoard 1 (Some (inr "panda02"))) /\
    is_Some (boards s' !! Some (inr "panda03")) /\
    exists left : gmap hashable Board,
      calls s' = (calls two_boards ++ (Start <$> started)
                    ++ (Stop <$> (map_to_list left).*2))%list /\
      left !! Some (inr "panda01") = Some (mkBoard 0 (Some (inr "panda01"))) /\
      left !! Some (inr "panda02") = None.
Proof.
  destruct (cbUpdateBoards_refreshes later_cfgs
              [Some (inr "panda02"); Some (inr "panda03")] two_boards)
    as (s' & started & left & Hrun & Hdom & Hkept & Hcalls & _ & _ & _ & Hleft).
  - repeat constructor.
  - apply (bool_decide_unpack _). vm_compute. reflexivity.
  - exists s', started. split; [exact Hrun |]. split; [| split; [| split]].
    + destruct (boards s' !! Some (inr "panda01")) as [b |] eqn:E; [| reflexivity].
      assert (Some (inr "panda01") ∈ [Some (inr "panda02"); Some (inr "panda03")])
        as Hin by (apply Hdom; eauto).
      exfalso. revert Hin. apply (bool_decide_unpack _). vm_compute. reflexivity.
    + apply Hkept; [| vm_compute; reflexivity].
      apply (bool_decide_unpack _). vm_compute. reflexivity.
    + apply Hdom. apply (bool_decide_unpack _). vm_compute. reflexivity.
    + exists left. split; [exact Hcalls |].
      split; rewrite Hleft; vm_compute; reflexivity.
Defined.

Lemma cbUpdateBoards_raise_forgets_witness :
  exists s' started,
    _cbUpdateBoards broken_cfgs two_boards = (Raise (KeyError "hostname"), s') /\
    boards s' !! Some (inr "panda02") = None /\
    boards s' !! Some (inr "panda01") = Some (mkBoard 0 (Some (inr "panda01"))) /\
    calls s' = (calls two_boards ++ (Start <$> started))%list.
Proof.
  destruct (cbUpdateBoards_raise_forgets [PDict {[ "hostname" := PStr "panda02" ]}]
              [Some (inr "panda02")] (PDict ∅)
              [PDict {[ "hostname" := PStr "panda03" ]}] (KeyError "hostname") two_boards)
    as (s' & started & Hrun & Hboards & Hcalls & _).
  - repeat constructor.
  - apply (bool_decide_unpack _). vm_compute. reflexivity.
  - reflexivity.
  - exists s', started. split; [exact Hrun |].
    split; [rewrite Hboards; vm_compute; reflexivity |].
    split; [rewrite Hboards; vm_compute; reflexivity | exact Hcalls].
Defined.

End ServiceWitnesses.

(** ** Completion, the TFTP pipeline, and downloads that fail to unpack *)

Section CompletionMore.
Import DbJobSource JobCompletion.

Lemma get_one_inv {A} (l : list A) x : get_one l = inr x -> l = [x].
Proof. destruct l as [| y [| z l]]; simpl; try discriminate. by intros [= ->]. Qed.


End CompletionMore.

Section PipelineMore.
Import ApplyOverlay.
Context {Conn : Type}.

Lemma param_get_None self k : parameters self !! k = None -> param_get self k = PNone.
Proof. unfold param_get. by intros ->. Qed.

(** X25.  The pipeline [PrepareOverlayTftp.populate] builds, run by
    [PrepareOverlayTftp.run] with none of nfsrootfs, ramdisk and modules
    set: the three extracting actions do nothing, and once the overlay
    action has returned [ApplyOverlayTftp.run] raises ValueError with
    the state the overlay action left; [CompressRamdisk.run] and the rest
    of [run] are not reached. *)
Theorem PrepareOverlayTftp_run_without_parameters X self
    (OverlayAction_run : Conn -> Py Conn) (c c1 : Conn) st st1 :
  parameters self !! "nfsrootfs" = None ->
  parameters self !! "ramdisk" = None ->
  parameters self !! "modules" = None ->
  OverlayAction_run c st = (Ok c1, st1) ->
  PrepareOverlayTftp_run (PrepareOverlayTftp_populate X self OverlayAction_run) c st
    = (Raise (ValueError "nothing to open"), st1).
Proof.
  intros Hn Hr Hm Ho.
  apply param_get_None in Hn, Hr, Hm.
  unfold PrepareOverlayTftp_run, PrepareOverlayTftp_populate. simpl.
  unfold ExtractNfsRootfs_run, ExtractRamdisk_run, ExtractModules_run,
    ApplyOverlayTftp_run, CompressRamdisk_run.
  rewrite Hn, Hr, Hm. py_unfold. simpl. rewrite Ho. reflexivity.
Qed.



(** X28.  What [ExtractRamdisk.run] asks of its commands: a run that
    returns has had the empty string from "gzip -d -f" on the renamed
    download ([is not ''] lets nothing else pass) and a result that is
    true in a condition from "cpio -i -F", which was started in the
    directory 'ramdisk' inside the one [mkdtemp] made. *)
Theorem ExtractRamdisk_run_needs_quiet_gzip X self (c c' : Conn) st st' :
  truthy (param_get self "ramdisk") = true ->
  ExtractRamdisk_run X self c st = (Ok c', st') ->
  exists dir s1 sa sa' sb sb' out,
    mkdtemp X None st = (Ok dir, s1) /\
    run_command X (split_space ("gzip -d -f " ++ path_join dir (RAMDISK_COMPRESSED_FNAME X))) sa
      = (Ok (PStr ""), sa') /\
    run_command X (split_space ("cpio -i -F " ++ path_join dir (RAMDISK_FNAME X))) sb
      = (Ok out, sb') /\
    truthy out = true /\
    cwd (fs sb) = resolve (fs sa') (path_join dir "ramdisk").
Proof.
  intros Hr H. unfold ExtractRamdisk_run in H. rewrite Hr in H. simpl in H.
  apply bind_inv_Ok in H as (da & s0 & Hda & H). apply data_entry_inv in Hda as [-> Hda].
  apply bind_inv_Ok in H as (r & s0 & Hrd & H). apply lift_inv in Hrd as [-> Hrd].
  apply bind_inv_Ok in H as (ramdisk & s0 & Hfile & H). apply lift_inv in Hfile as [-> Hfile].
  apply bind_inv_Ok in H as (dir & s1 & Hmk & H).
  apply bind_inv_Ok in H as ([] & s2 & _ & H).
  apply bind_inv_Ok in H as ([] & s3 & _ & H).
  apply bind_inv_Ok in H as (out & s4 & Hgzip & H).
  destruct (is_not_empty_str out) eqn:Eout; [discriminate |].
  apply bind_inv_Ok in H as (pwd & s5 & Hpwd & H). apply gets_inv in Hpwd as [-> _].
  apply bind_inv_Ok in H as ([] & s6 & Hcd & H). apply os_chdir_inv in Hcd as ->.
  apply bind_inv_Ok in H as (out2 & s7 & Hcpio & H).
  destruct (truthy out2) eqn:Eout2; [| discriminate].
  exists dir, s1, s3, s4, (with_fs (fs_chdir (path_join dir "ramdisk") (fs s4)) s4), s7, out2.
  split; [done |]. split; [| split; [done |]; split; [done |]; done].
  destruct out as [| | s | |]; try discriminate. simpl in Eout.
  apply negb_false_iff, String.eqb_eq in Eout. by subst s.
Qed.

End PipelineMore.
Section CompletionMoreWitness.
Import DbJobSource JobCompletion Sample MoreSamples.


End CompletionMoreWitness.

Section PipelineMoreWitnesses.
Import Overlay ApplyOverlay Sample MoreSamples.

Lemma PrepareOverlayTftp_run_without_parameters_witness :
  PrepareOverlayTftp_run
    (PrepareOverlayTftp_populate sample_externals overlay_action
       (CompressOverlay_run overlay_action)) tt overlay_state
  = (Raise (ValueError "nothing to open"), compressed_state).
Proof.
  apply (PrepareOverlayTftp_run_without_parameters sample_externals overlay_action
           (CompressOverlay_run overlay_action) tt tt overlay_state compressed_state).
  - reflexivity.
  - reflexivity.
  - reflexivity.
  - vm_compute. reflexivity.
Defined.



Lemma ExtractRamdisk_run_needs_quiet_gzip_witness :
  exists dir s1 sa sa' sb sb' out,
    mkdtemp working_externals None downloads_state = (Ok dir, s1) /\
    run_command working_externals
      (split_space ("gzip -d -f " ++ path_join dir "ramdisk.cpio.gz")) sa
      = (Ok (PStr ""), sa') /\
    run_command working_externals
      (split_space ("cpio -i -F " ++ path_join dir "ramdisk.cpio")) sb = (Ok out, sb') /\
    truthy out = true /\
    cwd (fs sb) = resolve (fs sa') (path_join dir "ramdisk").
Proof.
  apply (ExtractRamdisk_run_needs_quiet_gzip working_externals ramdisk_action tt tt
           downloads_state extracted_state).
  - vm_compute. reflexivity.
  - vm_compute. reflexivity.
Defined.

End PipelineMoreWitnesses.
